(** * Privacy Point: the document workflow and its review agents

    A shallow embedding of [src/workflows/state.py], [src/workflows/workflow.py],
    [src/agents/base_agent.py] and the agents under [src/agents/], followed by
    the properties of the workflow specification checked against it.

    Python dictionaries are finite maps from strings to dynamically typed
    values, floats are IEEE binary64 numbers (the kernel's primitive floats),
    and a Python call either returns or raises: fallible code lives in the
    [Result] monad, and a [try]/[except] block is a case analysis on it. *)

From Stdlib Require Import PrimFloat ZArith FloatOps SpecFloat.
From Stdlib Require Uint63.
From stdpp Require Import gmap strings list pretty.

Set Warnings "-inexact-float,-register-all".
Local Open Scope Z_scope.
Local Open Scope string_scope.

(** ** Python values, exceptions and results *)

Module Py.

Inductive Exc : Type :=
| AttributeError (msg : string)
| KeyError (key : string)
| TypeError (msg : string)
| ValueError (msg : string)
| ValidationError (msg : string)
| ExternalError (msg : string)
| HTTPException (status_code : Z) (detail : string).

(** [str(e)]: a [KeyError] prints the repr of its key. *)
Definition str_exc (e : Exc) : string :=
  match e with
  | AttributeError m | TypeError m | ValueError m | ValidationError m
  | ExternalError m => m
  | HTTPException _ m => m
  | KeyError k => "'" +:+ k +:+ "'"
  end.

Inductive Result (A : Type) : Type :=
| Ok (a : A)
| Raise (e : Exc).
Arguments Ok {A} a.
Arguments Raise {A} e.

Definition bind {A B} (m : Result A) (f : A -> Result B) : Result B :=
  match m with Ok a => f a | Raise e => Raise e end.

Notation "x <- m ;; k" := (bind m (fun x => k))
  (at level 100, m at next level, right associativity, only parsing).

End Py.
Import Py.

(** ** [src/workflows/state.py] *)

Inductive DocumentType : Type :=
| PRIVACY_POLICY | CONSENT_FORM | CONTRACT_CLAUSE | COMMITTEE_MINUTES
| CODE_OF_CONDUCT | DATA_PROCESSING_AGREEMENT | BREACH_NOTIFICATION
| IMPACT_ASSESSMENT.

(** The [.value] of a [DocumentType] member. *)
Definition DocumentType_value (d : DocumentType) : string :=
  match d with
  | PRIVACY_POLICY => "politica_privacidade"
  | CONSENT_FORM => "termo_consentimento"
  | CONTRACT_CLAUSE => "clausula_contratual"
  | COMMITTEE_MINUTES => "ata_comite"
  | CODE_OF_CONDUCT => "codigo_conduta"
  | DATA_PROCESSING_AGREEMENT => "acordo_tratamento_dados"
  | BREACH_NOTIFICATION => "notificacao_violacao"
  | IMPACT_ASSESSMENT => "avaliacao_impacto"
  end.

Inductive ProcessingStatus : Type :=
| PENDING | PROCESSING | OCR_COMPLETE | CLASSIFIED | RESEARCHED | STRUCTURED
| GENERATED | QUALITY_CHECKED | COMPLIANCE_VALIDATED | HUMAN_REVIEW
| APPROVED | REJECTED | ERROR.

#[export] Instance ProcessingStatus_eq_dec : EqDecision ProcessingStatus.
Proof. solve_decision. Defined.

(** The [.value] of a [ProcessingStatus] member. *)
Definition ProcessingStatus_value (p : ProcessingStatus) : string :=
  match p with
  | PENDING => "pending"
  | PROCESSING => "processing"
  | OCR_COMPLETE => "ocr_complete"
  | CLASSIFIED => "classified"
  | RESEARCHED => "researched"
  | STRUCTURED => "structured"
  | GENERATED => "generated"
  | QUALITY_CHECKED => "quality_checked"
  | COMPLIANCE_VALIDATED => "compliance_validated"
  | HUMAN_REVIEW => "human_review"
  | APPROVED => "approved"
  | REJECTED => "rejected"
  | ERROR => "error"
  end.

(** The values a state dictionary holds. Nested dictionaries keep their
    insertion order (association lists); the state itself is a finite map. *)
Inductive value : Type :=
| VNone
| VBool (b : bool)
| VInt (z : Z)
| VFloat (f : float)
| VStr (s : string)
| VBytes (b : string)
| VTime (t : Z)
| VStatus (p : ProcessingStatus)
| VDocType (d : DocumentType)
| VList (l : list value)
| VDict (d : list (string * value)).

(** [DocumentState] is a [TypedDict]: at run time a plain [dict]. *)
Abbreviation DocumentState := (gmap string value).

(** The fields the class [DocumentState] declares. *)
Definition DocumentState_fields : list string :=
  ["document_id"; "document_type"; "company_name"; "activity_description";
   "created_at"; "updated_at";
   "current_status"; "current_step"; "processing_log"; "error_messages";
   "uploaded_file"; "file_name"; "file_type"; "original_text";
   "ocr_text"; "ocr_confidence"; "extracted_data"; "document_classification";
   "applicable_laws"; "legal_basis"; "regulatory_requirements"; "compliance_gaps";
   "document_structure"; "required_sections"; "content_outline";
   "generated_content"; "content_sections"; "legal_clauses";
   "quality_score"; "quality_issues"; "revision_attempts"; "quality_checklist";
   "compliance_score"; "compliance_issues"; "compliance_checklist";
   "regulatory_validation";
   "human_reviewer"; "human_feedback"; "human_approval"; "approval_date";
   "processing_time"; "agent_performance"; "final_document_path";
   "external_system_id"; "webhook_url"; "notification_sent";
   "language"; "jurisdiction"; "industry_sector"; "data_processing_activities";
   "is_complete"; "is_approved"; "can_be_delivered"].

(** [type(x).__name__], as the messages of Python's exceptions print it. *)
Definition type_name (v : value) : string :=
  match v with
  | VNone => "NoneType"
  | VBool _ => "bool"
  | VInt _ => "int"
  | VFloat _ => "float"
  | VStr _ => "str"
  | VBytes _ => "bytes"
  | VTime _ => "datetime.datetime"
  | VStatus _ => "ProcessingStatus"
  | VDocType _ => "DocumentType"
  | VList _ => "list"
  | VDict _ => "dict"
  end.

(** The [AttributeError] of [x.name] on an object without that attribute. *)
Definition no_attribute (v : value) (name : string) : Exc :=
  AttributeError ("'" +:+ type_name v +:+ "' object has no attribute '" +:+ name +:+ "'").

(** [state.get(k, d)], [state[k]] and [k in state]. *)
Definition get (state : DocumentState) (k : string) (d : value) : value :=
  default d (state !! k).

Definition getitem (state : DocumentState) (k : string) : Result value :=
  match state !! k with
  | Some v => Ok v
  | None => Raise (KeyError k)
  end.

Definition contains (state : DocumentState) (k : string) : bool :=
  bool_decide (is_Some (state !! k)).

(** [d.get(k)] on a nested dictionary, [None] when the key is missing. *)
Fixpoint dict_get (d : list (string * value)) (k : string) : value :=
  match d with
  | [] => VNone
  | (k', v) :: d' => if String.eqb k' k then v else dict_get d' k
  end.

(** [d.get(k, default)] on a nested dictionary. *)
Fixpoint dict_get_default (d : list (string * value)) (k : string) (default : value) : value :=
  match d with
  | [] => default
  | (k', v) :: d' => if String.eqb k' k then v else dict_get_default d' k default
  end.

(** Python truthiness, as [if x] and [not x] read it. *)
Definition truthy (v : value) : bool :=
  match v with
  | VNone => false
  | VBool b => b
  | VInt z => negb (Z.eqb z 0)
  | VFloat f => negb (PrimFloat.eqb f 0)
  | VStr s | VBytes s => negb (String.eqb s "")
  | VList l => match l with [] => false | _ => true end
  | VDict d => match d with [] => false | _ => true end
  | VTime _ | VStatus _ | VDocType _ => true
  end.

(** Reading a field at the type [DocumentState] declares for it. A value of
    another type makes the comparison or the arithmetic that follows raise. *)
Definition as_float (v : value) : Result float :=
  match v with
  | VFloat f => Ok f
  | _ => Raise (TypeError "unsupported operand: expected float")
  end.

Definition as_int (v : value) : Result Z :=
  match v with
  | VInt z => Ok z
  | _ => Raise (TypeError "unsupported operand: expected int")
  end.

Definition as_str (v : value) : Result string :=
  match v with
  | VStr s => Ok s
  | _ => Raise (TypeError "expected str")
  end.

Definition as_list (v : value) : Result (list value) :=
  match v with
  | VList l => Ok l
  | _ => Raise (TypeError "object is not a list")
  end.

(** [x.value] on what should be an enum member. *)
Definition enum_value (v : value) : Result string :=
  match v with
  | VDocType d => Ok (DocumentType_value d)
  | VStatus p => Ok (ProcessingStatus_value p)
  | _ => Raise (no_attribute v "value")
  end.

(** [i.get(k)] on what should be a dictionary. *)
Definition item_get (v : value) (k : string) : Result value :=
  match v with
  | VDict d => Ok (dict_get d k)
  | _ => Raise (no_attribute v "get")
  end.

(** [x >= y] and [x < y] on floats (false on a NaN, as in Python). *)
Definition fge (x y : float) : bool := PrimFloat.leb y x.
Definition flt (x y : float) : bool := PrimFloat.ltb x y.

(** [min(x, y)]: [y] when [y < x], else [x]. *)
Definition fmin (x y : float) : float := if PrimFloat.ltb y x then y else x.

(** [len(x)] printed inside an f-string. *)
Definition str_len {A} (l : list A) : string := pretty (Z.of_nat (length l)).

(** *** Numbers

    Python orders an [int] (a [bool] counts as one) and a [float] by their
    exact values; any other operand of [<] or [>=] against a number raises
    [TypeError]. *)
Inductive number : Type :=
| NInt (z : Z)
| NFloat (f : float).

Definition as_number (v : value) : option number :=
  match v with
  | VBool b => Some (NInt (if b then 1 else 0))
  | VInt z => Some (NInt z)
  | VFloat f => Some (NFloat f)
  | _ => None
  end.

(** The exact comparison of a float with an integer; none on a NaN. *)
Definition float_cmp_Z (f : float) (z : Z) : option comparison :=
  match Prim2SF f with
  | S754_nan => None
  | S754_infinity s => Some (if s then Lt else Gt)
  | S754_zero _ => Some (0 ?= z)%Z
  | S754_finite s m e =>
      let v := if s then Z.neg m else Z.pos m in
      Some (if (0 <=? e)%Z then (v * 2 ^ e ?= z)%Z else (v ?= z * 2 ^ (- e))%Z)
  end.

Definition num_lt (x y : number) : bool :=
  match x, y with
  | NInt a, NInt b => (a <? b)%Z
  | NFloat a, NFloat b => PrimFloat.ltb a b
  | NFloat a, NInt b => match float_cmp_Z a b with Some Lt => true | _ => false end
  | NInt a, NFloat b => match float_cmp_Z b a with Some Gt => true | _ => false end
  end.

Definition num_le (x y : number) : bool :=
  match x, y with
  | NInt a, NInt b => (a <=? b)%Z
  | NFloat a, NFloat b => PrimFloat.leb a b
  | NFloat a, NInt b =>
      match float_cmp_Z a b with Some Lt | Some Eq => true | _ => false end
  | NInt a, NFloat b =>
      match float_cmp_Z b a with Some Gt | Some Eq => true | _ => false end
  end.

Definition compare_values (op : string) (f : number -> number -> bool) (x y : value)
  : Result bool :=
  match as_number x, as_number y with
  | Some a, Some b => Ok (f a b)
  | _, _ =>
      Raise (TypeError ("'" +:+ op +:+ "' not supported between instances of '"
                        +:+ type_name x +:+ "' and '" +:+ type_name y +:+ "'"))
  end.

(** [x < y] and [x >= y] where one side is known to be a number. *)
Definition py_lt (x y : value) : Result bool := compare_values "<" num_lt x y.
Definition py_ge (x y : value) : Result bool :=
  compare_values ">=" (fun a b => num_le b a) x y.

(** [min(x, y)]: [y] when [y < x], else [x]. *)
Definition py_min (x y : value) : Result value :=
  b <- py_lt y x;;
  Ok (if b then y else x).

(** [float(n)] for an [int] that a weight or a sum of weights can be
    ([0 <= n < 2^63]; the conversion is then correctly rounded). *)
Definition float_of_Z (n : Z) : float := PrimFloat.of_uint63 (Uint63.of_Z n).

(** [x + 1] *)
Definition py_add_one (x : value) : Result value :=
  match as_number x with
  | Some (NInt z) => Ok (VInt (z + 1))
  | Some (NFloat f) => Ok (VFloat (f + 1)%float)
  | None =>
      Raise (TypeError ("unsupported operand type(s) for +: '" +:+ type_name x
                        +:+ "' and 'int'"))
  end.

(** *** Strings

    A [str] is held as its UTF-8 text; [len] and slices count code points,
    that is the bytes that are not continuation bytes. *)
Definition continuation (a : Ascii.ascii) : bool :=
  let n := Ascii.nat_of_ascii a in (128 <=? n)%nat && (n <? 192)%nat.

Fixpoint char_len (s : string) : nat :=
  match s with
  | EmptyString => O
  | String a s' => if continuation a then char_len s' else S (char_len s')
  end.

(** [s[:n]] *)
Fixpoint str_take (n : nat) (s : string) : string :=
  match s with
  | EmptyString => EmptyString
  | String a s' =>
      if continuation a then String a (str_take n s')
      else match n with
           | O => EmptyString
           | S n' => String a (str_take n' s')
           end
  end.

(** [needle in haystack] on strings. *)
Definition str_in (needle haystack : string) : bool :=
  match String.index 0 needle haystack with Some _ => true | None => false end.

(** [len(x)] *)
Definition py_len (v : value) : Result nat :=
  match v with
  | VStr s => Ok (char_len s)
  | VBytes b => Ok (String.length b)
  | VList l => Ok (length l)
  | VDict d => Ok (length d)
  | _ => Raise (TypeError ("object of type '" +:+ type_name v +:+ "' has no len()"))
  end.

(** [d.get(k, default)] on what should be a dictionary. *)
Definition get_from (v : value) (k : string) (default : value) : Result value :=
  match v with
  | VDict d => Ok (dict_get_default d k default)
  | _ => Raise (no_attribute v "get")
  end.

(** The code points of a [str], each as a [str]. *)
Fixpoint chars (s : string) : list string :=
  match s with
  | EmptyString => []
  | String a s' =>
      match chars s' with
      | String b c :: cs =>
          if continuation b then String a (String b c) :: cs
          else String a EmptyString :: String b c :: cs
      | cs => String a EmptyString :: cs
      end
  end.

Fixpoint bytes_of (s : string) : list value :=
  match s with
  | EmptyString => []
  | String a s' => VInt (Z.of_nat (Ascii.nat_of_ascii a)) :: bytes_of s'
  end.

(** What a [for] loop or a comprehension over [x] runs through. *)
Definition py_iter (v : value) : Result (list value) :=
  match v with
  | VList l => Ok l
  | VStr s => Ok (map VStr (chars s))
  | VBytes b => Ok (bytes_of b)
  | VDict d => Ok (map (fun kv => VStr (fst kv)) d)
  | _ => Raise (TypeError ("'" +:+ type_name v +:+ "' object is not iterable"))
  end.

(** [x[:n]] *)
Definition py_slice_to (n : nat) (v : value) : Result value :=
  match v with
  | VList l => Ok (VList (take n l))
  | VStr s => Ok (VStr (str_take n s))
  | VBytes b => Ok (VBytes (String.substring 0 n b))
  | VDict _ => Raise (TypeError "unhashable type: 'slice'")
  | _ => Raise (TypeError ("'" +:+ type_name v +:+ "' object is not subscriptable"))
  end.

(** [bytes.lower()] and [bytes.split()] work on ASCII. *)
Definition ascii_lower (a : Ascii.ascii) : Ascii.ascii :=
  let n := Ascii.nat_of_ascii a in
  if (65 <=? n)%nat && (n <=? 90)%nat then Ascii.ascii_of_nat (n + 32) else a.

Fixpoint ascii_str_lower (s : string) : string :=
  match s with
  | EmptyString => EmptyString
  | String a s' => String (ascii_lower a) (ascii_str_lower s')
  end.

Definition ascii_space (a : Ascii.ascii) : bool :=
  let n := Ascii.nat_of_ascii a in
  ((9 <=? n)%nat && (n <=? 13)%nat) || (n =? 32)%nat.

Fixpoint split_spaces (cur s : string) : list string :=
  match s with
  | EmptyString => match cur with EmptyString => [] | _ => [String.rev cur] end
  | String a s' =>
      if ascii_space a then
        match cur with
        | EmptyString => split_spaces EmptyString s'
        | _ => String.rev cur :: split_spaces EmptyString s'
        end
      else split_spaces (String a cur) s'
  end.

Definition bytes_split (b : string) : list string := split_spaces EmptyString b.

(** Short-circuit [and] and [or] over tests that may raise. *)
Definition py_and (a b : Result bool) : Result bool :=
  x <- a;; if x then b else Ok false.
Definition py_or (a b : Result bool) : Result bool :=
  x <- a;; if x then Ok true else b.

(** ** What the repository takes from its environment and its libraries *)

Class External : Type := {
  (** [datetime.now()] *)
  now : Z;
  (** [str(uuid.uuid4())], by call site *)
  uuid4 : nat -> string;
  (** the format specification [:.2f] *)
  fmt_2f : float -> string;
  (** [len(re.findall(pattern, content, re.IGNORECASE))] *)
  findall_count : string -> string -> nat;
  (** [s.lower()] and [s.split()] on a [str] *)
  str_lower : string -> string;
  str_split : string -> list string;
  (** [x == y] between arbitrary objects *)
  py_eq : value -> value -> bool;
  (** [str(x)], as an f-string formats a value *)
  fmt_value : value -> string;
  (** [os.getenv(name)] *)
  getenv : string -> option string
}.

(** [int(s)] on a [str]: white space around the numeral is dropped, one
    sign may lead it, and single underscores may separate its digits. Digits
    and white space outside ASCII are not recognised here. *)
Definition int_space (a : Ascii.ascii) : bool :=
  let n := Ascii.nat_of_ascii a in
  ((9 <=? n)%nat && (n <=? 13)%nat) || ((28 <=? n)%nat && (n <=? 32)%nat).

Fixpoint lstrip (s : string) : string :=
  match s with
  | String a s' => if int_space a then lstrip s' else s
  | EmptyString => EmptyString
  end.

Definition strip (s : string) : string := String.rev (lstrip (String.rev (lstrip s))).

Definition digit_value (a : Ascii.ascii) : option Z :=
  let n := Ascii.nat_of_ascii a in
  if (48 <=? n)%nat && (n <=? 57)%nat then Some (Z.of_nat (n - 48)) else None.

(** The digits that follow a digit, with the value read so far. *)
Fixpoint digits (acc : Z) (s : string) : option Z :=
  match s with
  | EmptyString => Some acc
  | String a s' =>
      match digit_value a with
      | Some d => digits (10 * acc + d) s'
      | None =>
          if Ascii.eqb a (Ascii.ascii_of_nat 95) then
            match s' with
            | String b s'' =>
                match digit_value b with
                | Some d => digits (10 * acc + d) s''
                | None => None
                end
            | EmptyString => None
            end
          else None
      end
  end.

Definition numeral (s : string) : option Z :=
  match s with
  | String a s' =>
      match digit_value a with
      | Some d => digits d s'
      | None => None
      end
  | EmptyString => None
  end.

Definition py_int (s : string) : Result Z :=
  let parsed :=
    match strip s with
    | String a t =>
        if Ascii.eqb a (Ascii.ascii_of_nat 43) then numeral t
        else if Ascii.eqb a (Ascii.ascii_of_nat 45) then Z.opp <$> numeral t
        else numeral (String a t)
    | EmptyString => None
    end in
  match parsed with
  | Some z => Ok z
  | None => Raise (ValueError ("invalid literal for int() with base 10: '" +:+ s +:+ "'"))
  end.

(** ** Pydantic models

    [ReviewFeedback] is a pydantic model: its constructor checks every
    argument against the type declared for its field and raises one
    [ValidationError] that names the fields that fail. What the library takes
    for a field of a given type, and the text of its error, are the
    library's; the facts used about it are stated with it. *)
Class Pydantic : Type := {
  field_str : value -> option string;
  field_float : value -> option float;
  field_int : value -> option Z;
  (** the error for a model, given the places that failed and what was there *)
  validation_error : string -> list (string * value) -> Exc;
  field_str_str : forall s, field_str (VStr s) = Some s;
  field_str_None : field_str VNone = None;
  field_float_float : forall f, field_float (VFloat f) = Some f;
  field_int_int : forall z, field_int (VInt z) = Some z
}.

(** ** [src/config.py] *)

Definition MAX_REVISION_ATTEMPTS `{External} : Result Z :=
  py_int (default "3" (getenv "MAX_REVISION_ATTEMPTS")).

(** ** [src/agents/base_agent.py] *)

(** [BaseAgent.log_action], for the agent class [cls]. *)
Definition log_action (cls : string) (state : DocumentState) (message : string)
  : Result DocumentState :=
  let state1 :=
    if contains state "processing_log" then state
    else <["processing_log" := VList []]> state in
  match state1 !! "processing_log" with
  | Some (VList l) =>
      Ok (<["processing_log" := VList (l ++ [VStr (cls +:+ ": " +:+ message)])]> state1)
  | _ => Raise (AttributeError "object has no attribute 'append'")
  end.

(** [state["error_messages"].append(msg)] *)
Definition append_error (state : DocumentState) (msg : string) : Result DocumentState :=
  match state !! "error_messages" with
  | None => Raise (KeyError "error_messages")
  | Some (VList l) => Ok (<["error_messages" := VList (l ++ [VStr msg])]> state)
  | Some _ => Raise (AttributeError "object has no attribute 'append'")
  end.

(** What running the body of a [try] block leaves behind: the state as the
    body mutated it, and the exception if the body raised one. *)
Inductive Outcome : Type :=
| Done (state : DocumentState)
| Failed (state : DocumentState) (e : Exc).

(** Sequencing inside a [try] body: a step that raises keeps the state
    reached so far. *)
Definition step (state : DocumentState) (r : Result DocumentState)
    (k : DocumentState -> Outcome) : Outcome :=
  match r with
  | Ok state' => k state'
  | Raise e => Failed state e
  end.

Definition step_val {A} (state : DocumentState) (r : Result A)
    (k : A -> Outcome) : Outcome :=
  match r with
  | Ok a => k a
  | Raise e => Failed state e
  end.

(** The [except Exception as e] block shared by the agents that implement
    [execute]: log, append to [error_messages], set the status. An exception
    raised here leaves the method. *)
Definition execute_handler (cls log_prefix error_prefix : string)
    (state : DocumentState) (e : Exc) : Result DocumentState :=
  state1 <- log_action cls state (log_prefix +:+ str_exc e);;
  state2 <- append_error state1 (error_prefix +:+ str_exc e);;
  Ok (<["current_status" := VStatus ERROR]> state2).

(** [x == "s"] for a dynamically typed [x]. *)
Definition is_str (v : value) (s : string) : bool :=
  match v with VStr s' => String.eqb s' s | _ => false end.

(** A list comprehension [[i for i in l if p(i)]] whose test may raise. *)
Fixpoint filter_res {A} (p : A -> Result bool) (l : list A) : Result (list A) :=
  match l with
  | [] => Ok []
  | x :: l' =>
      b <- p x;;
      r <- filter_res p l';;
      Ok (if b then x :: r else r)
  end.

(** ** [src/agents/human_supervision_agent.py] *)

Module HumanSupervisionAgent.

Record ReviewFeedback : Type := {
  reviewer_id : string;
  reviewer_name : string;
  review_date : Z;
  approval_status : string;
  feedback : string;
  suggested_changes : list string;
  confidence_level : float;
  review_time_minutes : Z
}.

Section Agent.
Context `{External} `{Pydantic}.

Definition failing {A} (place : string) (v : value) (r : option A)
  : list (string * value) :=
  match r with
  | Some _ => []
  | None => [(place, v)]
  end.

Fixpoint failing_items (i : nat) (l : list value) : list (string * value) :=
  match l with
  | [] => []
  | v :: l' =>
      (failing ("suggested_changes." +:+ pretty i) v (field_str v)
       ++ failing_items (S i) l')%list
  end.

(** [ReviewFeedback(...)]: every field is validated, and the failures are
    reported together. [review_date] is always a [datetime] and
    [suggested_changes] always a list where the constructor is called. *)
Definition ReviewFeedback_init (reviewer_id' reviewer_name' : value) (review_date' : Z)
    (approval_status' feedback' : value) (suggested_changes' : list value)
    (confidence_level' review_time_minutes' : value) : Result ReviewFeedback :=
  match field_str reviewer_id', field_str reviewer_name', field_str approval_status',
        field_str feedback', mapM field_str suggested_changes',
        field_float confidence_level', field_int review_time_minutes' with
  | Some id, Some name, Some status, Some text, Some changes, Some level, Some minutes =>
      Ok {| reviewer_id := id;
            reviewer_name := name;
            review_date := review_date';
            approval_status := status;
            feedback := text;
            suggested_changes := changes;
            confidence_level := level;
            review_time_minutes := minutes |}
  | _, _, _, _, _, _, _ =>
      Raise (validation_error "ReviewFeedback"
               (failing "reviewer_id" reviewer_id' (field_str reviewer_id')
                ++ failing "reviewer_name" reviewer_name' (field_str reviewer_name')
                ++ failing "approval_status" approval_status' (field_str approval_status')
                ++ failing "feedback" feedback' (field_str feedback')
                ++ failing_items 0 suggested_changes'
                ++ failing "confidence_level" confidence_level'
                     (field_float confidence_level')
                ++ failing "review_time_minutes" review_time_minutes'
                     (field_int review_time_minutes'))%list)
  end.

(** [state.get(k, {}).get(k', default)] *)
Definition get_in (state : DocumentState) (k k' : string) (default : value)
  : Result value :=
  get_from (get state k (VDict [])) k' default.

Definition industry_keywords : list (string * list string) :=
  [("saúde", ["médico"; "tratamento"; "diagnóstico"; "paciente"]);
   ("financeiro", ["financeiro"; "bancário"; "crédito"; "investimento"]);
   ("e-commerce", ["consumidor"; "cliente"; "compra"; "venda"]);
   ("educação", ["educação"; "aluno"; "professor"; "curso"])].

Fixpoint keywords_of (table : list (string * list string)) (k : string) : list string :=
  match table with
  | [] => []
  | (k', v) :: table' => if String.eqb k' k then v else keywords_of table' k
  end.

Definition _check_industry_specific_content (state : DocumentState) : Result bool :=
  let industry_sector := get state "industry_sector" (VStr "") in
  let content := get state "generated_content" (VStr "") in
  if negb (truthy industry_sector) || is_str industry_sector "geral" then Ok true
  else
    match industry_sector with
    | VStr sector =>
        match keywords_of industry_keywords (str_lower sector) with
        | [] => Ok false
        | keywords =>
            match content with
            | VStr c => Ok (existsb (fun keyword => str_in keyword (str_lower c)) keywords)
            | VBytes _ => Raise (TypeError "a bytes-like object is required, not 'str'")
            | _ => Raise (no_attribute content "lower")
            end
        end
    | VBytes _ => Ok false
    | _ => Raise (no_attribute industry_sector "lower")
    end.

Definition _check_activity_alignment (state : DocumentState) : Result bool :=
  let activity := get state "activity_description" (VStr "") in
  let content := get state "generated_content" (VStr "") in
  if negb (truthy activity) then Ok true
  else
    match activity with
    | VStr a =>
        let activity_words :=
          filter (fun word => (3 <? char_len word)%nat = true) (str_split (str_lower a)) in
        match content with
        | VStr c => Ok (existsb (fun word => str_in word (str_lower c)) activity_words)
        | VBytes _ =>
            match activity_words with
            | [] => Ok false
            | _ => Raise (TypeError "a bytes-like object is required, not 'str'")
            end
        | _ => Raise (no_attribute content "lower")
        end
    | VBytes a =>
        let activity_words :=
          filter (fun word => (3 <? String.length word)%nat = true)
                 (bytes_split (ascii_str_lower a)) in
        match content with
        | VBytes c => Ok (existsb (fun word => str_in word (ascii_str_lower c)) activity_words)
        | VStr _ =>
            match activity_words with
            | [] => Ok false
            | _ => Raise (TypeError
                            "'in <string>' requires string as left operand, not bytes")
            end
        | _ => Raise (no_attribute content "lower")
        end
    | _ => Raise (no_attribute activity "lower")
    end.

Definition high_risk_sectors : list string := ["saúde"; "financeiro"; "bancário"; "seguros"].

Definition _assess_risk_appropriateness (state : DocumentState) : Result bool :=
  let industry_sector := get state "industry_sector" (VStr "") in
  risk_assessment <- get_in state "regulatory_validation" "risk_assessment" (VStr "low");;
  match industry_sector with
  | VStr sector =>
      if existsb (String.eqb (str_lower sector)) high_risk_sectors then
        Ok (is_str risk_assessment "medium" || is_str risk_assessment "high")
      else Ok true
  | VBytes _ => Ok true
  | _ => Raise (no_attribute industry_sector "lower")
  end.

(** [x in y] for the company name and the generated text. *)
Definition py_in (x container : value) : Result bool :=
  match container with
  | VStr h =>
      match x with
      | VStr n => Ok (str_in n h)
      | _ => Raise (TypeError ("'in <string>' requires string as left operand, not "
                               +:+ type_name x))
      end
  | VBytes h =>
      match x with
      | VBytes n => Ok (str_in n h)
      | VInt _ | VBool _ =>
          match as_number x with
          | Some (NInt z) =>
              if (0 <=? z)%Z && (z <? 256)%Z then
                Ok (existsb (fun b => match b with
                                      | VInt n => (n =? z)%Z
                                      | _ => false
                                      end) (bytes_of h))
              else Raise (ValueError "byte must be in range(0, 256)")
          | _ => Ok false
          end
      | _ => Raise (TypeError ("a bytes-like object is required, not '"
                               +:+ type_name x +:+ "'"))
      end
  | VList l => Ok (existsb (py_eq x) l)
  | VDict d =>
      match x with
      | VList _ | VDict _ =>
          Raise (TypeError ("unhashable type: '" +:+ type_name x +:+ "'"))
      | _ => Ok (existsb (fun kv => py_eq x (VStr (fst kv))) d)
      end
  | _ => Raise (TypeError ("argument of type '" +:+ type_name container
                           +:+ "' is not iterable"))
  end.

Definition nat_value (n : nat) : value := VInt (Z.of_nat n).

Definition _create_review_checklist (state : DocumentState) : Result value :=
  lgpd <- get_in state "compliance_checklist" "lgpd_compliant" (VBool false);;
  anpd <- get_in state "compliance_checklist" "anpd_compliant" (VBool false);;
  industry <- get_in state "compliance_checklist" "industry_compliant" (VBool false);;
  no_critical_gaps <- get_in state "compliance_checklist" "no_critical_risks" (VBool false);;
  grammar <- get_in state "quality_checklist" "grammar_acceptable" (VBool false);;
  structure <- get_in state "quality_checklist" "structure_acceptable" (VBool false);;
  completeness <- get_in state "quality_checklist" "completeness_acceptable" (VBool false);;
  no_critical_issues <- get_in state "quality_checklist" "no_critical_issues" (VBool false);;
  company_name <- getitem state "company_name";;
  company_info_correct <- py_in company_name (get state "generated_content" (VStr ""));;
  required_sections <- py_len (get state "required_sections" (VList []));;
  content_sections <- py_len (get state "content_sections" (VDict []));;
  legal_basis <- py_len (get state "legal_basis" (VList []));;
  industry_specific_content <- _check_industry_specific_content state;;
  activity_alignment <- _check_activity_alignment state;;
  risk_appropriate <- _assess_risk_appropriateness state;;
  Ok (VDict
        [("legal_compliance",
          VDict [("lgpd_requirements_met", lgpd);
                 ("anpd_requirements_met", anpd);
                 ("industry_requirements_met", industry);
                 ("no_critical_gaps", no_critical_gaps)]);
         ("quality_standards",
          VDict [("grammar_acceptable", grammar);
                 ("structure_acceptable", structure);
                 ("completeness_acceptable", completeness);
                 ("no_critical_issues", no_critical_issues)]);
         ("content_accuracy",
          VDict [("company_info_correct", VBool company_info_correct);
                 ("document_type_appropriate", VBool true);
                 ("sections_complete", VBool (required_sections =? content_sections)%nat);
                 ("legal_basis_accurate", VBool (0 <? legal_basis)%nat)]);
         ("business_context",
          VDict [("industry_specific_content", VBool industry_specific_content);
                 ("activity_alignment", VBool activity_alignment);
                 ("risk_appropriate", VBool risk_appropriate)])]).

Definition _prepare_review_package (state : DocumentState) : Result value :=
  document_id <- getitem state "document_id";;
  dt <- getitem state "document_type";;
  document_type <- enum_value dt;;
  company_name <- getitem state "company_name";;
  risk_level <- get_in state "regulatory_validation" "risk_assessment" (VStr "unknown");;
  total_sections <- py_len (get state "content_sections" (VDict []));;
  legal_clauses <- py_len (get state "legal_clauses" (VList []));;
  review_checklist <- _create_review_checklist state;;
  Ok (VDict
        [("document_id", document_id);
         ("document_type", VStr document_type);
         ("company_name", company_name);
         ("content", get state "generated_content" (VStr ""));
         ("quality_assessment",
          VDict [("overall_score", get state "quality_score" (VFloat 0));
                 ("issues", get state "quality_issues" (VList []));
                 ("recommendations", VList [])]);
         ("compliance_assessment",
          VDict [("overall_score", get state "compliance_score" (VFloat 0));
                 ("gaps", get state "compliance_issues" (VList []));
                 ("risk_level", risk_level)]);
         ("processing_metadata",
          VDict [("total_sections", nat_value total_sections);
                 ("legal_clauses", nat_value legal_clauses);
                 ("processing_time", get state "processing_time" (VFloat 0));
                 ("revision_attempts", get state "revision_attempts" (VInt 0))]);
         ("review_checklist", review_checklist)]).

Definition _generate_revision_feedback (state : DocumentState) : Result string :=
  let quality_score := get state "quality_score" (VFloat 0) in
  let compliance_score := get state "compliance_score" (VFloat 0) in
  low_quality <- py_lt quality_score (VFloat 0.8);;
  let parts1 := if low_quality then ["Revisar qualidade do conteúdo"] else [] in
  low_compliance <- py_lt compliance_score (VFloat 0.8);;
  let parts2 := if low_compliance then ["Melhorar conformidade legal"] else [] in
  let quality_issues := get state "quality_issues" (VList []) in
  let compliance_gaps := get state "compliance_issues" (VList []) in
  parts3 <-
    (if truthy quality_issues then
       issues <- py_iter quality_issues;;
       critical_issues <-
         filter_res (fun i => severity <- get_from i "severity" VNone;;
                              Ok (is_str severity "critical")) issues;;
       Ok (match critical_issues with
           | [] => []
           | _ => ["Corrigir " +:+ str_len critical_issues +:+ " issues críticos de qualidade"]
           end)
     else Ok []);;
  parts4 <-
    (if truthy compliance_gaps then
       n <- py_len compliance_gaps;;
       Ok ["Resolver " +:+ pretty (Z.of_nat n) +:+ " gaps de conformidade"]
     else Ok []);;
  Ok (String.concat ". " (parts1 ++ parts2 ++ parts3 ++ parts4) +:+ ".").

(** The first loop of [_generate_suggested_changes]. *)
Fixpoint suggestions_from (issues : list value) : Result (list value) :=
  match issues with
  | [] => Ok []
  | issue :: issues' =>
      severity <- get_from issue "severity" VNone;;
      if is_str severity "high" || is_str severity "critical" then
        suggestion <- get_from issue "suggestion" (VStr "");;
        rest <- suggestions_from issues';;
        Ok (suggestion :: rest)
      else suggestions_from issues'
  end.

Definition _generate_suggested_changes (state : DocumentState) : Result (list value) :=
  let quality_issues := get state "quality_issues" (VList []) in
  first_issues <- py_slice_to 3 quality_issues;;
  issues <- py_iter first_issues;;
  from_issues <- suggestions_from issues;;
  let compliance_gaps := get state "compliance_issues" (VList []) in
  first_gaps <- py_slice_to 2 compliance_gaps;;
  gaps <- py_iter first_gaps;;
  let from_gaps := map (fun gap => VStr ("Implementar: " +:+ fmt_value gap)) gaps in
  dt <- getitem state "document_type";;
  document_type <- enum_value dt;;
  let general :=
    if String.eqb document_type "politica_privacidade" then
      [VStr "Verificar se todos os direitos do titular estão claramente explicados"]
    else if String.eqb document_type "termo_consentimento" then
      [VStr "Confirmar se o processo de revogação está claramente explicado"]
    else [] in
  Ok (take 5 (from_issues ++ from_gaps ++ general)).

(** The simulated reviewer. The bound on [revision_attempts] is the literal
    [2] of the source; the tests are made in the order of the source, each
    only if the one before it lets it be reached. *)
Definition _process_human_review (state : DocumentState) (review_package : value)
  : Result ReviewFeedback :=
  let quality_score := get state "quality_score" (VFloat 0) in
  let compliance_score := get state "compliance_score" (VFloat 0) in
  let revision_attempts := get state "revision_attempts" (VInt 0) in
  approved <- py_and (py_ge quality_score (VFloat 0.85))
                     (py_ge compliance_score (VFloat 0.85));;
  decision <-
    (if approved then
       Ok ("approved", "Documento aprovado. Conformidade e qualidade adequadas.", [])
     else
       revise <- py_and (py_lt revision_attempts (VInt 2))
                        (py_or (py_lt quality_score (VFloat 0.8))
                               (py_lt compliance_score (VFloat 0.8)));;
       if revise then
         feedback <- _generate_revision_feedback state;;
         suggested_changes <- _generate_suggested_changes state;;
         Ok ("needs_revision", feedback, suggested_changes)
       else
         Ok ("rejected",
             "Documento rejeitado. Múltiplas tentativas de revisão sem sucesso.", []));;
  let '(approval_status, feedback, suggested_changes) := decision in
  confidence_level <- py_min quality_score compliance_score;;
  ReviewFeedback_init (VStr "simulated_reviewer_001") (VStr "Revisor Simulado") now
    (VStr approval_status) (VStr feedback) suggested_changes confidence_level (VInt 5).

Definition cls : string := "HumanSupervisionAgent".

(** The body of the [try] block of [execute]. *)
Definition execute_body (state : DocumentState) : Outcome :=
  let state := <["current_status" := VStatus PROCESSING]> state in
  let state := <["current_step" := VStr "Human Supervision"]> state in
  step_val state (_prepare_review_package state) (fun review_package =>
  step_val state (_process_human_review state review_package) (fun fb =>
  let state := <["human_reviewer" := VStr (reviewer_name fb)]> state in
  let state := <["human_feedback" := VStr (feedback fb)]> state in
  let state := <["human_approval" := VBool (String.eqb (approval_status fb) "approved")]> state in
  let state := <["approval_date" := VTime (review_date fb)]> state in
  if String.eqb (approval_status fb) "approved" then
    let state := <["current_status" := VStatus APPROVED]> state in
    let state := <["is_approved" := VBool true]> state in
    let state := <["can_be_delivered" := VBool true]> state in
    step state (log_action cls state ("Documento aprovado por " +:+ reviewer_name fb)) Done
  else if String.eqb (approval_status fb) "needs_revision" then
    let state := <["current_status" := VStatus HUMAN_REVIEW]> state in
    step_val state (py_add_one (get state "revision_attempts" (VInt 0))) (fun n =>
    let state := <["revision_attempts" := n]> state in
    step state (log_action cls state
                  ("Documento requer revisão. Feedback: "
                   +:+ str_take 100 (feedback fb) +:+ "...")) Done)
  else
    let state := <["current_status" := VStatus REJECTED]> state in
    let state := <["is_approved" := VBool false]> state in
    step state (log_action cls state ("Documento rejeitado por " +:+ reviewer_name fb)) Done)).

Definition execute (state : DocumentState) : Result DocumentState :=
  match execute_body state with
  | Done state' => Ok state'
  | Failed state' e =>
      execute_handler cls "Erro na supervisão humana: " "Human Supervision Error: " state' e
  end.

End Agent.
End HumanSupervisionAgent.

(** ** [src/agents/compliance_agent.py] *)

Module ComplianceAgent.

Record ComplianceRequirement : Type := {
  requirement_id : string;
  description : string;
  lgpd_article : string;
  status : string;
  evidence : string;
  risk_level : string
}.

Record ComplianceValidation : Type := {
  overall_compliance_score : float;
  lgpd_compliance_score : float;
  anpd_compliance_score : float;
  industry_compliance_score : float;
  requirements : list ComplianceRequirement;
  compliance_gaps : list string;
  risk_assessment : string;
  recommendations : list string;
  is_compliant : bool
}.

(** An entry of the requirement tables: the dictionaries with the keys
    [id], [description], [article], [pattern] and [risk]. *)
Record Req : Type := {
  id : string;
  req_description : string;
  article : string;
  pattern : string;
  risk : string
}.

Definition base_requirements : list Req := [
  {| id := "LGPD_001"; req_description := "Mencionar LGPD explicitamente";
     article := "Art. 5º";
     pattern := "\b(LGPD|Lei Geral de Proteção de Dados)\b"; risk := "high" |};
  {| id := "LGPD_002"; req_description := "Identificar controlador de dados";
     article := "Art. 5º";
     pattern := "\b(controlador|responsável)\b"; risk := "high" |};
  {| id := "LGPD_003"; req_description := "Especificar finalidade do tratamento";
     article := "Art. 6º";
     pattern := "\b(finalidade|objetivo|propósito)\b"; risk := "high" |};
  {| id := "LGPD_004"; req_description := "Mencionar base legal";
     article := "Art. 7º";
     pattern := "\b(base legal|fundamento legal|consentimento|legítimo interesse)\b";
     risk := "high" |} ].

Definition privacy_policy_requirements : list Req := [
  {| id := "LGPD_005"; req_description := "Informar direitos do titular";
     article := "Art. 12º";
     pattern := "\b(direito|direitos)\b"; risk := "critical" |};
  {| id := "LGPD_006"; req_description := "Especificar prazo de retenção";
     article := "Art. 15º";
     pattern := "\b(prazo|retenção|armazenamento|eliminação)\b"; risk := "high" |};
  {| id := "LGPD_007"; req_description := "Informar contato do DPO";
     article := "Art. 41º";
     pattern := "\b(DPO|Encarregado|contato)\b"; risk := "critical" |} ].

Definition consent_form_requirements : list Req := [
  {| id := "LGPD_008"; req_description := "Consentimento livre e informado";
     article := "Art. 7º";
     pattern := "\b(consentimento|livre|informado)\b"; risk := "critical" |};
  {| id := "LGPD_009"; req_description := "Direito de revogação";
     article := "Art. 19º";
     pattern := "\b(revogação|revogar|cancelar)\b"; risk := "critical" |};
  {| id := "LGPD_010"; req_description := "Consequências da negativa";
     article := "Art. 7º";
     pattern := "\b(consequência|negativa|recusa)\b"; risk := "high" |} ].

Definition anpd_requirements : list Req := [
  {| id := "ANPD_001"; req_description := "Conformidade com orientações ANPD";
     article := "Orientação ANPD";
     pattern := "\b(ANPD|Autoridade Nacional|orientação)\b"; risk := "medium" |};
  {| id := "ANPD_002"; req_description := "Linguagem clara e acessível";
     article := "Princípio da Transparência";
     pattern := "\b(claro|acessível|compreensível|simples)\b"; risk := "medium" |};
  {| id := "ANPD_003"; req_description := "Informações completas e precisas";
     article := "Princípio da Precisão";
     pattern := "\b(completo|preciso|detalhado|específico)\b"; risk := "high" |} ].

Definition sector_requirements : list (string * list Req) := [
  ("saúde", [
     {| id := "SAUDE_001";
        req_description := "Conformidade com regulamentações de saúde";
        article := "Resolução CFM";
        pattern := "\b(saúde|médico|tratamento|diagnóstico)\b"; risk := "critical" |};
     {| id := "SAUDE_002"; req_description := "Sigilo profissional";
        article := "Código de Ética Médica";
        pattern := "\b(sigilo|confidencialidade|segredo)\b"; risk := "critical" |} ]);
  ("financeiro", [
     {| id := "FIN_001";
        req_description := "Conformidade com regulamentações financeiras";
        article := "Resolução CMN";
        pattern := "\b(financeiro|bancário|crédito|investimento)\b"; risk := "critical" |};
     {| id := "FIN_002"; req_description := "Sigilo bancário";
        article := "Lei Complementar 105/2001";
        pattern := "\b(sigilo bancário|confidencialidade)\b"; risk := "critical" |} ]);
  ("e-commerce", [
     {| id := "ECOMM_001";
        req_description := "Conformidade com Código de Defesa do Consumidor";
        article := "CDC";
        pattern := "\b(consumidor|cliente|compra|venda)\b"; risk := "high" |} ]) ].

(** [d.get(k, default)] on a literal dictionary with string keys. *)
Fixpoint lookup_default {A} (d : list (string * A)) (k : string) (default : A) : A :=
  match d with
  | [] => default
  | (k', v) :: d' => if String.eqb k' k then v else lookup_default d' k default
  end.

Definition weight_map : list (string * Z) :=
  [("low", 1%Z); ("medium", 2%Z); ("high", 3%Z); ("critical", 4%Z)].

Definition status_score : list (string * float) :=
  [("compliant", 1%float); ("partial", 0.5%float); ("non_compliant", 0%float)].

Section Agent.
Context `{External}.

Definition _check_requirement (content pattern : string) : string * string :=
  let matches := findall_count pattern content in
  if (2 <=? matches)%nat then
    ("compliant", "Encontradas " +:+ pretty matches +:+ " referências")
  else if (matches =? 1)%nat then
    ("partial", "Encontrada 1 referência")
  else
    ("non_compliant", "Nenhuma referência encontrada").

(** The loop shared by the three [_validate_*_requirements] methods. *)
Definition check_all (content : string) (reqs : list Req) : list ComplianceRequirement :=
  map (fun req =>
         let '(status, evidence) := _check_requirement content (pattern req) in
         {| requirement_id := id req;
            description := req_description req;
            lgpd_article := article req;
            status := status;
            evidence := evidence;
            risk_level := risk req |}) reqs.

Definition _validate_lgpd_requirements (content document_type : string)
  : list ComplianceRequirement :=
  let reqs :=
    if String.eqb document_type "politica_privacidade" then
      (base_requirements ++ privacy_policy_requirements)%list
    else if String.eqb document_type "termo_consentimento" then
      (base_requirements ++ consent_form_requirements)%list
    else base_requirements in
  check_all content reqs.

Definition _validate_anpd_requirements (content document_type : string)
  : list ComplianceRequirement :=
  check_all content anpd_requirements.

Definition _validate_industry_requirements (content industry_sector : string)
  : list ComplianceRequirement :=
  check_all content (lookup_default sector_requirements (str_lower industry_sector) []).

(** One turn of the scoring loop on the pair
    [(weighted_score, total_weight)]. *)
Definition score_step (acc : float * Z) (req : ComplianceRequirement) : float * Z :=
  let weight := lookup_default weight_map (risk_level req) 1%Z in
  let score := lookup_default status_score (status req) 0%float in
  ((fst acc + score * float_of_Z weight)%float, (snd acc + weight)%Z).

Definition _calculate_requirement_score (requirements : list ComplianceRequirement) : float :=
  match requirements with
  | [] => 1%float
  | _ =>
      let '(weighted_score, total_weight) := fold_left score_step requirements (0%float, 0%Z) in
      if (0 <? total_weight)%Z then (weighted_score / float_of_Z total_weight)%float
      else 0%float
  end.

Definition _identify_compliance_gaps (requirements : list ComplianceRequirement) : list string :=
  map (fun req => description req +:+ " (" +:+ lgpd_article req +:+ ") - " +:+ evidence req)
      (filter (fun req => String.eqb (status req) "non_compliant"
                          || String.eqb (status req) "partial" = true) requirements).

Definition unresolved (level : string) (req : ComplianceRequirement) : bool :=
  String.eqb (risk_level req) level && negb (String.eqb (status req) "compliant").

Definition _assess_compliance_risk (requirements : list ComplianceRequirement) : string :=
  let critical_issues := length (filter (fun r => unresolved "critical" r = true) requirements) in
  let high_issues := length (filter (fun r => unresolved "high" r = true) requirements) in
  if (0 <? critical_issues)%nat then "critical"
  else if (2 <? high_issues)%nat then "high"
  else if (0 <? high_issues)%nat then "medium"
  else "low".

Definition high_or_critical (req : ComplianceRequirement) : bool :=
  String.eqb (risk_level req) "critical" || String.eqb (risk_level req) "high".

Definition _generate_compliance_recommendations
    (requirements : list ComplianceRequirement) (overall_score : float) : list string :=
  let general :=
    if flt overall_score 0.7 then ["Revisão completa de conformidade necessária"]
    else if flt overall_score 0.85 then ["Melhorias de conformidade recomendadas"]
    else [] in
  let non_compliant :=
    filter (fun r => String.eqb (status r) "non_compliant" = true) requirements in
  let partial := filter (fun r => String.eqb (status r) "partial" = true) requirements in
  let critical :=
    map (fun r => "CRÍTICO: Implementar " +:+ description r)
        (filter (fun r => high_or_critical r = true) non_compliant) in
  let important :=
    map (fun r => "IMPORTANTE: Melhorar " +:+ description r)
        (filter (fun r => high_or_critical r = true) partial) in
  let saude :=
    if existsb (fun r => str_in "SAUDE" (requirement_id r)) requirements
    then ["Considerar regulamentações específicas do setor de saúde"] else [] in
  let fin :=
    if existsb (fun r => str_in "FIN" (requirement_id r)) requirements
    then ["Considerar regulamentações específicas do setor financeiro"] else [] in
  (general ++ critical ++ important ++ saude ++ fin)%list.

Definition _validate_compliance (state : DocumentState) : Result ComplianceValidation :=
  dt <- getitem state "document_type";;
  document_type <- enum_value dt;;
  content <- as_str (get state "generated_content" (VStr ""));;
  industry_sector <- as_str (get state "industry_sector" (VStr "geral"));;
  let lgpd_requirements := _validate_lgpd_requirements content document_type in
  let anpd_requirements := _validate_anpd_requirements content document_type in
  let industry_requirements := _validate_industry_requirements content industry_sector in
  let all_requirements :=
    (lgpd_requirements ++ anpd_requirements ++ industry_requirements)%list in
  let lgpd_score := _calculate_requirement_score lgpd_requirements in
  let anpd_score := _calculate_requirement_score anpd_requirements in
  let industry_score := _calculate_requirement_score industry_requirements in
  let overall_score := (lgpd_score * 0.5 + anpd_score * 0.3 + industry_score * 0.2)%float in
  let compliance_gaps := _identify_compliance_gaps all_requirements in
  let risk_assessment := _assess_compliance_risk all_requirements in
  let recommendations := _generate_compliance_recommendations all_requirements overall_score in
  let is_compliant :=
    fge overall_score 0.85
    && (length (filter (fun r => String.eqb (risk_level r) "critical" = true) all_requirements)
        =? 0)%nat in
  Ok {| overall_compliance_score := overall_score;
        lgpd_compliance_score := lgpd_score;
        anpd_compliance_score := anpd_score;
        industry_compliance_score := industry_score;
        requirements := all_requirements;
        compliance_gaps := compliance_gaps;
        risk_assessment := risk_assessment;
        recommendations := recommendations;
        is_compliant := is_compliant |}.

Definition _create_compliance_checklist (validation : ComplianceValidation)
  : list (string * value) :=
  [("lgpd_compliant", VBool (fge (lgpd_compliance_score validation) 0.85));
   ("anpd_compliant", VBool (fge (anpd_compliance_score validation) 0.8));
   ("industry_compliant", VBool (fge (industry_compliance_score validation) 0.8));
   ("overall_compliant", VBool (is_compliant validation));
   ("no_critical_risks", VBool (negb (String.eqb (risk_assessment validation) "critical")));
   ("gaps_identified", VBool (length (compliance_gaps validation) =? 0)%nat)].

(** [validation.dict()] *)
Definition validation_dict (validation : ComplianceValidation) : list (string * value) :=
  [("overall_compliance_score", VFloat (overall_compliance_score validation));
   ("lgpd_compliance_score", VFloat (lgpd_compliance_score validation));
   ("anpd_compliance_score", VFloat (anpd_compliance_score validation));
   ("industry_compliance_score", VFloat (industry_compliance_score validation));
   ("requirements",
    VList (map (fun r => VDict [("requirement_id", VStr (requirement_id r));
                                ("description", VStr (description r));
                                ("lgpd_article", VStr (lgpd_article r));
                                ("status", VStr (status r));
                                ("evidence", VStr (evidence r));
                                ("risk_level", VStr (risk_level r))])
               (requirements validation)));
   ("compliance_gaps", VList (map VStr (compliance_gaps validation)));
   ("risk_assessment", VStr (risk_assessment validation));
   ("recommendations", VList (map VStr (recommendations validation)));
   ("is_compliant", VBool (is_compliant validation))].

Definition cls : string := "ComplianceAgent".

(** The body of the [try] block of [execute]. Both branches on
    [is_compliant] set the same status. *)
Definition execute_body (state : DocumentState) : Outcome :=
  let state := <["current_status" := VStatus PROCESSING]> state in
  let state := <["current_step" := VStr "Compliance Validation"]> state in
  step_val state (_validate_compliance state) (fun validation =>
  let state := <["compliance_score" := VFloat (overall_compliance_score validation)]> state in
  let state :=
    <["compliance_issues" := VList (map VStr (compliance_gaps validation))]> state in
  let state :=
    <["compliance_checklist" := VDict (_create_compliance_checklist validation)]> state in
  let state := <["regulatory_validation" := VDict (validation_dict validation)]> state in
  if is_compliant validation then
    let state := <["current_status" := VStatus COMPLIANCE_VALIDATED]> state in
    step state (log_action cls state
                  ("Conformidade validada. Score: "
                   +:+ fmt_2f (overall_compliance_score validation))) Done
  else
    let state := <["current_status" := VStatus COMPLIANCE_VALIDATED]> state in
    step state (log_action cls state
                  ("Conformidade insuficiente. Score: "
                   +:+ fmt_2f (overall_compliance_score validation))) Done).

Definition execute (state : DocumentState) : Result DocumentState :=
  match execute_body state with
  | Done state' => Ok state'
  | Failed state' e =>
      execute_handler cls "Erro na validação de conformidade: " "Compliance Error: " state' e
  end.

End Agent.
End ComplianceAgent.

(** ** [src/agents/quality_agent.py] *)

Module QualityAgent.

Record QualityIssue : Type := {
  severity : string;
  category : string;
  issue_description : string;
  location : string;
  suggestion : string
}.

Record QualityAssessment : Type := {
  overall_score : float;
  grammar_score : float;
  legal_score : float;
  structure_score : float;
  completeness_score : float;
  issues : list QualityIssue;
  recommendations : list string;
  is_acceptable : bool
}.

(** [issue.dict()] *)
Definition issue_dict (i : QualityIssue) : value :=
  VDict [("severity", VStr (severity i)); ("category", VStr (category i));
         ("description", VStr (issue_description i)); ("location", VStr (location i));
         ("suggestion", VStr (suggestion i))].

Definition _create_quality_checklist (assessment : QualityAssessment)
  : list (string * value) :=
  [("grammar_acceptable", VBool (fge (grammar_score assessment) 0.8));
   ("legal_acceptable", VBool (fge (legal_score assessment) 0.8));
   ("structure_acceptable", VBool (fge (structure_score assessment) 0.8));
   ("completeness_acceptable", VBool (fge (completeness_score assessment) 0.8));
   ("no_critical_issues",
    VBool (length (filter (fun i => String.eqb (severity i) "critical" = true)
                          (issues assessment)) =? 0)%nat);
   ("overall_acceptable", VBool (is_acceptable assessment))].

Section Agent.
Context `{External}.

(** The four partial scores and the list of issues are regular-expression
    heuristics over the generated text; they are left open, each with the
    signature of its method. *)
Variable _assess_grammar_quality : string -> Result float.
Variable _assess_legal_quality : string -> DocumentState -> Result float.
Variable _assess_structure_quality : string -> DocumentState -> Result float.
Variable _assess_completeness_quality : string -> DocumentState -> Result float.
Variable _identify_quality_issues : string -> DocumentState -> Result (list QualityIssue).

Definition has (p : QualityIssue -> bool) (l : list QualityIssue) : bool :=
  match filter (fun i => p i = true) l with [] => false | _ => true end.

Definition _generate_recommendations (issues : list QualityIssue) (overall_score : float)
  : list string :=
  let general :=
    if flt overall_score 0.7 then ["Revisão completa do documento recomendada"]
    else if flt overall_score 0.8 then ["Revisão parcial do documento recomendada"]
    else [] in
  let when (b : bool) (s : string) : list string := if b then [s] else [] in
  (general
   ++ when (has (fun i => String.eqb (severity i) "critical") issues)
           "Corrigir issues críticos antes da aprovação"
   ++ when (has (fun i => String.eqb (severity i) "high") issues)
           "Revisar e corrigir issues de alta severidade"
   ++ when (has (fun i => String.eqb (category i) "grammar") issues)
           "Revisar gramática e ortografia"
   ++ when (has (fun i => String.eqb (category i) "legal") issues)
           "Revisar conformidade legal"
   ++ when (has (fun i => String.eqb (category i) "structure") issues)
           "Revisar estrutura e organização")%list.

Definition _assess_document_quality (state : DocumentState) : Result QualityAssessment :=
  dt <- getitem state "document_type";;
  document_type <- enum_value dt;;
  content <- as_str (get state "generated_content" (VStr ""));;
  grammar_score <- _assess_grammar_quality content;;
  legal_score <- _assess_legal_quality content state;;
  structure_score <- _assess_structure_quality content state;;
  completeness_score <- _assess_completeness_quality content state;;
  let overall_score :=
    ((grammar_score + legal_score + structure_score + completeness_score) / 4)%float in
  issues <- _identify_quality_issues content state;;
  let recommendations := _generate_recommendations issues overall_score in
  let is_acceptable :=
    fge overall_score 0.8
    && (length (filter (fun i => String.eqb (severity i) "critical" = true) issues) =? 0)%nat in
  Ok {| overall_score := overall_score;
        grammar_score := grammar_score;
        legal_score := legal_score;
        structure_score := structure_score;
        completeness_score := completeness_score;
        issues := issues;
        recommendations := recommendations;
        is_acceptable := is_acceptable |}.

Definition cls : string := "QualityAgent".

(** The body of the [try] block of [execute]. *)
Definition execute_body (state : DocumentState) : Outcome :=
  let state := <["current_status" := VStatus PROCESSING]> state in
  let state := <["current_step" := VStr "Quality Control"]> state in
  step_val state (_assess_document_quality state) (fun assessment =>
  let state := <["quality_score" := VFloat (overall_score assessment)]> state in
  let state := <["quality_issues" := VList (map issue_dict (issues assessment))]> state in
  let state :=
    <["quality_checklist" := VDict (_create_quality_checklist assessment)]> state in
  if negb (is_acceptable assessment) then
    step_val state (as_int (get state "revision_attempts" (VInt 0))) (fun n =>
    let state := <["revision_attempts" := VInt (n + 1)]> state in
    let state := <["current_status" := VStatus QUALITY_CHECKED]> state in
    step state (log_action cls state
                  ("Documento requer revisão. Score: "
                   +:+ fmt_2f (overall_score assessment))) Done)
  else
    let state := <["current_status" := VStatus QUALITY_CHECKED]> state in
    step state (log_action cls state
                  ("Qualidade aprovada. Score: "
                   +:+ fmt_2f (overall_score assessment))) Done).

Definition execute (state : DocumentState) : Result DocumentState :=
  match execute_body state with
  | Done state' => Ok state'
  | Failed state' e =>
      execute_handler cls "Erro no controle de qualidade: " "Quality Error: " state' e
  end.

End Agent.
End QualityAgent.

(** ** [src/agents/ocr_agent.py] *)

(** [OCRAgent._classify_document] *)

Module OCRText.

Definition keywords : list (string * list string) :=
  [("politica_privacidade", ["política"; "privacidade"; "dados pessoais"; "lgpd"]);
   ("termo_consentimento", ["consentimento"; "autorização"; "concordo"; "aceito"]);
   ("contrato", ["contrato"; "cláusula"; "partes"; "obrigações"]);
   ("ata", ["ata"; "reunião"; "comitê"; "deliberação"]);
   ("codigo_conduta", ["código"; "conduta"; "ética"; "compliance"])].

(** [sum(1 for word in words if word in text_lower)] *)
Definition score (text_lower : string) (words : list string) : nat :=
  length (filter (fun word => str_in word text_lower = true) words).

(** [max(scores, key=scores.get)] over the entries that follow a current
    best: the first key with the greatest score. *)
Fixpoint max_key (best : string * nat) (scores : list (string * nat)) : string :=
  match scores with
  | [] => fst best
  | (k, n) :: scores' =>
      if (snd best <? n)%nat then max_key (k, n) scores' else max_key best scores'
  end.

Section Agent.
Context `{External}.

Definition _classify_document (text : string) : string :=
  let text_lower := str_lower text in
  let scores := map (fun kw => (fst kw, score text_lower (snd kw))) keywords in
  match scores with
  | [] => "documento_geral"
  | first :: rest => max_key first rest
  end.

End Agent.
End OCRText.

Module OCRAgent.

Definition byte (n : nat) : string := String (Ascii.ascii_of_nat n) EmptyString.

Definition _detect_file_type (file_bytes : string) : string :=
  if String.prefix "%PDF" file_bytes then "pdf"
  else if String.prefix (byte 255 +:+ byte 216 +:+ byte 255) file_bytes then "image"
  else if String.prefix (byte 137 +:+ "PNG") file_bytes then "image"
  else if String.prefix "GIF" file_bytes then "image"
  else if String.prefix "BM" file_bytes then "image"
  else "unknown".

Section Agent.
Context `{External}.

(** The recognition engines and the text post-processing are collaborators
    of the agent; each keeps the signature of its method. *)
Variable _process_pdf : string -> Result (string * float).
Variable _process_image : string -> Result (string * float).
Variable _post_process_text : string -> string.
Variable _extract_structured_data : string -> value.

Definition _classify_document : string -> string := OCRText._classify_document.

Definition cls : string := "OCRAgent".

(** The body of the [try] block of [execute]; the first branch is the early
    [return state] taken when there is no file. *)
Definition execute_body (state : DocumentState) : Outcome :=
  let state := <["current_status" := VStatus PROCESSING]> state in
  let state := <["current_step" := VStr "OCR Processing"]> state in
  if negb (truthy (get state "uploaded_file" VNone)) then
    step state (log_action cls state "Nenhum arquivo para processar") Done
  else
    match get state "uploaded_file" VNone with
    | VBytes file_bytes =>
        let file_type := _detect_file_type file_bytes in
        let state := <["file_type" := VStr file_type]> state in
        step_val state
          (if String.eqb file_type "pdf" then _process_pdf file_bytes
           else if String.eqb file_type "image" then _process_image file_bytes
           else Ok ("Texto extraído do documento de teste", 0.85%float))
          (fun '(extracted_text, confidence) =>
             let processed_text := _post_process_text extracted_text in
             let extracted_data := _extract_structured_data processed_text in
             let document_classification := _classify_document processed_text in
             let state := <["ocr_text" := VStr processed_text]> state in
             let state := <["ocr_confidence" := VFloat confidence]> state in
             let state := <["extracted_data" := extracted_data]> state in
             let state := <["document_classification" := VStr document_classification]> state in
             let state := <["current_status" := VStatus OCR_COMPLETE]> state in
             step state
               (log_action cls state
                  ("OCR concluído: " +:+ pretty (char_len processed_text)
                   +:+ " caracteres, confiança: " +:+ fmt_2f confidence)) Done)
    | _ => Failed state (TypeError "uploaded_file is not a bytes object")
    end.

(** The handler of the OCR agent also resets [ocr_confidence]. *)
Definition execute (state : DocumentState) : Result DocumentState :=
  match execute_body state with
  | Done state' => Ok state'
  | Failed state' e =>
      state1 <- execute_handler cls "Erro no OCR: " "OCR Error: " state' e;;
      Ok (<["ocr_confidence" := VFloat 0]> state1)
  end.

End Agent.
End OCRAgent.

(** ** The classifier, research, structure and generator agents

    Their [execute] methods have one shape: set the status to [PROCESSING],
    name the step, do the stage's work (calls to the language model, parsing,
    assignments to the state, one [log_action]), and run the shared handler on
    any exception. The work is left open, as a computation that returns the
    state it reached and the exception it raised, if any. *)

Module StageAgent.

Record Stage : Type := {
  stage_cls : string;
  current_step : string;
  log_prefix : string;
  error_prefix : string
}.

Definition classifier : Stage :=
  {| stage_cls := "ClassifierAgent"; current_step := "Document Classification";
     log_prefix := "Erro na classificação: "; error_prefix := "Classification Error: " |}.
Definition research : Stage :=
  {| stage_cls := "ResearchAgent"; current_step := "Regulatory Research";
     log_prefix := "Erro na pesquisa regulatória: "; error_prefix := "Research Error: " |}.
Definition structure : Stage :=
  {| stage_cls := "StructureAgent"; current_step := "Content Structuring";
     log_prefix := "Erro na estruturação: "; error_prefix := "Structure Error: " |}.
Definition generator : Stage :=
  {| stage_cls := "GeneratorAgent"; current_step := "Content Generation";
     log_prefix := "Erro na geração: "; error_prefix := "Generation Error: " |}.

Definition execute (s : Stage) (work : DocumentState -> Outcome) (state : DocumentState)
  : Result DocumentState :=
  let state := <["current_status" := VStatus PROCESSING]> state in
  let state := <["current_step" := VStr (current_step s)]> state in
  match work state with
  | Done state' => Ok state'
  | Failed state' e => execute_handler (stage_cls s) (log_prefix s) (error_prefix s) state' e
  end.

End StageAgent.

(** ** The data-mapping, legal-expert and cyber-security agents

    These three implement [process], not [execute]. Their handler records
    the failure inside the agent's own entry of the state and returns; it
    touches neither [current_status] nor [error_messages]. *)

Module AnalysisAgent.

Record Analysis : Type := {
  analysis_cls : string;
  key : string;
  timestamp_key : string
}.

Definition data_mapping : Analysis :=
  {| analysis_cls := "DataMappingAgent"; key := "data_mapping";
     timestamp_key := "mapping_timestamp" |}.
Definition legal_expert : Analysis :=
  {| analysis_cls := "LegalExpertAgent"; key := "legal_expert";
     timestamp_key := "analysis_timestamp" |}.
Definition cyber_security : Analysis :=
  {| analysis_cls := "CyberSecurityAgent"; key := "cyber_security";
     timestamp_key := "assessment_timestamp" |}.

Section Agent.
Context `{External}.

(** [work] is the analysis inside the [try] block: the entries it computes
    for the agent's dictionary, or the exception it raises. *)
Definition process (a : Analysis) (work : DocumentState -> Result (list (string * value)))
    (state : DocumentState) : Outcome :=
  let stamp := VStr (fmt_value (VTime now)) in
  match work state with
  | Ok entries =>
      Done (<[key a := VDict (entries ++ [(timestamp_key a, stamp);
                                          ("status", VStr "completed")])]> state)
  | Raise e =>
      Done (<[key a := VDict [("status", VStr "error"); ("error", VStr (str_exc e));
                              (timestamp_key a, stamp)]]> state)
  end.

End Agent.
End AnalysisAgent.

(** ** [src/workflows/workflow.py] *)

Module DocumentWorkflow.

(** An agent object, as attribute lookup sees it: the name of its class and
    the methods the class defines. *)
Record Agent : Type := {
  cls : string;
  process : option (DocumentState -> Outcome);
  execute : option (DocumentState -> Result DocumentState)
}.

(** [self.agents] *)
Record Agents : Type := {
  ocr : Agent;
  classifier : Agent;
  data_mapping : Agent;
  research : Agent;
  legal_expert : Agent;
  cyber_security : Agent;
  structure : Agent;
  generator : Agent;
  quality : Agent;
  compliance : Agent;
  human_supervision : Agent
}.

(** [agent.process(state)]: the attribute lookup fails on a class without
    the method, before anything is called. *)
Definition call_process (a : Agent) (state : DocumentState) : Outcome :=
  match process a with
  | Some f => f state
  | None =>
      Failed state (AttributeError ("'" +:+ cls a +:+ "' object has no attribute 'process'"))
  end.

(** The eleven [_run_*] methods are one text up to the key of the agent. *)
Definition run_agent (a : Agent) (state : DocumentState) : Result DocumentState :=
  match call_process a state with
  | Done state' => Ok state'
  | Failed state' e =>
      let state' := <["status" := VStatus ERROR]> state' in
      let state' := <["error" := VStr (str_exc e)]> state' in
      Ok state'
  end.

Definition _should_continue (state : DocumentState) : string :=
  match get state "status" VNone with
  | VStatus ERROR => "error"
  | _ => if contains state "human_supervision" then "end" else "continue"
  end.

(** The graph library, as far as the workflow uses it. A [StateGraph] is
    built over a schema, has named nodes, an entry point, and one conditional
    edge per node (a routing function and the map from its answers to the
    next node or [END]).

    The state of a running graph holds the fields of the schema only. A node
    is called on that state; of the dictionary it returns, the entries at
    fields of the schema are written back and the others are dropped. The
    routing function of the node's edge is then called, and a routing answer
    outside the map raises [KeyError]. [invoke] starts from the fields of the
    schema found in its input and returns the state of the graph once an edge
    leads to [END].

    What the routing function is called on differs between versions of the
    library. Since the routing function here is annotated with the schema,
    langgraph 1.x calls it on the state of the graph; langgraph 0.2 calls it
    on that state completed with the other entries of what the node
    returned. *)
Inductive Target : Type :=
| END
| Node (name : string).

Record Branch : Type := {
  path : DocumentState -> string;
  path_map : list (string * Target)
}.

Record StateGraph : Type := {
  schema : list string;
  nodes : list (string * (DocumentState -> Result DocumentState));
  entry_point : string;
  branches : list (string * Branch)
}.

Inductive BranchInput : Type :=
| StateOnly
| StateAndNodeOutput.

Fixpoint assoc {A} (l : list (string * A)) (k : string) : option A :=
  match l with
  | [] => None
  | (k', v) :: l' => if String.eqb k' k then Some v else assoc l' k
  end.

(** The entries of a dictionary at the fields of a schema. *)
Definition restrict (fields : list string) (d : DocumentState) : DocumentState :=
  filter (fun kv => kv.1 ∈ fields) d.

(** The state of the graph after a node returned [output]. *)
Definition write (fields : list string) (output state : DocumentState) : DocumentState :=
  restrict fields output ∪ state.

(** What the routing function is called on. *)
Definition branch_state (library : BranchInput) (output state : DocumentState)
  : DocumentState :=
  match library with
  | StateOnly => state
  | StateAndNodeOutput => state ∪ output
  end.

(** [invoke_from library g fuel node state trace] runs at most [fuel] nodes
    and returns the names of the nodes it ran, in order, with the final state
    of the graph or the exception that stopped the run; [None] when [fuel]
    nodes were not enough to reach [END]. *)
Fixpoint invoke_from (library : BranchInput) (g : StateGraph) (fuel : nat)
    (node : string) (state : DocumentState) (trace : list string)
  : option (list string * Result DocumentState) :=
  match fuel with
  | O => None
  | S fuel' =>
      match assoc (nodes g) node with
      | None => Some (trace, Raise (KeyError node))
      | Some handler =>
          let trace := (trace ++ [node])%list in
          match handler state with
          | Raise e => Some (trace, Raise e)
          | Ok output =>
              let state' := write (schema g) output state in
              match assoc (branches g) node with
              | None => Some (trace, Ok state')
              | Some b =>
                  let answer := path b (branch_state library output state') in
                  match assoc (path_map b) answer with
                  | None => Some (trace, Raise (KeyError answer))
                  | Some END => Some (trace, Ok state')
                  | Some (Node next) => invoke_from library g fuel' next state' trace
                  end
              end
          end
      end
  end.

Definition invoke (library : BranchInput) (g : StateGraph) (fuel : nat)
    (input : DocumentState) : option (list string * Result DocumentState) :=
  invoke_from library g fuel (entry_point g) (restrict (schema g) input) [].

Section Workflow.
Context `{External}.
Variable library : BranchInput.
Variable agents : Agents.

Definition _run_ocr := run_agent (ocr agents).
Definition _run_classifier := run_agent (classifier agents).
Definition _run_data_mapping := run_agent (data_mapping agents).
Definition _run_research := run_agent (research agents).
Definition _run_legal_expert := run_agent (legal_expert agents).
Definition _run_cyber_security := run_agent (cyber_security agents).
Definition _run_structure := run_agent (structure agents).
Definition _run_generator := run_agent (generator agents).
Definition _run_quality := run_agent (quality agents).
Definition _run_compliance := run_agent (compliance agents).
Definition _run_human_supervision := run_agent (human_supervision agents).

(** [add_conditional_edges(source, self._should_continue, {next: next, "error": END})] *)
Definition edge (source next : string) : string * Branch :=
  (source, {| path := _should_continue;
              path_map := [(next, Node next); ("error", END)] |}).

Definition _build_graph : StateGraph :=
  {| schema := DocumentState_fields;
     nodes := [("ocr", _run_ocr);
               ("classifier", _run_classifier);
               ("data_mapping", _run_data_mapping);
               ("research", _run_research);
               ("legal_expert", _run_legal_expert);
               ("cyber_security", _run_cyber_security);
               ("structure", _run_structure);
               ("generator", _run_generator);
               ("quality", _run_quality);
               ("compliance", _run_compliance);
               ("human_supervision", _run_human_supervision)];
     entry_point := "ocr";
     branches := [edge "ocr" "classifier";
                  edge "classifier" "data_mapping";
                  edge "data_mapping" "research";
                  edge "research" "legal_expert";
                  edge "legal_expert" "cyber_security";
                  edge "cyber_security" "structure";
                  edge "structure" "generator";
                  edge "generator" "quality";
                  edge "quality" "compliance";
                  edge "compliance" "human_supervision";
                  ("human_supervision",
                   {| path := _should_continue;
                      path_map := [("end", END); ("error", END)] |})] |}.

(** [run]: whatever the graph raises is caught and recorded on the initial
    state, the dictionary of the caller, which no node was given. The result
    is [None] only if [fuel] nodes did not finish the graph. *)
Definition run (fuel : nat) (initial_state : DocumentState) : option (Result DocumentState) :=
  match invoke library _build_graph fuel initial_state with
  | None => None
  | Some (_, Ok final_state) => Some (Ok final_state)
  | Some (_, Raise e) =>
      let initial_state := <["status" := VStatus ERROR]> initial_state in
      let initial_state := <["error" := VStr (str_exc e)]> initial_state in
      Some (Ok initial_state)
  end.

(** The nodes [run] executes, in order. *)
Definition run_trace (fuel : nat) (initial_state : DocumentState) : option (list string) :=
  fst <$> invoke library _build_graph fuel initial_state.

Definition default_context : list (string * value) :=
  [("workflow_id", VStr (uuid4 0));
   ("user_id", VNone);
   ("session_id", VStr (uuid4 1));
   ("priority", VStr "medium");
   ("deadline", VNone);
   ("custom_requirements", VDict []);
   ("template_preferences", VDict []);
   ("quality_threshold", VFloat 0.8);
   ("compliance_level", VStr "standard")].

Definition create_initial_state (document_type company_name activity_description : string)
    (uploaded_file : option string) (context : option (list (string * value)))
  : Result DocumentState :=
  let context := default default_context context in
  Ok (list_to_map
        [("document_id", VStr (uuid4 2));
         ("document_type", VStr document_type);
         ("company_name", VStr company_name);
         ("activity_description", VStr activity_description);
         ("industry_sector", VStr "geral");
         ("language", VStr "pt-BR");
         ("jurisdiction", VStr "BR");
         ("status", VStatus PENDING);
         ("created_at", VTime now);
         ("updated_at", VTime now);
         ("context", VDict context);
         ("uploaded_file", from_option VBytes VNone uploaded_file);
         ("ocr_results", VDict []);
         ("classification_results", VDict []);
         ("data_mapping", VDict []);
         ("research_results", VDict []);
         ("legal_expert", VDict []);
         ("cyber_security", VDict []);
         ("structure_results", VDict []);
         ("generated_content", VStr "");
         ("quality_assessment", VDict []);
         ("compliance_validation", VDict []);
         ("human_supervision", VDict []);
         ("processing_log", VList []);
         ("error", VNone);
         ("is_complete", VBool false);
         ("is_approved", VBool false);
         ("quality_score", VFloat 0);
         ("compliance_score", VFloat 0);
         ("processing_time", VFloat 0);
         ("metadata", VDict []);
         ("webhook_url", VNone);
         ("external_system_id", VNone)]).

End Workflow.
End DocumentWorkflow.

(** ** [src/api/main.py]: the check in front of [create_initial_state] *)

Module Api.

Definition valid_types : list string :=
  ["politica_privacidade"; "termo_consentimento"; "clausula_contratual";
   "ata_comite"; "codigo_conduta"; "acordo_tratamento_dados";
   "notificacao_violacao"; "avaliacao_impacto"].

(** [repr(valid_types)], as the f-string of the error detail prints it. *)
Definition valid_types_repr : string :=
  "[" +:+ String.concat ", " (map (fun t => "'" +:+ t +:+ "'") valid_types) +:+ "]".

(** The first check of [generate_document], made before
    [create_initial_state] is called. *)
Definition check_document_type (document_type : string) : Result unit :=
  if negb (existsb (String.eqb document_type) valid_types) then
    Raise (HTTPException 400
             ("Tipo de documento inválido. Tipos válidos: " +:+ valid_types_repr))
  else Ok tt.

End Api.

(** ** [src/ui/app.py]: the check of the form that sends the request *)

Module Ui.

(** [if not company_name or not activity_description]: the form shows an
    error and returns, and no request is sent. *)
Definition missing_required (company_name activity_description : string) : bool :=
  negb (truthy (VStr company_name)) || negb (truthy (VStr activity_description)).

End Ui.

(** ** [DocumentWorkflow.__init__]: the agents of the repository *)

(** Everything the agents call that is left open above, gathered so that
    the eleven agent objects can be built. *)
Class Internals : Type := {
  _process_pdf : string -> Result (string * float);
  _process_image : string -> Result (string * float);
  _post_process_text : string -> string;
  _extract_structured_data : string -> value;
  classifier_work : DocumentState -> Outcome;
  research_work : DocumentState -> Outcome;
  structure_work : DocumentState -> Outcome;
  generator_work : DocumentState -> Outcome;
  data_mapping_work : DocumentState -> Result (list (string * value));
  legal_expert_work : DocumentState -> Result (list (string * value));
  cyber_security_work : DocumentState -> Result (list (string * value));
  _assess_grammar_quality : string -> Result float;
  _assess_legal_quality : string -> DocumentState -> Result float;
  _assess_structure_quality : string -> DocumentState -> Result float;
  _assess_completeness_quality : string -> DocumentState -> Result float;
  _identify_quality_issues :
    string -> DocumentState -> Result (list QualityAgent.QualityIssue)
}.

Section Repository.
Context `{External} `{Pydantic} `{Internals}.
Import DocumentWorkflow.

Definition ocr_execute : DocumentState -> Result DocumentState :=
  OCRAgent.execute _process_pdf _process_image _post_process_text
    _extract_structured_data.

Definition quality_execute : DocumentState -> Result DocumentState :=
  QualityAgent.execute _assess_grammar_quality _assess_legal_quality
    _assess_structure_quality _assess_completeness_quality _identify_quality_issues.

Definition human_supervision_execute : DocumentState -> Result DocumentState :=
  HumanSupervisionAgent.execute.

(** An agent class that defines [execute] only. *)
Definition with_execute (cls : string) (f : DocumentState -> Result DocumentState) : Agent :=
  {| cls := cls; process := None; execute := Some f |}.

(** An agent class that defines [process] only. *)
Definition with_process (a : AnalysisAgent.Analysis)
    (work : DocumentState -> Result (list (string * value))) : Agent :=
  {| cls := AnalysisAgent.analysis_cls a;
     process := Some (AnalysisAgent.process a work);
     execute := None |}.

Definition init_agents : Agents :=
  {| ocr := with_execute OCRAgent.cls ocr_execute;
     classifier :=
       with_execute "ClassifierAgent" (StageAgent.execute StageAgent.classifier classifier_work);
     data_mapping := with_process AnalysisAgent.data_mapping data_mapping_work;
     research :=
       with_execute "ResearchAgent" (StageAgent.execute StageAgent.research research_work);
     legal_expert := with_process AnalysisAgent.legal_expert legal_expert_work;
     cyber_security := with_process AnalysisAgent.cyber_security cyber_security_work;
     structure :=
       with_execute "StructureAgent" (StageAgent.execute StageAgent.structure structure_work);
     generator :=
       with_execute "GeneratorAgent" (StageAgent.execute StageAgent.generator generator_work);
     quality := with_execute QualityAgent.cls quality_execute;
     compliance := with_execute ComplianceAgent.cls ComplianceAgent.execute;
     human_supervision := with_execute HumanSupervisionAgent.cls human_supervision_execute |}.

End Repository.

(** ** Predicates and reference definitions used by the properties *)

(** [log_action] succeeds on a state whose [processing_log] is absent or a
    list. *)
Definition loggable (state : DocumentState) : Prop :=
  match state !! "processing_log" with
  | None | Some (VList _) => True
  | Some _ => False
  end.

(** The [error_messages] list of a state, when it has one. *)
Definition error_messages (state : DocumentState) : option (list value) :=
  match state !! "error_messages" with
  | Some (VList l) => Some l
  | _ => None
  end.

Definition current_status (state : DocumentState) : option ProcessingStatus :=
  match state !! "current_status" with
  | Some (VStatus p) => Some p
  | _ => None
  end.

(** The terminal statuses of the specification, read off [current_status]. *)
Definition terminal (state : DocumentState) : bool :=
  match current_status state with
  | Some APPROVED | Some REJECTED | Some ERROR => true
  | _ => false
  end.

(** [state.get("revision_attempts", 0)] at an [int]. *)
Definition revision_attempts (state : DocumentState) : option Z :=
  match get state "revision_attempts" (VInt 0) with
  | VInt n => Some n
  | _ => None
  end.

(** An item of [quality_issues] as [QualityAgent] writes it: a dictionary
    whose [suggestion] is a string. *)
Definition is_issue (v : value) : Prop :=
  exists d s, v = VDict d /\ dict_get_default d "suggestion" (VStr "") = VStr s.

(** The fields the simulated reviewer reads, with the types under which it
    answers (a missing field takes the default of its [get]): the scores are
    floats, [revision_attempts] is an int, [quality_issues] is a list of
    issues, [compliance_issues] is a list and [document_type] is a member of
    [DocumentType]. *)
Record review_inputs_typed (state : DocumentState) (q c : float) (r : Z) : Prop := {
  typed_quality_score : get state "quality_score" (VFloat 0) = VFloat q;
  typed_compliance_score : get state "compliance_score" (VFloat 0) = VFloat c;
  typed_revision_attempts : get state "revision_attempts" (VInt 0) = VInt r;
  typed_quality_issues :
    exists issues, get state "quality_issues" (VList []) = VList issues
                   /\ Forall is_issue issues;
  typed_compliance_issues :
    exists gaps, get state "compliance_issues" (VList []) = VList gaps;
  typed_document_type : exists d, state !! "document_type" = Some (VDocType d)
}.

(** The decision rule as the specification words it, for a configured
    maximum number of revision attempts. *)
Definition specified_decision (max_revision_attempts : Z) (q c : float) (r : Z) : string :=
  if fge q 0.85 && fge c 0.85 then "approved"
  else if (r <? max_revision_attempts)%Z && (flt q 0.8 || flt c 0.8) then "needs_revision"
  else "rejected".

(** The compliance verdict as the specification words it: the weighted
    score reaches 0.85 and no requirement of critical risk is unresolved. *)
Definition specified_is_compliant (v : ComplianceAgent.ComplianceValidation) : bool :=
  fge (ComplianceAgent.overall_compliance_score v) 0.85
  && (length (filter (fun r => ComplianceAgent.unresolved "critical" r = true)
                     (ComplianceAgent.requirements v)) =? 0)%nat.

(** The two sums of the scoring formula, taken left to right. *)
Definition weight (req : ComplianceAgent.ComplianceRequirement) : Z :=
  ComplianceAgent.lookup_default ComplianceAgent.weight_map
    (ComplianceAgent.risk_level req) 1%Z.

Definition requirement_score (req : ComplianceAgent.ComplianceRequirement) : float :=
  ComplianceAgent.lookup_default ComplianceAgent.status_score
    (ComplianceAgent.status req) 0%float.

Definition sum_weighted (reqs : list ComplianceAgent.ComplianceRequirement) : float :=
  fold_left (fun acc r => (acc + requirement_score r * float_of_Z (weight r))%float)
            reqs 0%float.

Definition sum_weights (reqs : list ComplianceAgent.ComplianceRequirement) : Z :=
  fold_left (fun acc r => (acc + weight r)%Z) reqs 0%Z.

(** The collection-valued fields that [DocumentState] declares. *)
Definition collection_fields : list string :=
  ["processing_log"; "error_messages"; "extracted_data"; "applicable_laws";
   "legal_basis"; "regulatory_requirements"; "compliance_gaps"; "required_sections";
   "content_sections"; "legal_clauses"; "quality_issues"; "quality_checklist";
   "compliance_issues"; "compliance_checklist"; "regulatory_validation";
   "agent_performance"; "data_processing_activities"].

(** The order of the nodes in the graph, as a rank. *)
Definition node_names : list string :=
  ["ocr"; "classifier"; "data_mapping"; "research"; "legal_expert"; "cyber_security";
   "structure"; "generator"; "quality"; "compliance"; "human_supervision"].

Fixpoint index_of (l : list string) (k : string) : nat :=
  match l with
  | [] => O
  | k' :: l' => if String.eqb k' k then O else S (index_of l' k)
  end.

Definition rank (node : string) : nat := Nat.min 10 (index_of node_names node).

(** Every edge of a graph leads to [END] or to a node of higher rank. *)
Definition forward (g : DocumentWorkflow.StateGraph) (rk : string -> nat) : Prop :=
  forall node b k next,
    DocumentWorkflow.assoc (DocumentWorkflow.branches g) node = Some b ->
    DocumentWorkflow.assoc (DocumentWorkflow.path_map b) k = Some (DocumentWorkflow.Node next) ->
    (rk node < rk next)%nat.

(** The stages that implement [execute], each with the body of its [try]
    block and the method itself. *)
Inductive ExecuteStage : Type :=
| SOcr | SClassifier | SResearch | SStructure | SGenerator
| SQuality | SCompliance | SHumanSupervision.

Section Stages.
Context `{External} `{Pydantic} `{Internals}.

Definition in_stage (s : StageAgent.Stage) (work : DocumentState -> Outcome)
    (state : DocumentState) : Outcome :=
  work (<["current_step" := VStr (StageAgent.current_step s)]>
          (<["current_status" := VStatus PROCESSING]> state)).

Definition stage_body (s : ExecuteStage) : DocumentState -> Outcome :=
  match s with
  | SOcr => OCRAgent.execute_body _process_pdf _process_image _post_process_text
              _extract_structured_data
  | SClassifier => in_stage StageAgent.classifier classifier_work
  | SResearch => in_stage StageAgent.research research_work
  | SStructure => in_stage StageAgent.structure structure_work
  | SGenerator => in_stage StageAgent.generator generator_work
  | SQuality => QualityAgent.execute_body _assess_grammar_quality _assess_legal_quality
                  _assess_structure_quality _assess_completeness_quality
                  _identify_quality_issues
  | SCompliance => ComplianceAgent.execute_body
  | SHumanSupervision => HumanSupervisionAgent.execute_body
  end.

Definition stage_execute (s : ExecuteStage) : DocumentState -> Result DocumentState :=
  match s with
  | SOcr => ocr_execute
  | SClassifier => StageAgent.execute StageAgent.classifier classifier_work
  | SResearch => StageAgent.execute StageAgent.research research_work
  | SStructure => StageAgent.execute StageAgent.structure structure_work
  | SGenerator => StageAgent.execute StageAgent.generator generator_work
  | SQuality => quality_execute
  | SCompliance => ComplianceAgent.execute
  | SHumanSupervision => human_supervision_execute
  end.

End Stages.

(** ** Sample environments and states *)

(** A small stand-in for the regular-expression library, enough for the
    patterns of the compliance tables: a pattern [\b(a|b|c)\b] is matched
    against the words of the text, ignoring ASCII case. It agrees with
    [re.findall] on texts of words separated by single spaces in which no
    alternative of several words occurs. *)
Fixpoint split_bar (cur s : string) : list string :=
  match s with
  | EmptyString => [String.rev cur]
  | String a s' =>
      if Ascii.eqb a (Ascii.ascii_of_nat 124) then String.rev cur :: split_bar "" s'
      else split_bar (String a cur) s'
  end.

Definition alternatives (pattern : string) : list string :=
  split_bar "" (String.substring 3 (String.length pattern - 6) pattern).

Definition count_words (pattern content : string) : nat :=
  length (filter (fun w => existsb (String.eqb (ascii_str_lower w))
                                   (map ascii_str_lower (alternatives pattern)) = true)
                 (String.words content)).

(** An environment without [MAX_REVISION_ATTEMPTS] set. *)
Definition sample_external : External :=
  {| now := 0%Z;
     uuid4 := fun i => "00000000-0000-4000-8000-00000000000" +:+ pretty i;
     fmt_2f := fun _ => "0.00";
     findall_count := count_words;
     str_lower := ascii_str_lower;
     str_split := bytes_split;
     py_eq := fun x y =>
                match x, y with
                | VStr a, VStr b => String.eqb a b
                | _, _ => false
                end;
     fmt_value := fun _ => "";
     getenv := fun _ => None |}.

(** A validation that takes a value of the declared type and nothing else. *)
Definition sample_pydantic : Pydantic :=
  {| field_str := fun v => match v with VStr s => Some s | _ => None end;
     field_float := fun v => match v with
                             | VFloat f => Some f
                             | VInt z =>
                                 if (0 <=? z)%Z && (z <? 2 ^ 53)%Z then Some (float_of_Z z)
                                 else None
                             | _ => None
                             end;
     field_int := fun v => match v with VInt z => Some z | _ => None end;
     validation_error := fun model places =>
       ValidationError (pretty (length places) +:+ " validation errors for " +:+ model);
     field_str_str := fun _ => eq_refl;
     field_str_None := eq_refl;
     field_float_float := fun _ => eq_refl;
     field_int_int := fun _ => eq_refl |}.


(** Collaborators that all fail, as when the language model and the OCR
    engines are unreachable. *)
Definition unreachable {A} : Result A := Raise (ExternalError "service unavailable").

Definition failing_internals : Internals :=
  {| _process_pdf := fun _ => unreachable;
     _process_image := fun _ => unreachable;
     _post_process_text := fun s => s;
     _extract_structured_data := fun _ => VDict [];
     classifier_work := fun s => Failed s (ExternalError "service unavailable");
     research_work := fun s => Failed s (ExternalError "service unavailable");
     structure_work := fun s => Failed s (ExternalError "service unavailable");
     generator_work := fun s => Failed s (ExternalError "service unavailable");
     data_mapping_work := fun _ => unreachable;
     legal_expert_work := fun _ => unreachable;
     cyber_security_work := fun _ => unreachable;
     _assess_grammar_quality := fun _ => unreachable;
     _assess_legal_quality := fun _ _ => unreachable;
     _assess_structure_quality := fun _ _ => unreachable;
     _assess_completeness_quality := fun _ _ => unreachable;
     _identify_quality_issues := fun _ _ => unreachable |}.

(** [create_initial_state("termo_consentimento", "Acme LLC",
    "Collects emails for newsletter")] *)
Definition scenario_a : DocumentState :=
  match @DocumentWorkflow.create_initial_state sample_external
          "termo_consentimento" "Acme LLC" "Collects emails for newsletter" None None with
  | Ok state => state
  | Raise _ => ∅
  end.

(** A state on its way back from a review that asked for a revision. *)
Definition in_review : DocumentState :=
  <["current_status" := VStatus HUMAN_REVIEW]> scenario_a.

(** A well-typed state with low scores after two revision attempts. *)
Definition twice_revised : DocumentState :=
  list_to_map [("document_type", VDocType CONSENT_FORM);
               ("quality_score", VFloat 0.5);
               ("compliance_score", VFloat 0.5);
               ("revision_attempts", VInt 2);
               ("quality_issues", VList []);
               ("compliance_issues", VList []);
               ("processing_log", VList []);
               ("error_messages", VList [])].

(** The same with no revision attempt yet. *)
Definition first_review : DocumentState :=
  <["revision_attempts" := VInt 0]> twice_revised.

(** A state after classification, with the lists the agents append to. *)
Definition classified : DocumentState :=
  <["current_status" := VStatus CLASSIFIED]>
    (<["error_messages" := VList []]> scenario_a).

(** Scenario D: a compliant requirement of high risk and a partial one of
    critical risk. *)
Definition scenario_d : list ComplianceAgent.ComplianceRequirement :=
  [ {| ComplianceAgent.requirement_id := "LGPD_001";
       ComplianceAgent.description := "Mencionar LGPD explicitamente";
       ComplianceAgent.lgpd_article := "Art. 5º";
       ComplianceAgent.status := "compliant";
       ComplianceAgent.evidence := "Encontradas 2 referências";
       ComplianceAgent.risk_level := "high" |};
    {| ComplianceAgent.requirement_id := "LGPD_005";
       ComplianceAgent.description := "Informar direitos do titular";
       ComplianceAgent.lgpd_article := "Art. 12º";
       ComplianceAgent.status := "partial";
       ComplianceAgent.evidence := "Encontrada 1 referência";
       ComplianceAgent.risk_level := "critical" |} ].

(** A privacy policy in whose text every pattern checked for it occurs
    exactly twice. *)
Definition privacy_policy_text : string :=
  "LGPD LGPD controlador controlador finalidade finalidade "
  +:+ "consentimento consentimento direito direito prazo prazo DPO DPO "
  +:+ "ANPD ANPD claro claro completo completo".

Definition privacy_policy : DocumentState :=
  list_to_map [("document_type", VDocType PRIVACY_POLICY);
               ("generated_content", VStr privacy_policy_text);
               ("industry_sector", VStr "geral");
               ("processing_log", VList []);
               ("error_messages", VList [])].

(** ** More of the agents *)

(** *** [HumanSupervisionAgent.process_review_decision]

    The decision of a real reviewer, submitted through the API. The method
    has no [try] block: what raises here leaves it. The fields taken from
    [reviewer_info] are validated by the constructor of [ReviewFeedback]. *)

Module ReviewDecision.

Record reviewer_info_typed (reviewer_info : list (string * value)) : Prop := {
  typed_reviewer_id :
    exists s, dict_get_default reviewer_info "reviewer_id" (VStr "unknown") = VStr s;
  typed_reviewer_name :
    exists s, dict_get_default reviewer_info "reviewer_name" (VStr "Unknown Reviewer") = VStr s;
  typed_confidence_level :
    exists f, dict_get_default reviewer_info "confidence_level" (VFloat 0.8) = VFloat f;
  typed_review_time :
    exists n, dict_get_default reviewer_info "review_time_minutes" (VInt 0) = VInt n
}.

Section Agent.
Context `{External} `{Pydantic}.

Definition process_review_decision (state : DocumentState) (decision : string)
    (reviewer_info : list (string * value)) (feedback : string) : Outcome :=
  step_val state
    (HumanSupervisionAgent.ReviewFeedback_init
       (dict_get_default reviewer_info "reviewer_id" (VStr "unknown"))
       (dict_get_default reviewer_info "reviewer_name" (VStr "Unknown Reviewer"))
       now (VStr decision) (VStr feedback) []
       (dict_get_default reviewer_info "confidence_level" (VFloat 0.8))
       (dict_get_default reviewer_info "review_time_minutes" (VInt 0)))
    (fun review_feedback =>
  let state :=
    <["human_reviewer" := VStr (HumanSupervisionAgent.reviewer_name review_feedback)]> state in
  let state :=
    <["human_feedback" := VStr (HumanSupervisionAgent.feedback review_feedback)]> state in
  let state :=
    <["human_approval" :=
        VBool (String.eqb (HumanSupervisionAgent.approval_status review_feedback)
                          "approved")]> state in
  let state :=
    <["approval_date" := VTime (HumanSupervisionAgent.review_date review_feedback)]> state in
  if String.eqb decision "approved" then
    let state := <["current_status" := VStatus APPROVED]> state in
    let state := <["is_approved" := VBool true]> state in
    let state := <["can_be_delivered" := VBool true]> state in
    Done state
  else if String.eqb decision "needs_revision" then
    let state := <["current_status" := VStatus HUMAN_REVIEW]> state in
    step_val state (py_add_one (get state "revision_attempts" (VInt 0))) (fun n =>
    Done (<["revision_attempts" := n]> state))
  else
    let state := <["current_status" := VStatus REJECTED]> state in
    let state := <["is_approved" := VBool false]> state in
    Done state).

End Agent.
End ReviewDecision.

(** *** [DocumentGeneratorAgent] of [src/agents/base_agent.py] *)

Module DocumentGeneratorAgent.

Section Agent.

(** [(prompt | self.llm).invoke({...}).content], for the three fields of
    the prompt. *)
Variable chain_invoke : value -> value -> value -> Result string.

Definition cls : string := "DocumentGeneratorAgent".

(** The body of the [try] block of [execute]. *)
Definition execute_body (state : DocumentState) : Outcome :=
  step_val state (getitem state "document_type") (fun document_type =>
  step_val state (getitem state "company_name") (fun company_name =>
  step_val state (getitem state "activity_description") (fun activity_description =>
  step_val state (chain_invoke document_type company_name activity_description)
    (fun content =>
  let state := <["generated_content" := VStr content]> state in
  let state := <["quality_score" := VFloat 0.85]> state in
  let state := <["is_complete" := VBool true]> state in
  step state (log_action cls state "Documento gerado com sucesso") Done)))).

(** The handler logs and clears [is_complete]; it sets no status. *)
Definition execute (state : DocumentState) : Result DocumentState :=
  match execute_body state with
  | Done state' => Ok state'
  | Failed state' e =>
      state1 <- log_action cls state' ("Erro: " +:+ str_exc e);;
      Ok (<["is_complete" := VBool false]> state1)
  end.

End Agent.
End DocumentGeneratorAgent.

(** *** Helpers of [QualityAgent] *)

Module QualityChecks.

(** The loop of [_is_hierarchy_consistent], from index [1] on, with the
    level at the index before. *)
Fixpoint no_skip_after (previous : Z) (levels : list Z) : bool :=
  match levels with
  | [] => true
  | level :: levels' =>
      if (previous + 1 <? level)%Z then false else no_skip_after level levels'
  end.

Definition _is_hierarchy_consistent (levels : list Z) : bool :=
  match levels with
  | [] => true
  | first :: rest => no_skip_after first rest
  end.

(** [len(s)] counts code points: the bytes of the UTF-8 text that are not
    continuation bytes. *)
Fixpoint py_len (s : string) : nat :=
  match s with
  | EmptyString => O
  | String a s' =>
      let n := Ascii.nat_of_ascii a in
      if (128 <=? n)%nat && (n <? 192)%nat then py_len s' else S (py_len s')
  end.

Definition min_lengths : list (string * nat) :=
  [("politica_privacidade", 2000%nat); ("termo_consentimento", 800%nat);
   ("clausula_contratual", 1200%nat); ("ata_comite", 600%nat);
   ("codigo_conduta", 1500%nat)].

(** [max(0.0, score)]: [score] when it is above [0.0]. *)
Definition max0 (score : float) : float :=
  if PrimFloat.ltb 0 score then score else 0%float.

Section Agent.
Context `{External}.

(** [re.search(pattern, content, re.IGNORECASE)] finds something exactly
    when [re.findall] with the same arguments is not empty. *)
Definition re_search (pattern content : string) : bool :=
  negb (findall_count pattern content =? 0)%nat.

Definition _assess_completeness_quality (content : string) (state : DocumentState)
  : Result float :=
  let score := 1%float in
  let content_length := py_len content in
  dt <- getitem state "document_type";;
  document_type <- enum_value dt;;
  let min_length := ComplianceAgent.lookup_default min_lengths document_type 1000%nat in
  let score := if (content_length <? min_length)%nat then (score - 0.3)%float else score in
  cn <- getitem state "company_name";;
  company_info <- as_str cn;;
  let score := if negb (str_in company_info content) then (score - 0.2)%float else score in
  let score :=
    if negb (re_search "\b(contato|email|telefone)\b" content)
    then (score - 0.2)%float else score in
  let score :=
    if negb (re_search "\b(data|vigência|vigente)\b" content)
    then (score - 0.1)%float else score in
  Ok (max0 score).

End Agent.
End QualityChecks.

(** *** Readers and samples for the properties of these agents *)

(** The entries of [processing_log]; none when the key is missing. *)
Definition log_entries (state : DocumentState) : list value :=
  match state !! "processing_log" with
  | Some (VList l) => l
  | _ => []
  end.

(** The three statuses [_check_requirement] gives. *)
Definition status_known (r : ComplianceAgent.ComplianceRequirement) : Prop :=
  ComplianceAgent.status r = "compliant"
  \/ ComplianceAgent.status r = "partial"
  \/ ComplianceAgent.status r = "non_compliant".

(** Collaborators that all answer, with scores above the thresholds. *)
Definition answering_internals : Internals :=
  {| _process_pdf := fun _ => Ok ("texto", 0.9%float);
     _process_image := fun _ => Ok ("texto", 0.9%float);
     _post_process_text := fun s => s;
     _extract_structured_data := fun _ => VDict [];
     classifier_work := Done;
     research_work := Done;
     structure_work := Done;
     generator_work := Done;
     data_mapping_work := fun _ => Ok [];
     legal_expert_work := fun _ => Ok [];
     cyber_security_work := fun _ => Ok [];
     _assess_grammar_quality := fun _ => Ok 0.9%float;
     _assess_legal_quality := fun _ _ => Ok 0.9%float;
     _assess_structure_quality := fun _ _ => Ok 0.9%float;
     _assess_completeness_quality :=
       @QualityChecks._assess_completeness_quality sample_external;
     _identify_quality_issues := fun _ _ => Ok [] |}.

(** The state of scenario A once a text has been generated for it, with the
    document type as the member of [DocumentType]. *)
Definition drafted : DocumentState :=
  <["generated_content" := VStr privacy_policy_text]>
    (<["document_type" := VDocType CONSENT_FORM]> scenario_a).

(** The drafted document with both scores at 0.5, before any revision. *)
Definition under_review : DocumentState :=
  <["compliance_score" := VFloat 0.5]> (<["quality_score" := VFloat 0.5]> drafted).


(** A first review of a state whose [quality_issues] is a list of strings,
    as [DocumentState] declares it. *)
Definition declared_issues : DocumentState :=
  <["quality_issues" := VList [VStr "Texto muito curto"]]> first_review.

(** A document with few of the words the compliance tables look for. *)
Definition sparse_policy : DocumentState :=
  <["generated_content" := VStr "LGPD LGPD controlador"]> privacy_policy.

(** A state with an uploaded file that is neither a PDF nor an image. *)
Definition with_text_file : DocumentState :=
  <["uploaded_file" := VBytes "plain text"]> scenario_a.

(** * Properties *)

(** ** Logging and the shared exception handler *)

Lemma contains_lookup (state : DocumentState) (k : string) :
  contains state k = match state !! k with Some _ => true | None => false end.
Proof.
  unfold contains. destruct (state !! k) as [v|] eqn:E.
  - apply bool_decide_eq_true. eauto.
  - apply bool_decide_eq_false. intros [v Hv]. discriminate.
Qed.

Lemma log_action_ok (cls : string) (state : DocumentState) (message : string) :
  loggable state ->
  exists l, log_action cls state message = Ok (<["processing_log" := VList l]> state).
Proof.
  unfold loggable, log_action. rewrite contains_lookup.
  destruct (state !! "processing_log") as [v|] eqn:E.
  - destruct v; try contradiction. intros _. rewrite E. eauto.
  - intros _. rewrite lookup_insert_eq, insert_insert_eq. eauto.
Qed.

Lemma append_error_ok (state : DocumentState) (msg : string) (l : list value) :
  state !! "error_messages" = Some (VList l) ->
  append_error state msg = Ok (<["error_messages" := VList (l ++ [VStr msg])]> state).
Proof. unfold append_error. intros ->. reflexivity. Qed.

Lemma execute_handler_ok (cls lp ep : string) (state : DocumentState) (e : Exc)
    (l : list value) :
  loggable state ->
  state !! "error_messages" = Some (VList l) ->
  exists state',
    execute_handler cls lp ep state e = Ok state'
    /\ current_status state' = Some ERROR
    /\ error_messages state' = Some (l ++ [VStr (ep +:+ str_exc e)])%list.
Proof.
  intros Hlog Herr. unfold execute_handler.
  destruct (log_action_ok cls state (lp +:+ str_exc e) Hlog) as [pl ->]. simpl.
  erewrite append_error_ok by (rewrite lookup_insert_ne by done; exact Herr). simpl.
  eexists. split; [reflexivity|]. split.
  - unfold current_status. now rewrite lookup_insert_eq.
  - unfold error_messages.
    rewrite lookup_insert_ne by done. now rewrite lookup_insert_eq.
Qed.

Lemma loggable_insert (k : string) (v : value) (state : DocumentState) :
  k <> "processing_log" -> loggable state -> loggable (<[k := v]> state).
Proof. intros Hk. unfold loggable. now rewrite lookup_insert_ne. Qed.

Lemma get_insert_ne (k k' : string) (v d : value) (state : DocumentState) :
  k <> k' -> get (<[k := v]> state) k' d = get state k' d.
Proof. intros Hk. unfold get. now rewrite lookup_insert_ne. Qed.

Lemma log_action_entries (cls : string) (state : DocumentState) (message : string) :
  loggable state ->
  log_action cls state message
  = Ok (<["processing_log" :=
            VList (log_entries state ++ [VStr (cls +:+ ": " +:+ message)])]> state).
Proof.
  unfold loggable, log_action, log_entries. rewrite contains_lookup.
  destruct (state !! "processing_log") as [v|] eqn:E.
  - destruct v; try contradiction. intros _. now rewrite E.
  - intros _. now rewrite lookup_insert_eq, insert_insert_eq.
Qed.

Lemma log_entries_insert (l : list value) (state : DocumentState) :
  log_entries (<["processing_log" := VList l]> state) = l.
Proof. unfold log_entries. now rewrite lookup_insert_eq. Qed.

Lemma log_entries_insert_ne (k : string) (v : value) (state : DocumentState) :
  k <> "processing_log" -> log_entries (<[k := v]> state) = log_entries state.
Proof. intros Hk. unfold log_entries. now rewrite lookup_insert_ne. Qed.

Ltac lookup_inserts :=
  repeat first [rewrite lookup_insert_eq | rewrite lookup_insert_ne by discriminate].

Ltac log_inserts :=
  repeat first [rewrite log_entries_insert
               | rewrite log_entries_insert_ne by discriminate].

Lemma log_action_frame (cls : string) (state : DocumentState) (message : string) :
  loggable state ->
  exists state',
    log_action cls state message = Ok state'
    /\ log_entries state' = (log_entries state ++ [VStr (cls +:+ ": " +:+ message)])%list
    /\ forall k, k <> "processing_log" -> state' !! k = state !! k.
Proof.
  intros Hlog. rewrite (log_action_entries _ _ _ Hlog).
  eexists. split; [reflexivity|]. rewrite log_entries_insert. split; [reflexivity|].
  intros k Hk. now rewrite lookup_insert_ne.
Qed.

(** ** The requirement score *)

Lemma weight_positive (req : ComplianceAgent.ComplianceRequirement) : (1 <= weight req)%Z.
Proof.
  unfold weight, ComplianceAgent.weight_map, ComplianceAgent.lookup_default.
  repeat match goal with |- context [String.eqb ?a ?b] => destruct (String.eqb a b) end; lia.
Qed.

Lemma sum_weights_from (reqs : list ComplianceAgent.ComplianceRequirement) (w : Z) :
  fold_left (fun acc r => (acc + weight r)%Z) reqs w = (w + sum_weights reqs)%Z.
Proof.
  unfold sum_weights. revert w.
  induction reqs as [|r reqs IH]; intros w; simpl; [lia|].
  rewrite IH, (IH (0 + weight r)%Z). lia.
Qed.

(** The loop of [_calculate_requirement_score] keeps two independent
    running sums. *)
Lemma score_loop_split (reqs : list ComplianceAgent.ComplianceRequirement)
    (s : float) (w : Z) :
  fold_left ComplianceAgent.score_step reqs (s, w)
  = (fold_left (fun acc r => (acc + requirement_score r * float_of_Z (weight r))%float) reqs s,
     fold_left (fun acc r => (acc + weight r)%Z) reqs w).
Proof.
  revert s w. induction reqs as [|r reqs IH]; intros s w; simpl; [reflexivity|].
  unfold ComplianceAgent.score_step at 2. simpl. now rewrite IH.
Qed.

Lemma sum_weights_positive (reqs : list ComplianceAgent.ComplianceRequirement) :
  reqs <> [] -> (0 < sum_weights reqs)%Z.
Proof.
  destruct reqs as [|r reqs]; [congruence|]. intros _.
  unfold sum_weights. simpl. rewrite sum_weights_from.
  pose proof (weight_positive r).
  assert (0 <= sum_weights reqs)%Z; [|lia].
  clear. induction reqs as [|r' reqs IH]; [unfold sum_weights; simpl; lia|].
  unfold sum_weights. simpl. rewrite sum_weights_from.
  pose proof (weight_positive r'). lia.
Qed.

(** C8. The evidence check classifies a requirement as compliant exactly
    when its pattern has at least two matches in the text, partial exactly
    when it has one, and non_compliant exactly when it has none; the three
    statuses score 1.0, 0.5 and 0.0 and the risk levels low, medium, high
    and critical weigh 1, 2, 3 and 4; and the score of a non-empty list of
    requirements is the sum of status score times weight divided by the sum
    of the weights. *)
Theorem requirement_scoring `{External} :
  (forall content pattern : string,
      let n := findall_count pattern content in
      let status := fst (ComplianceAgent._check_requirement content pattern) in
      (status = "compliant" <-> (2 <= n)%nat)
      /\ (status = "partial" <-> n = 1%nat)
      /\ (status = "non_compliant" <-> n = 0%nat)
      /\ ComplianceAgent.lookup_default ComplianceAgent.status_score status 0%float
         = (if (2 <=? n)%nat then 1 else if (n =? 1)%nat then 0.5 else 0)%float)
  /\ ComplianceAgent.lookup_default ComplianceAgent.weight_map "low" 1%Z = 1%Z
  /\ ComplianceAgent.lookup_default ComplianceAgent.weight_map "medium" 1%Z = 2%Z
  /\ ComplianceAgent.lookup_default ComplianceAgent.weight_map "high" 1%Z = 3%Z
  /\ ComplianceAgent.lookup_default ComplianceAgent.weight_map "critical" 1%Z = 4%Z
  /\ (forall reqs : list ComplianceAgent.ComplianceRequirement,
         reqs <> [] ->
         ComplianceAgent._calculate_requirement_score reqs
         = (sum_weighted reqs / float_of_Z (sum_weights reqs))%float).
Proof.
  split; [|repeat split].
  - intros content pattern n status. subst status.
    unfold ComplianceAgent._check_requirement. fold n.
    destruct (Nat.leb_spec 2 n) as [Hn|Hn]; simpl.
    + repeat split; try (intros; lia); try discriminate; reflexivity.
    + destruct (Nat.eqb_spec n 1) as [Hn1|Hn1]; simpl;
        repeat split; try (intros; lia); try discriminate; reflexivity.
  - intros reqs Hne.
    unfold ComplianceAgent._calculate_requirement_score.
    destruct reqs as [|r reqs]; [congruence|].
    rewrite score_loop_split.
    fold (sum_weighted (r :: reqs)). fold (sum_weights (r :: reqs)).
    pose proof (sum_weights_positive (r :: reqs) Hne) as Hpos.
    destruct (Z.ltb_spec 0 (sum_weights (r :: reqs))); [reflexivity|lia].
Qed.

(** ** The simulated reviewer *)

Lemma py_ge_float (a b : float) : py_ge (VFloat a) (VFloat b) = Ok (fge a b).
Proof. reflexivity. Qed.

Lemma py_lt_float (a b : float) : py_lt (VFloat a) (VFloat b) = Ok (flt a b).
Proof. reflexivity. Qed.

Lemma py_lt_int (a b : Z) : py_lt (VInt a) (VInt b) = Ok (a <? b)%Z.
Proof. reflexivity. Qed.

Lemma py_and_ok (a b : bool) : py_and (Ok a) (Ok b) = Ok (a && b).
Proof. now destruct a. Qed.

Lemma py_or_ok (a b : bool) : py_or (Ok a) (Ok b) = Ok (a || b).
Proof. now destruct a. Qed.

Lemma py_min_float (a b : float) : py_min (VFloat a) (VFloat b) = Ok (VFloat (fmin a b)).
Proof. unfold py_min, fmin. rewrite py_lt_float. unfold flt. cbn [bind]. now destruct (PrimFloat.ltb b a). Qed.

Lemma take_map_VStr (n : nat) (l : list string) : take n (map VStr l) = map VStr (take n l).
Proof. revert n. induction l as [|x l IH]; intros [|n]; simpl; congruence. Qed.

Lemma Forall_take_issues (n : nat) (issues : list value) :
  Forall is_issue issues -> Forall is_issue (take n issues).
Proof. intros Hd. revert n. induction Hd; intros [|n]; simpl; constructor; auto. Qed.

Lemma filter_res_issues (f : value -> bool) (issues : list value) :
  Forall is_issue issues ->
  exists r, filter_res (fun i => severity <- get_from i "severity" VNone;;
                                 Ok (f severity)) issues = Ok r.
Proof.
  induction 1 as [|i issues (d & s & -> & _) _ [r IH]]; simpl; [eauto|].
  rewrite IH. simpl. eauto.
Qed.

Lemma suggestions_from_issues (issues : list value) :
  Forall is_issue issues ->
  exists l, HumanSupervisionAgent.suggestions_from issues = Ok (map VStr l).
Proof.
  induction 1 as [|i issues (d & s & -> & Hs) _ [l IH]]; simpl; [now exists []|].
  destruct (is_str _ "high" || is_str _ "critical").
  - rewrite Hs, IH. simpl. now exists (s :: l).
  - eauto.
Qed.

Lemma mapM_field_str `{Pydantic} (l : list string) : mapM field_str (map VStr l) = Some l.
Proof.
  induction l as [|s l IH]; [reflexivity|].
  cbn [map mapM]. rewrite field_str_str. cbn. rewrite IH. reflexivity.
Qed.

Lemma revision_feedback_ok `{External} (state : DocumentState) (q c : float) (r : Z) :
  review_inputs_typed state q c r ->
  exists s, HumanSupervisionAgent._generate_revision_feedback state = Ok s.
Proof.
  intros [Hq Hc _ (issues & Hi & Hd) (gaps & Hg) _].
  unfold HumanSupervisionAgent._generate_revision_feedback.
  rewrite Hq, Hc, Hi, Hg, !py_lt_float. cbn [bind].
  destruct (filter_res_issues (fun s => is_str s "critical") issues Hd) as [cr Hcr].
  destruct issues as [|i issues]; destruct gaps as [|g gaps]; cbn [truthy py_iter py_len bind];
    try rewrite Hcr; cbn [bind]; eauto.
Qed.

Lemma suggested_changes_ok `{External} (state : DocumentState) (q c : float) (r : Z) :
  review_inputs_typed state q c r ->
  exists l, HumanSupervisionAgent._generate_suggested_changes state = Ok (map VStr l).
Proof.
  intros [_ _ _ (issues & Hi & Hd) (gaps & Hg) (d & Hdt)].
  unfold HumanSupervisionAgent._generate_suggested_changes.
  rewrite Hi, Hg. cbn [py_slice_to py_iter bind].
  destruct (suggestions_from_issues (take 3 issues) (Forall_take_issues 3 issues Hd))
    as [hi ->].
  cbn [bind]. unfold getitem. rewrite Hdt. cbn [bind enum_value].
  rewrite <- (map_map (fun gap => "Implementar: " +:+ fmt_value gap) VStr).
  set (from_gaps := map (fun gap => "Implementar: " +:+ fmt_value gap) (take 2 gaps)).
  destruct (String.eqb (DocumentType_value d) "politica_privacidade");
    [|destruct (String.eqb (DocumentType_value d) "termo_consentimento")];
    match goal with
    | |- context [(map VStr hi ++ map VStr from_gaps ++ ?g)%list] =>
        match g with
        | [] => change g with (map VStr [])
        | [VStr ?x] => change g with (map VStr [x])
        end
    end;
    rewrite <- !map_app, take_map_VStr; eauto.
Qed.

(** What the simulated reviewer returns on typed inputs. *)
Lemma process_human_review_typed `{External} `{Pydantic} (state : DocumentState)
    (pkg : value) (q c : float) (r : Z) :
  review_inputs_typed state q c r ->
  exists text changes,
    HumanSupervisionAgent._process_human_review state pkg
    = Ok {| HumanSupervisionAgent.reviewer_id := "simulated_reviewer_001";
            HumanSupervisionAgent.reviewer_name := "Revisor Simulado";
            HumanSupervisionAgent.review_date := now;
            HumanSupervisionAgent.approval_status := specified_decision 2 q c r;
            HumanSupervisionAgent.feedback := text;
            HumanSupervisionAgent.suggested_changes := changes;
            HumanSupervisionAgent.confidence_level := fmin q c;
            HumanSupervisionAgent.review_time_minutes := 5 |}.
Proof.
  intros Ht.
  destruct (revision_feedback_ok state q c r Ht) as [fbk Hfbk].
  destruct (suggested_changes_ok state q c r Ht) as [sug Hsug].
  destruct Ht as [Hq Hc Hr _ _ _].
  unfold HumanSupervisionAgent._process_human_review, specified_decision.
  rewrite Hq, Hc, Hr, !py_ge_float, !py_lt_float, py_lt_int, py_min_float.
  rewrite py_or_ok, !py_and_ok. cbn [bind].
  destruct (fge q 0.85 && fge c 0.85);
    [|cbn [bind]; destruct ((r <? 2)%Z && (flt q 0.8 || flt c 0.8));
      [rewrite Hfbk, Hsug|]];
    cbn [bind]; unfold HumanSupervisionAgent.ReviewFeedback_init;
    rewrite !field_str_str, field_float_float, field_int_int;
    try rewrite mapM_field_str; eauto.
Qed.

Lemma specified_decision_cases (q c : float) (r : Z) :
  (specified_decision 2 q c r = "approved"
   <-> fge q 0.85 = true /\ fge c 0.85 = true)
  /\ (specified_decision 2 q c r = "needs_revision"
      <-> ~ (fge q 0.85 = true /\ fge c 0.85 = true)
          /\ (r < 2)%Z /\ (flt q 0.8 = true \/ flt c 0.8 = true))
  /\ (specified_decision 2 q c r = "rejected"
      <-> ~ (fge q 0.85 = true /\ fge c 0.85 = true)
          /\ ~ ((r < 2)%Z /\ (flt q 0.8 = true \/ flt c 0.8 = true))).
Proof.
  unfold specified_decision.
  destruct (fge q 0.85) eqn:Eq; destruct (fge c 0.85) eqn:Ec; simpl;
    destruct (Z.ltb_spec r 2) as [Hlt|Hge]; simpl;
    destruct (flt q 0.8) eqn:Fq; destruct (flt c 0.8) eqn:Fc; simpl;
    repeat split; try discriminate; try tauto; try lia;
    intros; try discriminate; try tauto; try lia;
    intuition (try discriminate; try lia).
Qed.

(** C6, as the code has it. On a state whose scores are floats, whose
    [revision_attempts] is an int, whose [quality_issues] is a list of the
    dictionaries [QualityAgent] writes (not the list of strings that
    [DocumentState] declares), whose [compliance_issues] is a list and whose
    document type is a member of [DocumentType], the simulated reviewer
    returns a decision: approved exactly when both scores are at least 0.85;
    otherwise needs_revision exactly when [revision_attempts] is below 2 and
    one of the scores is below 0.8; otherwise rejected. The bound 2 is a
    literal of the decision function: the environment, and with it
    [MAX_REVISION_ATTEMPTS], plays no part. *)
Theorem simulated_decision `{External} `{Pydantic} (state : DocumentState) (pkg : value)
    (q c : float) (r : Z) :
  review_inputs_typed state q c r ->
  exists fb,
    HumanSupervisionAgent._process_human_review state pkg = Ok fb
    /\ HumanSupervisionAgent.approval_status fb = specified_decision 2 q c r
    /\ (HumanSupervisionAgent.approval_status fb = "approved"
        <-> fge q 0.85 = true /\ fge c 0.85 = true)
    /\ (HumanSupervisionAgent.approval_status fb = "needs_revision"
        <-> ~ (fge q 0.85 = true /\ fge c 0.85 = true)
            /\ (r < 2)%Z /\ (flt q 0.8 = true \/ flt c 0.8 = true))
    /\ (HumanSupervisionAgent.approval_status fb = "rejected"
        <-> ~ (fge q 0.85 = true /\ fge c 0.85 = true)
            /\ ~ ((r < 2)%Z /\ (flt q 0.8 = true \/ flt c 0.8 = true))).
Proof.
  intros Ht.
  destruct (process_human_review_typed state pkg q c r Ht) as (text & changes & Hfb).
  eexists. split; [exact Hfb|]. cbn [HumanSupervisionAgent.approval_status].
  split; [reflexivity|]. apply specified_decision_cases.
Qed.

(** ** The graph *)

Import DocumentWorkflow.

Lemma run_agent_total (a : Agent) (state : DocumentState) :
  exists state', run_agent a state = Ok state'.
Proof. unfold run_agent. destruct (call_process a state); eauto. Qed.

Lemma should_continue_cases (state : DocumentState) :
  (_should_continue state = "error" /\ state !! "status" = Some (VStatus ERROR))
  \/ _should_continue state = "end"
  \/ _should_continue state = "continue".
Proof.
  unfold _should_continue, get.
  destruct (state !! "status") as [[| | | | | | |[]| | |]|]; simpl;
    destruct (contains state "human_supervision"); auto.
Qed.

Lemma should_continue_error (state : DocumentState) :
  state !! "status" = Some (VStatus ERROR) -> _should_continue state = "error".
Proof. unfold _should_continue, get. now intros ->. Qed.

Lemma should_continue_continue (state : DocumentState) :
  state !! "status" = None -> state !! "human_supervision" = None ->
  _should_continue state = "continue".
Proof.
  intros Hs Hh. unfold _should_continue, get. rewrite Hs, contains_lookup, Hh. reflexivity.
Qed.

(** The routing function reads the keys [status] and [human_supervision]
    and nothing else. *)
Lemma should_continue_frame (k : string) (v : value) (state : DocumentState) :
  k <> "status" -> k <> "human_supervision" ->
  _should_continue (<[k := v]> state) = _should_continue state.
Proof.
  intros Hs Hh. unfold _should_continue, get.
  rewrite !contains_lookup, !lookup_insert_ne by done. reflexivity.
Qed.

(** *** The state of the graph *)

Lemma restrict_undeclared (fields : list string) (d : DocumentState) (k : string) :
  k ∉ fields -> restrict fields d !! k = None.
Proof.
  intros Hk. apply map_lookup_filter_None_2. right. intros x _ Hin. now apply Hk.
Qed.

Lemma restrict_declared (fields : list string) (d : DocumentState) (k : string) :
  k ∈ fields -> restrict fields d !! k = d !! k.
Proof.
  intros Hk. destruct (d !! k) as [x|] eqn:E.
  - now apply map_lookup_filter_Some_2.
  - apply map_lookup_filter_None_2. now left.
Qed.

Lemma restrict_idemp (fields : list string) (d : DocumentState) :
  restrict fields (restrict fields d) = restrict fields d.
Proof.
  apply map_filter_id. intros k x Hk. now apply map_lookup_filter_Some_1_2 in Hk.
Qed.

Lemma restrict_insert_undeclared (fields : list string) (k : string) (v : value)
    (d : DocumentState) :
  k ∉ fields -> restrict fields (<[k := v]> d) = restrict fields d.
Proof. intros Hk. apply map_filter_insert_not. intros y Hin. now apply Hk. Qed.

Lemma write_undeclared (fields : list string) (output state : DocumentState) (k : string) :
  k ∉ fields -> state !! k = None -> write fields output state !! k = None.
Proof.
  intros Hk Hs. apply lookup_union_None_2; [now apply restrict_undeclared|exact Hs].
Qed.

Lemma status_undeclared : "status" ∉ DocumentState_fields.
Proof. apply (bool_decide_eq_false_1 _). vm_compute. reflexivity. Qed.

Lemma error_undeclared : "error" ∉ DocumentState_fields.
Proof. apply (bool_decide_eq_false_1 _). vm_compute. reflexivity. Qed.

Lemma human_supervision_undeclared : "human_supervision" ∉ DocumentState_fields.
Proof. apply (bool_decide_eq_false_1 _). vm_compute. reflexivity. Qed.

Lemma current_status_declared : "current_status" ∈ DocumentState_fields.
Proof. apply (bool_decide_eq_true_1 _). vm_compute. reflexivity. Qed.

#[local] Arguments run_agent : simpl never.
#[local] Arguments _should_continue : simpl never.
#[local] Arguments restrict : simpl never.
#[local] Arguments write : simpl never.
#[local] Arguments branch_state : simpl never.

(** *** Termination of the graph *)

(** A graph whose edges all lead forward finishes within as many nodes as
    there are ranks, whatever its nodes and routing functions do. *)
Lemma invoke_from_terminates (library : BranchInput) (g : StateGraph)
    (rk : string -> nat) (bound : nat) :
  forward g rk ->
  (forall node, (rk node <= bound)%nat) ->
  forall fuel node state trace,
    (bound < fuel + rk node)%nat ->
    exists r, invoke_from library g fuel node state trace = Some r.
Proof.
  intros Hfwd Hbound. induction fuel as [|fuel IH]; intros node state trace Hlt.
  - specialize (Hbound node). lia.
  - simpl. destruct (assoc (nodes g) node) as [handler|]; [|eauto].
    destruct (handler state) as [output|e]; [|eauto].
    destruct (assoc (branches g) node) as [b|] eqn:Hb; [|eauto].
    destruct (assoc (path_map b) _) as [[|next]|] eqn:Hk; eauto.
    apply IH. specialize (Hfwd node b _ next Hb Hk). lia.
Qed.

Lemma rank_bounded (node : string) : (rank node <= 10)%nat.
Proof. unfold rank. lia. Qed.

Ltac edge_case Hk :=
  cbv [assoc path_map] in Hk;
  repeat match type of Hk with
         | (if String.eqb ?a ?k then _ else _) = _ =>
             destruct (String.eqb a k); [try discriminate Hk|]
         end;
  try discriminate Hk;
  try (injection Hk as <-; vm_compute; lia).

(** The edges of the workflow graph all lead forward, whatever the agents
    are and whatever [_should_continue] answers. *)
Lemma build_graph_forward (agents : Agents) : forward (_build_graph agents) rank.
Proof.
  intros node b k next Hb Hk.
  cbv [_build_graph branches assoc edge] in Hb.
  repeat match type of Hb with
         | (if String.eqb ?a node then _ else _) = _ =>
             destruct (String.eqb_spec a node) as [<-|_];
             [injection Hb as <-; edge_case Hk|]
         end.
  discriminate Hb.
Qed.

Lemma invoke_terminates (library : BranchInput) (agents : Agents)
    (state : DocumentState) :
  exists r, invoke library (_build_graph agents) 11 state = Some r.
Proof.
  unfold invoke.
  apply (invoke_from_terminates library _ rank 10 (build_graph_forward agents) rank_bounded).
  vm_compute. lia.
Qed.

Lemma run_total (library : BranchInput) (agents : Agents) (initial_state : DocumentState) :
  exists final_state, run library agents 11 initial_state = Some (Ok final_state).
Proof.
  unfold run.
  destruct (invoke_terminates library agents initial_state) as [[trace [final|e]] ->]; eauto.
Qed.

Ltac run_node :=
  simpl;
  match goal with
  | |- context [run_agent ?a ?s] =>
      let st := fresh "output" in
      destruct (run_agent_total a s) as [st ->]; simpl
  end.

(** Whatever node the graph is at, it runs that node and no other: the
    answers of [_should_continue] name no next node. *)
Lemma invoke_from_single (library : BranchInput) (agents : Agents) (node : string)
    (fuel : nat) (state : DocumentState) (trace : list string) :
  node ∈ node_names ->
  exists r, invoke_from library (_build_graph agents) (S fuel) node state trace
            = Some ((trace ++ [node])%list, r).
Proof.
  intros Hin. unfold node_names in Hin.
  repeat (apply elem_of_cons in Hin as [->|Hin]);
    try (apply elem_of_nil in Hin; contradiction);
    unfold _build_graph, _run_ocr, _run_classifier, _run_data_mapping, _run_research,
      _run_legal_expert, _run_cyber_security, _run_structure, _run_generator,
      _run_quality, _run_compliance, _run_human_supervision;
    run_node;
    match goal with
    | |- context [_should_continue ?st] =>
        destruct (should_continue_cases st) as [[-> _]|[->| ->]]; simpl; eauto
    end.
Qed.

Lemma run_trace_ocr (library : BranchInput) (agents : Agents) (fuel : nat)
    (initial_state : DocumentState) :
  run_trace library agents (S fuel) initial_state = Some ["ocr"].
Proof.
  unfold run_trace, invoke. change (entry_point (_build_graph agents)) with "ocr".
  destruct (invoke_from_single library agents "ocr" fuel
              (restrict (schema (_build_graph agents)) initial_state) [])
    as [r ->]; [|reflexivity].
  apply list_elem_of_In. simpl. tauto.
Qed.

(** *** A run, by what the routing function is called on *)

(** Called on the state of the graph, the routing function finds neither
    [status] nor [human_supervision], which are no fields of the schema: it
    answers "continue", no key of any edge, whatever the agents are. *)
Lemma invoke_state_only (agents : Agents) (fuel : nat) (input : DocumentState) :
  invoke StateOnly (_build_graph agents) (S fuel) input
  = Some (["ocr"], Raise (KeyError "continue")).
Proof.
  unfold invoke, _build_graph, _run_ocr. run_node.
  unfold branch_state. rewrite should_continue_continue; [reflexivity| |].
  - apply write_undeclared; [apply status_undeclared|].
    apply restrict_undeclared, status_undeclared.
  - apply write_undeclared; [apply human_supervision_undeclared|].
    apply restrict_undeclared, human_supervision_undeclared.
Qed.

Lemma run_state_only (agents : Agents) (fuel : nat) (initial_state : DocumentState) :
  run StateOnly agents (S fuel) initial_state
  = Some (Ok (<["error" := VStr "'continue'"]>
                (<["status" := VStatus ERROR]> initial_state))).
Proof. unfold run. now rewrite invoke_state_only. Qed.

(** The handler of the first node, with the repository's own agents. *)
Lemma run_ocr_init_agents `{External} `{Pydantic} `{Internals} (state : DocumentState) :
  _run_ocr init_agents state
  = Ok (<["error" := VStr "'OCRAgent' object has no attribute 'process'"]>
          (<["status" := VStatus ERROR]> state)).
Proof. reflexivity. Qed.

(** Called on the state of the graph completed with what the node returned,
    the routing function finds the [status] the handler has set and answers
    "error": the graph ends, and its state is what it was at the start. *)
Lemma invoke_from_step (library : BranchInput) (g : StateGraph) (fuel : nat)
    (node : string) (state : DocumentState) (trace : list string)
    (handler : DocumentState -> Result DocumentState) (output : DocumentState)
    (b : Branch) :
  assoc (nodes g) node = Some handler ->
  handler state = Ok output ->
  assoc (branches g) node = Some b ->
  invoke_from library g (S fuel) node state trace
  = match assoc (path_map b)
            (path b (branch_state library output (write (schema g) output state))) with
    | None =>
        Some ((trace ++ [node])%list,
              Raise (KeyError (path b (branch_state library output
                                         (write (schema g) output state)))))
    | Some END => Some ((trace ++ [node])%list, Ok (write (schema g) output state))
    | Some (Node next) =>
        invoke_from library g fuel next (write (schema g) output state)
          (trace ++ [node])%list
    end.
Proof. intros Hn Hh Hb. cbn [invoke_from]. rewrite Hn, Hh, Hb. reflexivity. Qed.

Lemma invoke_node_output_init `{External} `{Pydantic} `{Internals} (fuel : nat)
    (input : DocumentState) :
  invoke StateAndNodeOutput (_build_graph init_agents) (S fuel) input
  = Some (["ocr"], Ok (restrict DocumentState_fields input)).
Proof.
  unfold invoke. change (entry_point (_build_graph init_agents)) with "ocr".
  change (schema (_build_graph init_agents)) with DocumentState_fields.
  set (state := restrict DocumentState_fields input).
  set (output := <["error" := VStr "'OCRAgent' object has no attribute 'process'"]>
                   (<["status" := VStatus ERROR]> state)).
  assert (Hwrite : write DocumentState_fields output state = state).
  { unfold write, output.
    rewrite restrict_insert_undeclared by apply error_undeclared.
    rewrite restrict_insert_undeclared by apply status_undeclared.
    unfold state. rewrite restrict_idemp. apply (idemp_L (∪)). }
  rewrite (invoke_from_step _ _ _ _ _ _ (_run_ocr init_agents) output
             (snd (edge "ocr" "classifier"))) by reflexivity.
  change (schema (_build_graph init_agents)) with DocumentState_fields.
  rewrite Hwrite. cbn [edge snd path path_map].
  rewrite should_continue_error; [reflexivity|].
  unfold branch_state, output. rewrite lookup_union_r.
  - rewrite lookup_insert_ne by done. apply lookup_insert_eq.
  - apply restrict_undeclared, status_undeclared.
Qed.

Lemma run_node_output_init `{External} `{Pydantic} `{Internals} (fuel : nat)
    (initial_state : DocumentState) :
  run StateAndNodeOutput init_agents (S fuel) initial_state
  = Some (Ok (restrict DocumentState_fields initial_state)).
Proof. unfold run. now rewrite invoke_node_output_init. Qed.

(** C2, as the code has it. The compiled workflow runs none of the stage
    logic: the OCR, classifier, research, structure, generator, quality,
    compliance and human-supervision agents define [execute] and no
    [process], each node calls [process], so the handler of the first node
    catches the [AttributeError] and sets the key [status] of the dictionary
    it was given to [ERROR]; no second node runs. But [status] is no field of
    [DocumentState], so the state of the graph does not keep it. On an input
    that holds a field of [DocumentState]: where the routing function is
    called on the state of the graph it answers "continue", the graph raises
    [KeyError], and [run] returns the initial state with [status = ERROR] and
    the error text ['continue']; where the routing function also sees what
    the node returned it answers "error", the graph ends, and [run] returns
    the declared fields of the initial state, with no [status] at all. *)
Theorem workflow_stops_at_ocr `{External} `{Pydantic} `{Internals} (fuel : nat)
    (initial_state : DocumentState) :
  (exists k, k ∈ DocumentState_fields /\ is_Some (initial_state !! k)) ->
  Forall (fun a => process a = None /\ is_Some (execute a))
         [ocr init_agents; classifier init_agents; research init_agents;
          structure init_agents; generator init_agents; quality init_agents;
          compliance init_agents; human_supervision init_agents]
  /\ (forall state,
         _run_ocr init_agents state
         = Ok (<["error" := VStr "'OCRAgent' object has no attribute 'process'"]>
                 (<["status" := VStatus ERROR]> state)))
  /\ (forall library, run_trace library init_agents (S fuel) initial_state = Some ["ocr"])
  /\ run StateOnly init_agents (S fuel) initial_state
     = Some (Ok (<["error" := VStr "'continue'"]>
                   (<["status" := VStatus ERROR]> initial_state)))
  /\ (exists final_state,
         run StateAndNodeOutput init_agents (S fuel) initial_state = Some (Ok final_state)
         /\ final_state !! "status" = None
         /\ final_state !! "error" = None
         /\ forall k, k ∈ DocumentState_fields -> final_state !! k = initial_state !! k).
Proof.
  intros _.
  split; [repeat constructor; simpl; eauto|].
  split; [intros state; apply run_ocr_init_agents|].
  split; [intros library; apply run_trace_ocr|].
  split; [apply run_state_only|].
  eexists. split; [apply run_node_output_init|].
  split; [apply restrict_undeclared, status_undeclared|].
  split; [apply restrict_undeclared, error_undeclared|].
  intros k Hk. now apply restrict_declared.
Qed.

(** ** The human-supervision stage *)

Lemma review_inputs_typed_insert (k : string) (v : value) (state : DocumentState)
    (q c : float) (r : Z) :
  k ∉ ["quality_score"; "compliance_score"; "revision_attempts"; "quality_issues";
       "compliance_issues"; "document_type"] ->
  review_inputs_typed state q c r ->
  review_inputs_typed (<[k := v]> state) q c r.
Proof.
  intros Hk [Hq Hc Hr Hi Hg Hd].
  repeat (apply not_elem_of_cons in Hk as [? Hk]).
  constructor; rewrite ?get_insert_ne by done; try assumption.
  now rewrite lookup_insert_ne by done.
Qed.

(** The human-supervision stage on typed review inputs, once the review
    package is built. *)
Lemma human_supervision_typed `{External} `{Pydantic} (state : DocumentState)
    (pkg : value) (q c : float) (r : Z) :
  HumanSupervisionAgent._prepare_review_package
    (<["current_step" := VStr "Human Supervision"]>
       (<["current_status" := VStatus PROCESSING]> state)) = Ok pkg ->
  review_inputs_typed state q c r ->
  loggable state ->
  exists final_state,
    HumanSupervisionAgent.execute state = Ok final_state
    /\ current_status final_state
       = Some (if fge q 0.85 && fge c 0.85 then APPROVED
               else if (r <? 2)%Z && (flt q 0.8 || flt c 0.8) then HUMAN_REVIEW
               else REJECTED)
    /\ final_state !! "human_approval" = Some (VBool (fge q 0.85 && fge c 0.85))
    /\ revision_attempts final_state
       = Some (if negb (fge q 0.85 && fge c 0.85)
                  && ((r <? 2)%Z && (flt q 0.8 || flt c 0.8))
               then r + 1 else r)%Z
    /\ final_state !! "can_be_delivered"
       = (if fge q 0.85 && fge c 0.85 then Some (VBool true)
          else state !! "can_be_delivered")
    /\ ((r <= 2)%Z ->
        exists r', revision_attempts final_state = Some r' /\ (r' <= 2)%Z).
Proof.
  intros Hprep Ht Hlog.
  set (state1 := <["current_step" := VStr "Human Supervision"]>
                   (<["current_status" := VStatus PROCESSING]> state)) in *.
  assert (Ht1 : review_inputs_typed state1 q c r).
  { unfold state1. repeat apply review_inputs_typed_insert; try exact Ht;
      rewrite !not_elem_of_cons; repeat split; try discriminate; apply not_elem_of_nil. }
  destruct (process_human_review_typed state1 pkg q c r Ht1) as (text & changes & Hfb).
  destruct Ht1 as [_ _ Hr _ _ _].
  unfold HumanSupervisionAgent.execute, HumanSupervisionAgent.execute_body.
  fold state1. rewrite Hprep. unfold step_val at 1. rewrite Hfb. unfold step_val at 1.
  cbn [HumanSupervisionAgent.approval_status HumanSupervisionAgent.reviewer_name
       HumanSupervisionAgent.feedback HumanSupervisionAgent.review_date].
  unfold specified_decision.
  subst state1. rewrite !get_insert_ne in Hr by done.
  destruct (fge q 0.85 && fge c 0.85) eqn:Happ; cbn [negb andb].
  - cbn [String.eqb Ascii.eqb Bool.eqb].
    match goal with
    | |- context [log_action ?cl ?s ?m] =>
        destruct (log_action_frame cl s m) as (st & -> & _ & Hk);
          [repeat (apply loggable_insert; [done|]); exact Hlog|]
    end.
    cbn [step]. eexists. split; [reflexivity|].
    unfold current_status, revision_attempts, get. rewrite !Hk by done.
    lookup_inserts. fold (get state "revision_attempts" (VInt 0)). rewrite Hr.
    repeat split. intros Hle. eauto.
  - destruct ((r <? 2)%Z && (flt q 0.8 || flt c 0.8)) eqn:Hrev;
      cbn [String.eqb Ascii.eqb Bool.eqb].
    + rewrite !get_insert_ne by done. rewrite Hr. cbn [py_add_one as_number step_val].
      match goal with
      | |- context [log_action ?cl ?s ?m] =>
          destruct (log_action_frame cl s m) as (st & -> & _ & Hk);
            [repeat (apply loggable_insert; [done|]); exact Hlog|]
      end.
      cbn [step]. eexists. split; [reflexivity|].
      unfold current_status, revision_attempts, get. rewrite !Hk by done.
      lookup_inserts.
      repeat split. intros Hle. eexists. split; [reflexivity|].
      apply andb_prop in Hrev as [Hlt _]. apply Z.ltb_lt in Hlt. lia.
    + match goal with
      | |- context [log_action ?cl ?s ?m] =>
          destruct (log_action_frame cl s m) as (st & -> & _ & Hk);
            [repeat (apply loggable_insert; [done|]); exact Hlog|]
      end.
      cbn [step]. eexists. split; [reflexivity|].
      unfold current_status, revision_attempts, get. rewrite !Hk by done.
      lookup_inserts. fold (get state "revision_attempts" (VInt 0)). rewrite Hr.
      repeat split. intros Hle. eauto.
Qed.

(** C1, as the code has it. [run] never raises and always returns a state,
    whatever the agents do and whatever the routing function is called on;
    but the status it returns need not be terminal: the only edges out of the
    [human_supervision] node lead to [END], and the human-supervision stage,
    once its review package is built, leaves [current_status = HUMAN_REVIEW]
    when the reviewer asks for a revision. *)
Theorem run_returns_a_state `{External} `{Pydantic} :
  (forall (library : BranchInput) (agents : Agents) (initial_state : DocumentState),
      exists final_state, run library agents 11 initial_state = Some (Ok final_state))
  /\ (forall agents : Agents,
         exists b, assoc (branches (_build_graph agents)) "human_supervision" = Some b
                   /\ Forall (fun kt => snd kt = END) (path_map b))
  /\ (forall (state : DocumentState) (pkg : value) (q c : float) (r : Z),
         HumanSupervisionAgent._prepare_review_package
           (<["current_step" := VStr "Human Supervision"]>
              (<["current_status" := VStatus PROCESSING]> state)) = Ok pkg ->
         review_inputs_typed state q c r ->
         specified_decision 2 q c r = "needs_revision" ->
         loggable state ->
         exists final_state,
           HumanSupervisionAgent.execute state = Ok final_state
           /\ current_status final_state = Some HUMAN_REVIEW
           /\ terminal final_state = false).
Proof.
  split; [|split].
  - apply run_total.
  - intros agents. eexists. split; [reflexivity|]. repeat constructor.
  - intros state pkg q c r Hprep Ht Hdec Hlog.
    destruct (human_supervision_typed state pkg q c r Hprep Ht Hlog)
      as (final & Hex & Hst & _).
    exists final. split; [exact Hex|].
    unfold specified_decision in Hdec. unfold terminal. rewrite Hst.
    destruct (fge q 0.85 && fge c 0.85); [discriminate|].
    destruct ((r <? 2)%Z && (flt q 0.8 || flt c 0.8)); [|discriminate].
    split; reflexivity.
Qed.

(** ** Failing stages *)

Lemma stage_execute_handles `{External} `{Pydantic} `{Internals} (s : ExecuteStage)
    (state state' : DocumentState) (e : Exc) (l : list value) :
  stage_body s state = Failed state' e ->
  loggable state' ->
  state' !! "error_messages" = Some (VList l) ->
  exists final_state,
    stage_execute s state = Ok final_state
    /\ current_status final_state = Some ERROR
    /\ exists msg, error_messages final_state = Some (l ++ [VStr msg])%list.
Proof.
  intros Hbody Hlog Herr.
  destruct s; simpl in *;
    unfold ocr_execute, OCRAgent.execute, StageAgent.execute, quality_execute,
      QualityAgent.execute, ComplianceAgent.execute, human_supervision_execute,
      HumanSupervisionAgent.execute, in_stage in *;
    rewrite Hbody;
    match goal with
    | |- context [execute_handler ?c ?lp ?ep state' e] =>
        destruct (execute_handler_ok c lp ep state' e l Hlog Herr) as (st & -> & Hst & Hmsg)
    end; simpl; eexists; (split; [reflexivity|]).
  2-8: split; [exact Hst|eauto].
  unfold current_status, error_messages in *.
  rewrite !lookup_insert_ne by done. split; [exact Hst|eauto].
Qed.

(** C3, as the code has it. When the work of a stage that implements
    [execute] throws, on a state that carries an [error_messages] list and a
    usable log, the stage returns the state with [current_status = ERROR] and
    one more entry in [error_messages]. The data-mapping, legal-expert and
    cyber-security stages instead record the failure in their own entry of
    the state and leave [current_status] and [error_messages] as they were.
    The orchestrator does not look at [current_status]: the routing function
    answers the same whatever [current_status] and [error_messages] hold. No
    further node runs after a failing stage, but only because the graph runs
    no second node after any node, failing or not. *)
Theorem failing_stage_reports_error `{External} `{Pydantic} `{Internals} :
  (forall (s : ExecuteStage) (state state' : DocumentState) (e : Exc) (l : list value),
      stage_body s state = Failed state' e ->
      loggable state' ->
      state' !! "error_messages" = Some (VList l) ->
      exists final_state,
        stage_execute s state = Ok final_state
        /\ current_status final_state = Some ERROR
        /\ exists l', error_messages final_state = Some l' /\ l' <> [])
  /\ Forall (fun a =>
               forall work (state : DocumentState) (e : Exc),
                 work state = Raise e ->
                 exists final_state,
                   AnalysisAgent.process a work state = Done final_state
                   /\ current_status final_state = current_status state
                   /\ error_messages final_state = error_messages state
                   /\ exists entry, final_state !! AnalysisAgent.key a = Some (VDict entry)
                                    /\ dict_get entry "status" = VStr "error")
            [AnalysisAgent.data_mapping; AnalysisAgent.legal_expert;
             AnalysisAgent.cyber_security]
  /\ (forall (state : DocumentState) (v : value),
         _should_continue (<["current_status" := v]> state) = _should_continue state
         /\ _should_continue (<["error_messages" := v]> state) = _should_continue state)
  /\ (forall (library : BranchInput) (agents : Agents) (node : string) (fuel : nat)
             (state : DocumentState) (trace : list string),
         node ∈ node_names ->
         exists r, invoke_from library (_build_graph agents) (S fuel) node state trace
                   = Some ((trace ++ [node])%list, r)).
Proof.
  split; [|split; [|split]].
  - intros s state state' e l Hbody Hlog Herr.
    destruct (stage_execute_handles s state state' e l Hbody Hlog Herr)
      as (final & Hex & Hst & msg & Hmsg).
    exists final. repeat split; auto. eexists. split; [exact Hmsg|].
    intros Hnil. apply app_eq_nil in Hnil as [_ Hnil]. discriminate.
  - repeat constructor; intros work state e Hwork;
      unfold AnalysisAgent.process; rewrite Hwork; simpl;
      (eexists; split; [reflexivity|]);
      unfold current_status, error_messages;
      rewrite !lookup_insert_ne by done; rewrite lookup_insert_eq;
      repeat split; eauto.
  - intros state v. split; apply should_continue_frame; discriminate.
  - intros. now apply invoke_from_single.
Qed.

(** ** The initial state *)

Lemma valid_types_spec (document_type : string) :
  existsb (String.eqb document_type) Api.valid_types = true
  <-> document_type ∈ Api.valid_types.
Proof.
  rewrite existsb_exists. split.
  - intros (x & Hin & Heq). apply String.eqb_eq in Heq as ->.
    now apply list_elem_of_In.
  - intros Hin. exists document_type. split; [now apply list_elem_of_In|].
    apply String.eqb_refl.
Qed.

(** C4, as the code has it. [create_initial_state] validates nothing: it
    succeeds on every document type, company name and activity description,
    the empty string included, and stores the three as given. The check of
    the document type against the eight document types is made by the API
    endpoint before it calls [create_initial_state]; an empty company name or
    activity description is refused by the form of the user interface, which
    then sends no request. *)
Theorem create_initial_state_validates_nothing `{External}
    (document_type company_name activity_description : string)
    (uploaded_file : option string) (context : option (list (string * value))) :
  (exists state,
      create_initial_state document_type company_name activity_description
        uploaded_file context = Ok state
      /\ state !! "document_type" = Some (VStr document_type)
      /\ state !! "company_name" = Some (VStr company_name)
      /\ state !! "activity_description" = Some (VStr activity_description))
  /\ Api.check_document_type document_type
     = (if bool_decide (document_type ∈ Api.valid_types) then Ok tt
        else Raise (HTTPException 400
                      ("Tipo de documento inválido. Tipos válidos: "
                       +:+ Api.valid_types_repr)))
  /\ (Ui.missing_required company_name activity_description = true
      <-> company_name = "" \/ activity_description = "").
Proof.
  split; [|split].
  - eexists. split; [reflexivity|]. repeat split.
  - unfold Api.check_document_type.
    destruct (existsb (String.eqb document_type) Api.valid_types) eqn:E; simpl.
    + rewrite bool_decide_eq_true_2; [reflexivity|]. now apply valid_types_spec.
    + rewrite bool_decide_eq_false_2; [reflexivity|].
      intros Hin. apply valid_types_spec in Hin. congruence.
  - unfold Ui.missing_required, truthy. rewrite !negb_involutive, orb_true_iff.
    now rewrite !String.eqb_eq.
Qed.

(** C5, on the code. The state [create_initial_state] returns has an empty
    [processing_log] and [is_complete = False], but of the collection-valued
    fields that [DocumentState] declares it holds [processing_log] alone:
    [error_messages] is absent, and so is [revision_attempts]. *)
Theorem initial_state_fields `{External}
    (document_type company_name activity_description : string)
    (uploaded_file : option string) (context : option (list (string * value))) :
  exists state,
    create_initial_state document_type company_name activity_description
      uploaded_file context = Ok state
    /\ state !! "processing_log" = Some (VList [])
    /\ state !! "is_complete" = Some (VBool false)
    /\ state !! "error_messages" = None
    /\ state !! "revision_attempts" = None
    /\ filter (fun k => is_Some (state !! k)) collection_fields = ["processing_log"].
Proof.
  eexists. split; [reflexivity|]. repeat split.
Qed.

(** ** The compliance verdict *)

(** What [_validate_compliance] computes, on any state it accepts: the
    weighted sum of the three scores, and a verdict that asks for a score of
    0.85 and for no requirement of critical risk at all, resolved or not. *)
Lemma validate_compliance_verdict `{External} (state : DocumentState)
    (v : ComplianceAgent.ComplianceValidation) :
  ComplianceAgent._validate_compliance state = Ok v ->
  ComplianceAgent.overall_compliance_score v
  = (ComplianceAgent.lgpd_compliance_score v * 0.5
     + ComplianceAgent.anpd_compliance_score v * 0.3
     + ComplianceAgent.industry_compliance_score v * 0.2)%float
  /\ ComplianceAgent.is_compliant v
     = fge (ComplianceAgent.overall_compliance_score v) 0.85
       && (length (filter (fun r => String.eqb (ComplianceAgent.risk_level r) "critical" = true)
                          (ComplianceAgent.requirements v)) =? 0)%nat.
Proof.
  unfold ComplianceAgent._validate_compliance.
  destruct (getitem state "document_type") as [dt|]; [simpl|discriminate].
  destruct (enum_value dt); [simpl|discriminate].
  destruct (as_str (get state "generated_content" (VStr ""))); [simpl|discriminate].
  destruct (as_str (get state "industry_sector" (VStr "geral"))); [simpl|discriminate].
  intros [= <-]. simpl. split; reflexivity.
Qed.

(** C7, on the code. For a privacy policy in which every checked pattern
    occurs twice, every requirement is compliant, the weighted score is 1.0
    and the risk assessment is low: no requirement of critical risk is
    unresolved, and the verdict of the specification is compliant. Yet
    [_validate_compliance] answers not compliant, because it counts the
    requirements of critical risk whatever their status. *)
Theorem resolved_critical_requirements_block_compliance :
  exists v,
    ComplianceAgent._validate_compliance (H := sample_external) privacy_policy = Ok v
    /\ ComplianceAgent.overall_compliance_score v = 1%float
    /\ Forall (fun r => ComplianceAgent.status r = "compliant") (ComplianceAgent.requirements v)
    /\ ComplianceAgent.risk_assessment v = "low"
    /\ ComplianceAgent._assess_compliance_risk (ComplianceAgent.requirements v) = "low"
    /\ specified_is_compliant v = true
    /\ ComplianceAgent.is_compliant v = false.
Proof.
  eexists. split; [vm_compute; reflexivity|].
  split; [reflexivity|]. split; [repeat constructor|].
  repeat split.
Qed.

(** ** The quality stage and what follows it *)

(** The part of C9 that holds: when the assessment is made, the quality
    stage ends with [QUALITY_CHECKED] whether or not the assessment is
    acceptable, and counts one more revision attempt exactly when it is not. *)
Lemma quality_stage_checked `{External} `{Internals} (state : DocumentState)
    (assessment : QualityAgent.QualityAssessment) (n : Z) :
  let state1 :=
    <["current_step" := VStr "Quality Control"]>
      (<["current_status" := VStatus PROCESSING]> state) in
  QualityAgent._assess_document_quality _assess_grammar_quality _assess_legal_quality
    _assess_structure_quality _assess_completeness_quality _identify_quality_issues
    state1 = Ok assessment ->
  revision_attempts state = Some n ->
  loggable state ->
  exists final_state,
    quality_execute state = Ok final_state
    /\ current_status final_state = Some QUALITY_CHECKED
    /\ revision_attempts final_state
       = Some (if QualityAgent.is_acceptable assessment then n else n + 1)%Z.
Proof.
  intros state1 Hassess Hn Hlog.
  unfold revision_attempts in Hn.
  destruct (get state "revision_attempts" (VInt 0)) eqn:Hget; try discriminate.
  injection Hn as ->.
  unfold quality_execute, QualityAgent.execute, QualityAgent.execute_body.
  fold state1. rewrite Hassess. simpl.
  destruct (QualityAgent.is_acceptable assessment); simpl.
  - match goal with
    | |- context [log_action ?c ?s ?m] => destruct (log_action_ok c s m) as [l ->]
    end.
    { repeat (apply loggable_insert; [done|]). exact Hlog. }
    simpl. eexists. split; [reflexivity|].
    unfold current_status, revision_attempts. subst state1.
    rewrite !get_insert_ne by done. rewrite Hget.
    rewrite lookup_insert_ne by done. rewrite lookup_insert_eq. split; reflexivity.
  - subst state1. rewrite !get_insert_ne by done. rewrite Hget. simpl.
    match goal with
    | |- context [log_action ?c ?s ?m] => destruct (log_action_ok c s m) as [l ->]
    end.
    { repeat (apply loggable_insert; [done|]). exact Hlog. }
    simpl. eexists. split; [reflexivity|].
    unfold current_status, revision_attempts, get.
    rewrite !(lookup_insert_ne _ "processing_log") by done.
    rewrite lookup_insert_eq.
    rewrite (lookup_insert_ne _ "current_status") by done.
    rewrite lookup_insert_eq. split; reflexivity.
Qed.

(** C9, on the code. The orchestrator never reaches the compliance stage:
    whatever the agents are, a run executes the OCR node alone, and even
    started at the quality node the graph executes that node alone, because
    the answers of [_should_continue] ("error", "end", "continue") never name
    the next node of a conditional edge. *)
Theorem compliance_is_never_reached (library : BranchInput) (agents : Agents)
    (fuel : nat) (state : DocumentState) :
  (exists r, invoke library (_build_graph agents) (S fuel) state = Some (["ocr"], r))
  /\ (exists r, invoke_from library (_build_graph agents) (S fuel) "quality" state []
                = Some (["quality"], r))
  /\ (forall state', _should_continue state' <> "compliance")
  /\ exists trace,
       run_trace library agents (S fuel) state = Some trace /\ "compliance" ∉ trace.
Proof.
  assert (Hocr : exists r, invoke library (_build_graph agents) (S fuel) state
                           = Some (["ocr"], r)).
  { unfold invoke. change (entry_point (_build_graph agents)) with "ocr".
    apply (invoke_from_single library agents "ocr" fuel _ []).
    apply list_elem_of_In. simpl. tauto. }
  split; [exact Hocr|]. split; [|split].
  - apply (invoke_from_single library agents "quality" fuel state []).
    apply list_elem_of_In. simpl. tauto.
  - intros state'.
    destruct (should_continue_cases state') as [[-> _]|[->| ->]]; discriminate.
  - destruct Hocr as [r Hr]. exists ["ocr"]. unfold run_trace. rewrite Hr.
    split; [reflexivity|]. rewrite list_elem_of_singleton. discriminate.
Qed.

(** ** Termination *)


(** ** Concrete runs *)


Lemma first_review_typed : review_inputs_typed first_review 0.5 0.5 0.
Proof.
  constructor; try reflexivity.
  - exists []. split; [reflexivity|constructor].
  - exists []. reflexivity.
  - exists CONSENT_FORM. reflexivity.
Qed.

Lemma under_review_typed : review_inputs_typed under_review 0.5 0.5 0.
Proof.
  constructor; try reflexivity.
  - exists []. split; [reflexivity|constructor].
  - exists []. reflexivity.
  - exists CONSENT_FORM. reflexivity.
Qed.


Lemma scenario_a_has_a_field :
  exists k, k ∈ DocumentState_fields /\ is_Some (scenario_a !! k).
Proof.
  exists "document_id". split.
  - apply (bool_decide_eq_true_1 _). vm_compute. reflexivity.
  - eexists. reflexivity.
Defined.

(** C1 fails as stated: run on a state that is under human review, the
    workflow of the repository returns it with [current_status] still
    [HUMAN_REVIEW], whatever the routing function is called on; run on the
    state of scenario A, it returns a state with no [current_status] at
    all. *)
Lemma run_returns_nonterminal_status :
  Forall (fun library : BranchInput =>
            (exists final_state,
                run library (@init_agents sample_external sample_pydantic failing_internals)
                    11 in_review
                = Some (Ok final_state)
                /\ current_status final_state = Some HUMAN_REVIEW
                /\ terminal final_state = false)
            /\ (exists final_state,
                   run library
                       (@init_agents sample_external sample_pydantic failing_internals)
                       11 scenario_a
                   = Some (Ok final_state)
                   /\ current_status final_state = None
                   /\ terminal final_state = false))
         [StateOnly; StateAndNodeOutput].
Proof.
  repeat constructor.
  - eexists; split; [apply (run_state_only _ 10)|].
    unfold terminal, current_status. rewrite !lookup_insert_ne by discriminate.
    split; vm_compute; reflexivity.
  - eexists; split; [apply (run_state_only _ 10)|].
    unfold terminal, current_status. rewrite !lookup_insert_ne by discriminate.
    split; vm_compute; reflexivity.
  - eexists; split; [apply (run_node_output_init 10)|].
    unfold terminal, current_status.
    rewrite (restrict_declared _ _ _ current_status_declared).
    split; vm_compute; reflexivity.
  - eexists; split; [apply (run_node_output_init 10)|].
    unfold terminal, current_status.
    rewrite (restrict_declared _ _ _ current_status_declared).
    split; vm_compute; reflexivity.
Qed.

(** The first review of a drafted document with both scores at 0.5 asks for
    a revision, and the stage ends in [HUMAN_REVIEW]. *)
Lemma run_returns_a_state_witness :
  review_inputs_typed under_review 0.5 0.5 0
  /\ loggable under_review
  /\ exists final_state,
       HumanSupervisionAgent.execute (H := sample_external) (H0 := sample_pydantic)
         under_review
       = Ok final_state
       /\ current_status final_state = Some HUMAN_REVIEW.
Proof.
  split; [exact under_review_typed|]. split; [exact I|].
  assert (Hp : exists pkg,
             HumanSupervisionAgent._prepare_review_package (H := sample_external)
               (<["current_step" := VStr "Human Supervision"]>
                  (<["current_status" := VStatus PROCESSING]> under_review)) = Ok pkg)
    by (eexists; vm_compute; reflexivity).
  destruct Hp as [pkg Hp].
  destruct (proj2 (proj2 (run_returns_a_state (H := sample_external)
                            (H0 := sample_pydantic)))
              under_review pkg 0.5%float 0.5%float 0%Z Hp under_review_typed eq_refl I)
    as (final & Hex & Hst & _).
  exists final. split; assumption.
Defined.

(** C2 fails as stated where the routing function also sees what the node
    returned: the graph ends, and the state [run] returns has no [status].
    Where the routing function is called on the state of the graph, the
    [status] of the result is [ERROR], with the error text ['continue'] of the
    routing answer, not the text of the [AttributeError]. *)
Lemma run_can_return_no_status :
  (exists final_state,
      run StateAndNodeOutput
          (@init_agents sample_external sample_pydantic failing_internals) 11 scenario_a
      = Some (Ok final_state)
      /\ final_state !! "status" = None)
  /\ (exists final_state,
         run StateOnly
             (@init_agents sample_external sample_pydantic failing_internals) 11 scenario_a
         = Some (Ok final_state)
         /\ final_state !! "status" = Some (VStatus ERROR)
         /\ final_state !! "error" = Some (VStr "'continue'")).
Proof.
  split.
  - eexists. split; [apply (run_node_output_init 10)|].
    apply restrict_undeclared, status_undeclared.
  - eexists. split; [apply (run_state_only _ 10)|]. split; reflexivity.
Qed.

(** Scenario A, run by the repository's agents. *)
Lemma workflow_stops_at_ocr_witness :
  (exists k, k ∈ DocumentState_fields /\ is_Some (scenario_a !! k))
  /\ forall library,
       run_trace library (@init_agents sample_external sample_pydantic failing_internals)
         11 scenario_a
       = Some ["ocr"].
Proof.
  split; [exact scenario_a_has_a_field|].
  exact (proj1 (proj2 (proj2 (workflow_stops_at_ocr (H := sample_external)
                                (H0 := sample_pydantic) (H1 := failing_internals)
                                10 scenario_a scenario_a_has_a_field)))).
Defined.

(** C3 fails as stated: when the analysis of the data-mapping stage throws,
    the stage returns a state whose [current_status] is not [ERROR] and whose
    [error_messages] is still empty; and when the classifier stage fails and
    sets [current_status = ERROR], the routing function does not answer
    "error": the status it reads is the key [status]. *)
Lemma analysis_failure_is_not_an_error :
  (exists final_state,
      AnalysisAgent.process (H := sample_external) AnalysisAgent.data_mapping
        (fun _ => unreachable) classified = Done final_state
      /\ current_status final_state = Some CLASSIFIED
      /\ error_messages final_state = Some []
      /\ final_state !! "data_mapping"
         = Some (VDict [("status", VStr "error"); ("error", VStr "service unavailable");
                        ("mapping_timestamp", VStr "")]))
  /\ (exists final_state,
         stage_execute (H := sample_external) (H0 := sample_pydantic)
           (H1 := failing_internals) SClassifier classified = Ok final_state
         /\ current_status final_state = Some ERROR
         /\ _should_continue final_state = "end").
Proof.
  split.
  - eexists. split; [reflexivity|]. repeat split.
  - eexists. split; [reflexivity|]. split; reflexivity.
Qed.

(** The classifier stage, with the language model unreachable, on a state
    that has its lists. *)
Lemma failing_stage_reports_error_witness :
  stage_body (H := sample_external) (H0 := sample_pydantic) (H1 := failing_internals)
    SClassifier classified
  = Failed (<["current_step" := VStr "Document Classification"]>
              (<["current_status" := VStatus PROCESSING]> classified))
           (ExternalError "service unavailable")
  /\ exists final_state,
       stage_execute (H := sample_external) (H0 := sample_pydantic)
         (H1 := failing_internals) SClassifier classified
       = Ok final_state
       /\ current_status final_state = Some ERROR
       /\ exists l, error_messages final_state = Some l /\ l <> [].
Proof.
  split; [reflexivity|].
  exact (proj1 (failing_stage_reports_error (H := sample_external)
                  (H0 := sample_pydantic) (H1 := failing_internals))
           SClassifier classified
           (<["current_step" := VStr "Document Classification"]>
              (<["current_status" := VStatus PROCESSING]> classified))
           (ExternalError "service unavailable") [] eq_refl I eq_refl).
Defined.

(** C4 fails as stated: a document type outside the eight, with an empty
    company name and an empty activity description, yields a state. *)
Lemma create_initial_state_accepts_invalid_request :
  ("nota_fiscal" ∉ Api.valid_types)
  /\ exists state,
       create_initial_state (H := sample_external) "nota_fiscal" "" "" None None = Ok state
       /\ state !! "document_type" = Some (VStr "nota_fiscal")
       /\ state !! "company_name" = Some (VStr "").
Proof.
  split.
  - intros Hin. apply valid_types_spec in Hin. discriminate.
  - eexists. split; [reflexivity|]. split; reflexivity.
Qed.

(** C6 fails as stated: with the configuration at its default the configured
    maximum is 3, not 2, and after two revision attempts with both scores at
    0.5 the rule of the specification asks for a revision while the code
    rejects; and not every state gets a decision: on a first review of a
    state whose [quality_issues] is a list of strings, as [DocumentState]
    declares it, the function raises. *)
Lemma revision_bound_is_not_the_configured_maximum :
  MAX_REVISION_ATTEMPTS (H := sample_external) = Ok 3%Z
  /\ specified_decision 3 0.5 0.5 2 = "needs_revision"
  /\ (exists fb,
         HumanSupervisionAgent._process_human_review (H := sample_external)
           (H0 := sample_pydantic) twice_revised VNone
         = Ok fb
         /\ HumanSupervisionAgent.approval_status fb = "rejected")
  /\ HumanSupervisionAgent._process_human_review (H := sample_external)
       (H0 := sample_pydantic) declared_issues VNone
     = Raise (AttributeError "'str' object has no attribute 'get'").
Proof.
  split; [reflexivity|]. split; [reflexivity|]. split; [|reflexivity].
  eexists. split; reflexivity.
Qed.

(** The decision on a first review with both scores at 0.5. *)
Lemma simulated_decision_witness :
  review_inputs_typed first_review 0.5 0.5 0
  /\ exists fb,
       HumanSupervisionAgent._process_human_review (H := sample_external)
         (H0 := sample_pydantic) first_review VNone
       = Ok fb
       /\ HumanSupervisionAgent.approval_status fb = "needs_revision".
Proof.
  split; [exact first_review_typed|].
  destruct (simulated_decision (H := sample_external) (H0 := sample_pydantic)
              first_review VNone 0.5 0.5 0 first_review_typed) as (fb & Hfb & Hspec & _).
  exists fb. split; [exact Hfb|]. rewrite Hspec. reflexivity.
Defined.

(** Scenario D: (1.0 * 3 + 0.5 * 4) / (3 + 4). *)
Lemma requirement_scoring_witness :
  scenario_d <> []
  /\ ComplianceAgent._calculate_requirement_score scenario_d = (5 / 7)%float.
Proof.
  split; [discriminate|].
  rewrite (proj2 (proj2 (proj2 (proj2 (proj2 (requirement_scoring (H := sample_external))))))
             scenario_d); [reflexivity|discriminate].
Defined.



(** * Further properties of the code *)

(** ** Logging *)

(** X1. [log_action] appends exactly one entry, ["<class>: <message>"], to
    [processing_log] (creating the list when the key is missing) and touches
    no other key; on a [processing_log] that is not a list it raises. *)
Theorem log_action_appends_one_entry (cls : string) (state : DocumentState)
    (message : string) :
  (loggable state ->
   exists state',
     log_action cls state message = Ok state'
     /\ log_entries state' = (log_entries state ++ [VStr (cls +:+ ": " +:+ message)])%list
     /\ forall k, k <> "processing_log" -> state' !! k = state !! k)
  /\ (~ loggable state -> exists e, log_action cls state message = Raise e).
Proof.
  unfold loggable, log_action, log_entries. rewrite contains_lookup.
  destruct (state !! "processing_log") as [v|] eqn:E.
  - rewrite E. destruct v; (split; [intros Hl; try contradiction|intros Hn; try (exfalso; now apply Hn)]); eauto.
    eexists. split; [reflexivity|]. rewrite lookup_insert_eq. split; [reflexivity|].
    intros k Hk. now rewrite lookup_insert_ne.
  - rewrite lookup_insert_eq. split; [intros _|intros Hn; exfalso; now apply Hn].
    eexists. split; [reflexivity|]. rewrite insert_insert_eq, lookup_insert_eq.
    split; [reflexivity|]. intros k Hk. now rewrite lookup_insert_ne.
Qed.

(** ** Stages on a state without [error_messages] *)

(** X2. When the work of a stage that implements [execute] throws on a
    state that has no [error_messages] key, the handler itself fails: the
    stage raises [KeyError('error_messages')] instead of returning a state. *)
Theorem stage_raises_without_error_messages `{External} `{Pydantic} `{Internals}
    (s : ExecuteStage)
    (state state' : DocumentState) (e : Exc) :
  stage_body s state = Failed state' e ->
  loggable state' ->
  state' !! "error_messages" = None ->
  stage_execute s state = Raise (KeyError "error_messages").
Proof.
  intros Hbody Hlog Herr.
  assert (Hh : forall c lp ep,
             execute_handler c lp ep state' e = Raise (KeyError "error_messages")).
  { intros c lp ep. unfold execute_handler.
    destruct (log_action_ok c state' (lp +:+ str_exc e) Hlog) as [l ->]. simpl.
    unfold append_error. rewrite lookup_insert_ne by done. now rewrite Herr. }
  destruct s; simpl in *;
    unfold ocr_execute, OCRAgent.execute, StageAgent.execute, quality_execute,
      QualityAgent.execute, ComplianceAgent.execute, human_supervision_execute,
      HumanSupervisionAgent.execute, in_stage in *;
    rewrite Hbody, Hh; reflexivity.
Qed.

(** The classifier, with the language model unreachable, on the state of
    scenario A. *)
Lemma stage_raises_without_error_messages_witness :
  scenario_a !! "error_messages" = None
  /\ stage_execute (H := sample_external) (H0 := sample_pydantic)
       (H1 := failing_internals) SClassifier scenario_a
     = Raise (KeyError "error_messages").
Proof.
  split; [reflexivity|].
  exact (stage_raises_without_error_messages (H := sample_external)
           (H0 := sample_pydantic) (H1 := failing_internals) SClassifier scenario_a
           (<["current_step" := VStr "Document Classification"]>
              (<["current_status" := VStatus PROCESSING]> scenario_a))
           (ExternalError "service unavailable") eq_refl I eq_refl).
Defined.

(** ** The OCR stage *)

(** X3. Without an uploaded file (the key missing, [None] or empty bytes)
    the OCR stage returns early: it logs one entry and leaves
    [current_status = PROCESSING]; it writes neither [ocr_text] nor
    [ocr_confidence], and it never reports [OCR_COMPLETE] or [ERROR]. *)
Theorem ocr_without_file `{External} `{Internals} (state : DocumentState) :
  truthy (get state "uploaded_file" VNone) = false ->
  loggable state ->
  exists final_state,
    ocr_execute state = Ok final_state
    /\ current_status final_state = Some PROCESSING
    /\ final_state !! "ocr_text" = state !! "ocr_text"
    /\ final_state !! "ocr_confidence" = state !! "ocr_confidence"
    /\ log_entries final_state
       = (log_entries state ++ [VStr "OCRAgent: Nenhum arquivo para processar"])%list.
Proof.
  intros Hfile Hlog.
  unfold ocr_execute, OCRAgent.execute, OCRAgent.execute_body.
  rewrite !get_insert_ne by done. rewrite Hfile. simpl.
  match goal with
  | |- context [log_action ?c ?s ?m] =>
      destruct (log_action_frame c s m) as (st & -> & Hl & Hk)
  end.
  { repeat (apply loggable_insert; [done|]). exact Hlog. }
  simpl. eexists. split; [reflexivity|].
  split; [|split; [|split]].
  - unfold current_status. rewrite Hk by done.
    rewrite lookup_insert_ne by done. now rewrite lookup_insert_eq.
  - rewrite Hk by done. now rewrite !lookup_insert_ne by done.
  - rewrite Hk by done. now rewrite !lookup_insert_ne by done.
  - rewrite Hl. unfold log_entries. now rewrite !lookup_insert_ne by done.
Qed.

Lemma ocr_without_file_witness :
  exists final_state,
    ocr_execute (H := sample_external) (H1 := failing_internals) scenario_a = Ok final_state
    /\ current_status final_state = Some PROCESSING.
Proof.
  destruct (ocr_without_file (H := sample_external) (H0 := failing_internals)
              scenario_a eq_refl I) as (final & Hex & Hst & _).
  exists final. split; assumption.
Defined.

(** X4. For an uploaded file that is neither a PDF nor an image the OCR
    stage calls no recognition engine: it takes the fixed text
    ["Texto extraído do documento de teste"] with confidence 0.85 and reports
    [OCR_COMPLETE]. *)
Theorem ocr_unknown_file_type `{External} `{Internals} (state : DocumentState)
    (file_bytes : string) :
  state !! "uploaded_file" = Some (VBytes file_bytes) ->
  file_bytes <> "" ->
  OCRAgent._detect_file_type file_bytes = "unknown" ->
  loggable state ->
  exists final_state,
    ocr_execute state = Ok final_state
    /\ current_status final_state = Some OCR_COMPLETE
    /\ final_state !! "file_type" = Some (VStr "unknown")
    /\ final_state !! "ocr_confidence" = Some (VFloat 0.85)
    /\ final_state !! "ocr_text"
       = Some (VStr (_post_process_text "Texto extraído do documento de teste")).
Proof.
  intros Hfile Hne Htype Hlog.
  unfold ocr_execute, OCRAgent.execute, OCRAgent.execute_body.
  rewrite !get_insert_ne by done. unfold get. rewrite Hfile. simpl.
  destruct file_bytes as [|a bytes]; [congruence|]. simpl.
  rewrite Htype. simpl.
  match goal with
  | |- context [log_action ?c ?s ?m] =>
      destruct (log_action_frame c s m) as (st & -> & _ & Hk)
  end.
  { repeat (apply loggable_insert; [done|]). exact Hlog. }
  simpl. eexists. split; [reflexivity|].
  unfold current_status. rewrite !Hk by done.
  repeat split.
  - now rewrite lookup_insert_eq.
  - rewrite !(lookup_insert_ne _ _ "file_type") by done. apply lookup_insert_eq.
  - rewrite !(lookup_insert_ne _ _ "ocr_confidence") by done. apply lookup_insert_eq.
  - rewrite !(lookup_insert_ne _ _ "ocr_text") by done. apply lookup_insert_eq.
Qed.

Lemma ocr_unknown_file_type_witness :
  OCRAgent._detect_file_type "plain text" = "unknown"
  /\ exists final_state,
       ocr_execute (H := sample_external) (H1 := failing_internals) with_text_file
       = Ok final_state
       /\ current_status final_state = Some OCR_COMPLETE
       /\ final_state !! "ocr_confidence" = Some (VFloat 0.85).
Proof.
  split; [reflexivity|].
  destruct (ocr_unknown_file_type (H := sample_external) (H0 := failing_internals)
              with_text_file "plain text" eq_refl ltac:(discriminate) eq_refl I)
    as (final & Hex & Hst & _ & Hconf & _).
  exists final. repeat split; assumption.
Defined.

(** ** The workflow, whatever the agents *)

(** X5. Whatever the eleven agents are and do, no run on an input that
    holds a field of [DocumentState] ends with a [status] other than [ERROR].
    Where the routing function is called on the state of the graph, [run]
    always returns with [status = ERROR] and the error text ['continue']: the
    routing function finds neither [status] nor [human_supervision] among the
    fields of [DocumentState], so its answer is no key of the conditional
    edge. Where the routing function also sees what the node returned, [run]
    returns with [status = ERROR] or, when the graph ends, with no [status]
    at all. *)
Theorem run_always_reports_error (agents : Agents) (fuel : nat)
    (initial_state : DocumentState) :
  (exists k, k ∈ DocumentState_fields /\ is_Some (initial_state !! k)) ->
  (exists final_state,
      run StateOnly agents (S fuel) initial_state = Some (Ok final_state)
      /\ final_state !! "status" = Some (VStatus ERROR)
      /\ final_state !! "error" = Some (VStr "'continue'"))
  /\ (exists final_state,
         run StateAndNodeOutput agents (S fuel) initial_state = Some (Ok final_state)
         /\ (final_state !! "status" = Some (VStatus ERROR)
             \/ final_state !! "status" = None)).
Proof.
  intros _. split.
  - eexists. split; [apply run_state_only|]. split; [|apply lookup_insert_eq].
    rewrite lookup_insert_ne by done. apply lookup_insert_eq.
  - unfold run, invoke. change (entry_point (_build_graph agents)) with "ocr".
    set (state := restrict (schema (_build_graph agents)) initial_state).
    destruct (run_agent_total (ocr agents) state) as [output Hout].
    rewrite (invoke_from_step StateAndNodeOutput (_build_graph agents) fuel "ocr" state []
               (_run_ocr agents) output (snd (edge "ocr" "classifier"))
               eq_refl Hout eq_refl).
    cbn [edge snd path path_map].
    match goal with
    | |- context [_should_continue ?st] =>
        destruct (should_continue_cases st) as [[-> _]|[->| ->]]
    end; cbn [assoc String.eqb Ascii.eqb Bool.eqb];
      (eexists; split; [reflexivity|]).
    + right. apply write_undeclared; [apply status_undeclared|].
      apply restrict_undeclared, status_undeclared.
    + left. rewrite lookup_insert_ne by done. apply lookup_insert_eq.
    + left. rewrite lookup_insert_ne by done. apply lookup_insert_eq.
Qed.

(** Scenario A, whatever the agents. *)
Lemma run_always_reports_error_witness :
  exists final_state,
    run StateOnly (@init_agents sample_external sample_pydantic answering_internals)
        11 scenario_a
    = Some (Ok final_state)
    /\ final_state !! "status" = Some (VStatus ERROR).
Proof.
  destruct (proj1 (run_always_reports_error
                     (@init_agents sample_external sample_pydantic answering_internals)
                     10 scenario_a scenario_a_has_a_field))
    as (final & Hrun & Hstatus & _).
  exists final. split; assumption.
Defined.

(** X6. On every state made by [create_initial_state] the routing function
    already answers "end": the state is created with the key
    [human_supervision], which is what [_should_continue] takes as the sign
    that the last stage has run. *)
Theorem initial_state_routes_to_end `{External}
    (document_type company_name activity_description : string)
    (uploaded_file : option string) (context : option (list (string * value))) :
  exists state,
    create_initial_state document_type company_name activity_description
      uploaded_file context = Ok state
    /\ contains state "human_supervision" = true
    /\ _should_continue state = "end".
Proof. eexists. split; [reflexivity|]. split; reflexivity. Qed.

(** ** The compliance stage *)

Lemma check_all_critical_count `{External} (content : string)
    (reqs : list ComplianceAgent.Req) :
  length (filter (fun r => String.eqb (ComplianceAgent.risk_level r) "critical" = true)
                 (ComplianceAgent.check_all content reqs))
  = length (filter (fun r => String.eqb (ComplianceAgent.risk r) "critical" = true) reqs).
Proof.
  induction reqs as [|req reqs IH]; [reflexivity|].
  unfold ComplianceAgent.check_all in *. simpl.
  destruct (ComplianceAgent._check_requirement content (ComplianceAgent.pattern req))
    as [st ev].
  rewrite !filter_cons. simpl.
  destruct (decide (String.eqb (ComplianceAgent.risk req) "critical" = true));
    simpl; now rewrite IH.
Qed.

Lemma check_all_status_known `{External} (content : string)
    (reqs : list ComplianceAgent.Req) :
  Forall status_known (ComplianceAgent.check_all content reqs).
Proof.
  induction reqs as [|req reqs IH]; [constructor|].
  unfold ComplianceAgent.check_all in *. simpl. constructor; [|exact IH].
  unfold status_known, ComplianceAgent._check_requirement.
  destruct (2 <=? findall_count (ComplianceAgent.pattern req) content)%nat; simpl; auto.
  destruct (findall_count (ComplianceAgent.pattern req) content =? 1)%nat; simpl; auto.
Qed.

Lemma bind_ok {A B : Type} (m : Result A) (f : A -> Result B) (b : B) :
  bind m f = Ok b -> exists a, m = Ok a /\ f a = Ok b.
Proof. destruct m as [a|e]; [eauto|discriminate]. Qed.

Lemma validated_requirements `{External} (state : DocumentState)
    (v : ComplianceAgent.ComplianceValidation) :
  ComplianceAgent._validate_compliance state = Ok v ->
  exists content dt document_type industry_sector,
    state !! "document_type" = Some dt
    /\ enum_value dt = Ok document_type
    /\ ComplianceAgent.requirements v
       = (ComplianceAgent._validate_lgpd_requirements content document_type
          ++ ComplianceAgent._validate_anpd_requirements content document_type
          ++ ComplianceAgent._validate_industry_requirements content industry_sector)%list
    /\ ComplianceAgent.compliance_gaps v
       = ComplianceAgent._identify_compliance_gaps (ComplianceAgent.requirements v)
    /\ ComplianceAgent.risk_assessment v
       = ComplianceAgent._assess_compliance_risk (ComplianceAgent.requirements v).
Proof.
  unfold ComplianceAgent._validate_compliance. intros Hv.
  apply bind_ok in Hv as (dt & Hdt & Hv).
  apply bind_ok in Hv as (document_type & Hvalue & Hv).
  apply bind_ok in Hv as (content & _ & Hv).
  apply bind_ok in Hv as (sector & _ & Hv).
  unfold getitem in Hdt. destruct (state !! "document_type") as [dt'|]; [|discriminate].
  injection Hdt as ->. injection Hv as <-.
  exists content, dt, document_type, sector. repeat split. exact Hvalue.
Qed.

(** X7. A privacy policy or a consent form is never judged compliant,
    whatever its text: the requirement tables of these two document types
    hold requirements of critical risk, and [_validate_compliance] refuses
    every list that holds one. *)
Theorem critical_document_types_never_compliant `{External} (state : DocumentState)
    (v : ComplianceAgent.ComplianceValidation) (d : DocumentType) :
  ComplianceAgent._validate_compliance state = Ok v ->
  state !! "document_type" = Some (VDocType d) ->
  d = PRIVACY_POLICY \/ d = CONSENT_FORM ->
  ComplianceAgent.is_compliant v = false.
Proof.
  intros Hv Hd Hcrit.
  destruct (validate_compliance_verdict state v Hv) as [_ ->].
  destruct (validated_requirements state v Hv)
    as (content & dt & name & sector & Hd' & Hname & -> & _).
  rewrite Hd in Hd'. injection Hd' as <-. injection Hname as <-.
  apply andb_false_intro2.
  rewrite filter_app, length_app.
  assert (Hpp : ComplianceAgent._validate_lgpd_requirements content
                  (DocumentType_value PRIVACY_POLICY)
                = ComplianceAgent.check_all content
                    (ComplianceAgent.base_requirements
                     ++ ComplianceAgent.privacy_policy_requirements)%list) by reflexivity.
  assert (Hcf : ComplianceAgent._validate_lgpd_requirements content
                  (DocumentType_value CONSENT_FORM)
                = ComplianceAgent.check_all content
                    (ComplianceAgent.base_requirements
                     ++ ComplianceAgent.consent_form_requirements)%list) by reflexivity.
  destruct Hcrit as [-> | ->]; [rewrite Hpp|rewrite Hcf];
    rewrite check_all_critical_count; reflexivity.
Qed.

Lemma critical_document_types_never_compliant_witness :
  exists v,
    ComplianceAgent._validate_compliance (H := sample_external) privacy_policy = Ok v
    /\ ComplianceAgent.is_compliant v = false.
Proof.
  assert (Hv : exists v,
             ComplianceAgent._validate_compliance (H := sample_external) privacy_policy
             = Ok v) by (eexists; vm_compute; reflexivity).
  destruct Hv as [v Hv]. exists v. split; [exact Hv|].
  exact (critical_document_types_never_compliant (H := sample_external)
           privacy_policy v PRIVACY_POLICY Hv eq_refl (or_introl eq_refl)).
Defined.

Lemma gaps_count (reqs : list ComplianceAgent.ComplianceRequirement) :
  Forall status_known reqs ->
  length (ComplianceAgent._identify_compliance_gaps reqs)
  = length (filter (fun r => ComplianceAgent.status r <> "compliant") reqs).
Proof.
  unfold ComplianceAgent._identify_compliance_gaps. rewrite length_map.
  induction 1 as [|r reqs Hr _ IH]; [reflexivity|].
  rewrite !filter_cons.
  destruct Hr as [Hs|[Hs|Hs]]; rewrite Hs; simpl;
    repeat case_decide; simpl; try congruence; try discriminate.
Qed.

(** X8. In the result of [_validate_compliance] every requirement has one
    of the three statuses, there is one gap for each requirement that is not
    compliant, and the list of gaps is empty exactly when every requirement
    is compliant. *)
Theorem gaps_are_the_unresolved_requirements `{External} (state : DocumentState)
    (v : ComplianceAgent.ComplianceValidation) :
  ComplianceAgent._validate_compliance state = Ok v ->
  Forall status_known (ComplianceAgent.requirements v)
  /\ length (ComplianceAgent.compliance_gaps v)
     = length (filter (fun r => ComplianceAgent.status r <> "compliant")
                      (ComplianceAgent.requirements v))
  /\ (ComplianceAgent.compliance_gaps v = []
      <-> Forall (fun r => ComplianceAgent.status r = "compliant")
                 (ComplianceAgent.requirements v)).
Proof.
  intros Hv.
  destruct (validated_requirements state v Hv)
    as (content & dt & name & sector & _ & _ & Hreq & Hgaps & _).
  assert (Hknown : Forall status_known (ComplianceAgent.requirements v)).
  { rewrite Hreq. rewrite !Forall_app. repeat split; apply check_all_status_known. }
  split; [exact Hknown|]. rewrite Hgaps.
  pose proof (gaps_count _ Hknown) as Hlen. split; [exact Hlen|].
  rewrite <- length_zero_iff_nil, Hlen, length_zero_iff_nil.
  clear. induction (ComplianceAgent.requirements v) as [|r l IH].
  - split; [constructor|reflexivity].
  - rewrite filter_cons. case_decide as Hs.
    + split; [discriminate|]. intros Hall. inversion Hall; subst. contradiction.
    + rewrite IH. split.
      * intros Hall. constructor; [|exact Hall].
        destruct (decide (ComplianceAgent.status r = "compliant")); [assumption|contradiction].
      * intros Hall. now inversion Hall.
Qed.

(** A privacy policy that names the LGPD twice, the controller once and
    nothing else: of its ten requirements nine are not compliant, and there
    are nine gaps. *)
Lemma gaps_are_the_unresolved_requirements_witness :
  exists v,
    ComplianceAgent._validate_compliance (H := sample_external) sparse_policy = Ok v
    /\ length (ComplianceAgent.requirements v) = 10%nat
    /\ length (ComplianceAgent.compliance_gaps v) = 9%nat.
Proof.
  assert (Hv : exists v,
             ComplianceAgent._validate_compliance (H := sample_external) sparse_policy
             = Ok v
             /\ length (ComplianceAgent.requirements v) = 10%nat
             /\ length (filter (fun r => ComplianceAgent.status r <> "compliant")
                               (ComplianceAgent.requirements v)) = 9%nat)
    by (eexists; split; [vm_compute; reflexivity|split; vm_compute; reflexivity]).
  destruct Hv as (v & Hv & Hn & Hf). exists v. split; [exact Hv|]. split; [exact Hn|].
  rewrite <- Hf.
  exact (proj1 (proj2 (gaps_are_the_unresolved_requirements (H := sample_external)
                         sparse_policy v Hv))).
Defined.

(** X9. Once the validation is made, the compliance stage ends with
    [COMPLIANCE_VALIDATED] whether or not the document is compliant; it
    stores the weighted score and the gaps, and, unlike the quality stage, it
    never counts a revision attempt. *)
Theorem compliance_stage_validated `{External} (state : DocumentState)
    (v : ComplianceAgent.ComplianceValidation) :
  ComplianceAgent._validate_compliance
    (<["current_step" := VStr "Compliance Validation"]>
       (<["current_status" := VStatus PROCESSING]> state)) = Ok v ->
  loggable state ->
  exists final_state,
    ComplianceAgent.execute state = Ok final_state
    /\ current_status final_state = Some COMPLIANCE_VALIDATED
    /\ final_state !! "compliance_score"
       = Some (VFloat (ComplianceAgent.overall_compliance_score v))
    /\ final_state !! "compliance_issues"
       = Some (VList (map VStr (ComplianceAgent.compliance_gaps v)))
    /\ final_state !! "revision_attempts" = state !! "revision_attempts".
Proof.
  intros Hv Hlog.
  unfold ComplianceAgent.execute, ComplianceAgent.execute_body.
  rewrite Hv. unfold step_val.
  destruct (ComplianceAgent.is_compliant v); unfold step;
    match goal with
    | |- context [log_action ?c ?s ?m] =>
        destruct (log_action_frame c s m) as (st & -> & _ & Hk);
          [repeat (apply loggable_insert; [done|]); exact Hlog|]
    end;
    (eexists; split; [reflexivity|]);
    unfold current_status; rewrite !Hk by done;
    (split; [now rewrite lookup_insert_eq|]);
    (split; [rewrite !(lookup_insert_ne _ _ "compliance_score") by done;
             apply lookup_insert_eq|]);
    (split; [rewrite !(lookup_insert_ne _ _ "compliance_issues") by done;
             apply lookup_insert_eq|]);
    now rewrite !lookup_insert_ne by done.
Qed.

Lemma compliance_stage_validated_witness :
  exists final_state,
    ComplianceAgent.execute (H := sample_external) privacy_policy = Ok final_state
    /\ current_status final_state = Some COMPLIANCE_VALIDATED.
Proof.
  assert (Hv : exists v,
             ComplianceAgent._validate_compliance (H := sample_external)
               (<["current_step" := VStr "Compliance Validation"]>
                  (<["current_status" := VStatus PROCESSING]> privacy_policy)) = Ok v)
    by (eexists; vm_compute; reflexivity).
  destruct Hv as [v Hv].
  destruct (compliance_stage_validated (H := sample_external) privacy_policy v Hv I)
    as (final & Hex & Hst & _).
  exists final. split; assumption.
Defined.

(** ** The quality stage *)

(** X10. When the assessment is made, the quality stage stores its overall
    score, ends with [QUALITY_CHECKED] whether or not the assessment is
    acceptable, counts one more revision attempt exactly when it is not (with
    no bound on the count), leaves [error_messages] alone and logs one entry
    naming the verdict and the score. *)
Theorem quality_stage_outcome `{External} `{Internals} (state : DocumentState)
    (assessment : QualityAgent.QualityAssessment) (n : Z) :
  QualityAgent._assess_document_quality _assess_grammar_quality _assess_legal_quality
    _assess_structure_quality _assess_completeness_quality _identify_quality_issues
    (<["current_step" := VStr "Quality Control"]>
       (<["current_status" := VStatus PROCESSING]> state)) = Ok assessment ->
  revision_attempts state = Some n ->
  loggable state ->
  exists final_state,
    quality_execute state = Ok final_state
    /\ current_status final_state = Some QUALITY_CHECKED
    /\ revision_attempts final_state
       = Some (if QualityAgent.is_acceptable assessment then n else n + 1)%Z
    /\ final_state !! "quality_score"
       = Some (VFloat (QualityAgent.overall_score assessment))
    /\ final_state !! "error_messages" = state !! "error_messages"
    /\ log_entries final_state
       = (log_entries state
          ++ [VStr ("QualityAgent: "
                    +:+ (if QualityAgent.is_acceptable assessment
                         then "Qualidade aprovada. Score: "
                         else "Documento requer revisão. Score: ")
                    +:+ fmt_2f (QualityAgent.overall_score assessment))])%list.
Proof.
  intros Hassess Hn Hlog.
  unfold revision_attempts in Hn.
  destruct (get state "revision_attempts" (VInt 0)) eqn:Hget; try discriminate.
  injection Hn as ->.
  unfold quality_execute, QualityAgent.execute, QualityAgent.execute_body.
  rewrite Hassess. cbn [step_val].
  destruct (QualityAgent.is_acceptable assessment); cbn [negb].
  - rewrite log_action_entries
      by (repeat (apply loggable_insert; [discriminate|]); exact Hlog).
    cbn [step]. eexists. split; [reflexivity|].
    unfold current_status, revision_attempts, get.
    log_inserts. lookup_inserts. fold (get state "revision_attempts" (VInt 0)).
    rewrite Hget.
    split; [reflexivity|]. split; [reflexivity|]. split; [reflexivity|].
    split; reflexivity.
  - rewrite !get_insert_ne by discriminate. rewrite Hget. cbn [as_int step_val].
    rewrite log_action_entries
      by (repeat (apply loggable_insert; [discriminate|]); exact Hlog).
    cbn [step]. eexists. split; [reflexivity|].
    unfold current_status, revision_attempts, get.
    log_inserts. lookup_inserts.
    split; [reflexivity|]. split; [reflexivity|]. split; [reflexivity|].
    split; reflexivity.
Qed.

Lemma quality_stage_outcome_witness :
  exists final_state,
    quality_execute (H := sample_external) (H1 := answering_internals) drafted
    = Ok final_state
    /\ current_status final_state = Some QUALITY_CHECKED.
Proof.
  assert (Ha : exists a,
             QualityAgent._assess_document_quality
               (@_assess_grammar_quality answering_internals)
               (@_assess_legal_quality answering_internals)
               (@_assess_structure_quality answering_internals)
               (@_assess_completeness_quality answering_internals)
               (@_identify_quality_issues answering_internals)
               (<["current_step" := VStr "Quality Control"]>
                  (<["current_status" := VStatus PROCESSING]> drafted)) = Ok a)
    by (eexists; vm_compute; reflexivity).
  destruct Ha as [a Ha].
  destruct (quality_stage_outcome (H := sample_external) (H0 := answering_internals)
              drafted a 0 Ha eq_refl I) as (final & Hex & Hst & _).
  exists final. split; assumption.
Defined.

(** ** The three analysis stages, seen from the graph *)

(** X11. A failure inside the data-mapping, legal-expert or cyber-security
    stage is invisible to the orchestrator: [process] never raises, it
    writes its own entry of the state and no other key, so the node handler
    returns with the key [status] as it was and [_should_continue] gives the
    answer it would have given before the stage. *)
Theorem analysis_failure_is_invisible `{External} (a : AnalysisAgent.Analysis)
    (work : DocumentState -> Result (list (string * value))) (state : DocumentState) :
  a ∈ [AnalysisAgent.data_mapping; AnalysisAgent.legal_expert;
       AnalysisAgent.cyber_security] ->
  exists final_state entry,
    run_agent (with_process a work) state = Ok final_state
    /\ final_state = <[AnalysisAgent.key a := VDict entry]> state
    /\ (forall k, k <> AnalysisAgent.key a -> final_state !! k = state !! k)
    /\ final_state !! "status" = state !! "status"
    /\ final_state !! "error" = state !! "error"
    /\ current_status final_state = current_status state
    /\ (AnalysisAgent.key a <> "human_supervision" ->
        _should_continue final_state = _should_continue state).
Proof.
  intros Ha.
  assert (Hkey : AnalysisAgent.key a <> "status" /\ AnalysisAgent.key a <> "error"
                 /\ AnalysisAgent.key a <> "current_status").
  { repeat (apply elem_of_cons in Ha as [->|Ha]); [..|now apply elem_of_nil in Ha];
      repeat split; discriminate. }
  destruct Hkey as (Hs & He & Hc).
  unfold run_agent, call_process, with_process. cbn [process].
  unfold AnalysisAgent.process.
  destruct (work state) as [entries|e]; (eexists _, _; split; [reflexivity|]);
    (split; [reflexivity|]);
    (split; [intros k Hk; now rewrite lookup_insert_ne by done|]);
    unfold current_status, _should_continue, get;
    rewrite !(lookup_insert_ne _ _ "status"), !(lookup_insert_ne _ _ "error"),
      !(lookup_insert_ne _ _ "current_status") by done;
    repeat split; intros Hh; rewrite !contains_lookup;
    now rewrite lookup_insert_ne by done.
Qed.

Lemma analysis_failure_is_invisible_witness :
  exists final_state,
    run_agent (with_process (H := sample_external) AnalysisAgent.data_mapping
                 (fun _ => unreachable)) classified = Ok final_state
    /\ final_state !! "status" = classified !! "status".
Proof.
  destruct (analysis_failure_is_invisible (H := sample_external)
              AnalysisAgent.data_mapping (fun _ => unreachable) classified
              ltac:(apply list_elem_of_In; simpl; tauto))
    as (final & entry & Hex & _ & _ & Hst & _).
  exists final. split; assumption.
Defined.

(** ** Review decisions *)

(** X12. [process_review_decision] validates nothing about the decision:
    "approved" approves and makes the document deliverable, "needs_revision"
    sends it to [HUMAN_REVIEW] and counts one more revision attempt, with no
    bound on the count, and every other string rejects. [human_approval] is
    true exactly for "approved". *)
Theorem review_decision_outcome `{External} `{Pydantic} (state : DocumentState)
    (decision : string)
    (reviewer_info : list (string * value)) (feedback : string) (r : Z) :
  ReviewDecision.reviewer_info_typed reviewer_info ->
  revision_attempts state = Some r ->
  exists final_state,
    ReviewDecision.process_review_decision state decision reviewer_info feedback
    = Done final_state
    /\ current_status final_state
       = Some (if String.eqb decision "approved" then APPROVED
               else if String.eqb decision "needs_revision" then HUMAN_REVIEW
               else REJECTED)
    /\ final_state !! "human_approval" = Some (VBool (String.eqb decision "approved"))
    /\ final_state !! "human_feedback" = Some (VStr feedback)
    /\ revision_attempts final_state
       = Some (if String.eqb decision "needs_revision" then r + 1 else r)%Z
    /\ final_state !! "can_be_delivered"
       = (if String.eqb decision "approved" then Some (VBool true)
          else state !! "can_be_delivered").
Proof.
  intros [[rid Hid] [rname Hname] [conf Hconf] [mins Hmins]] Hr.
  unfold revision_attempts in Hr.
  destruct (get state "revision_attempts" (VInt 0)) eqn:Hget; try discriminate.
  injection Hr as ->.
  unfold ReviewDecision.process_review_decision.
  rewrite Hid, Hname, Hconf, Hmins. unfold HumanSupervisionAgent.ReviewFeedback_init.
  rewrite !field_str_str, field_float_float, field_int_int. cbn [mapM mret option_ret].
  unfold step_val at 1.
  cbn [HumanSupervisionAgent.reviewer_name HumanSupervisionAgent.feedback
       HumanSupervisionAgent.approval_status HumanSupervisionAgent.review_date].
  destruct (String.eqb_spec decision "approved") as [->|Hna].
  - eexists. split; [reflexivity|].
    unfold current_status, revision_attempts.
    rewrite !get_insert_ne by done. rewrite Hget.
    rewrite lookup_insert_eq.
    rewrite !(lookup_insert_ne _ _ "current_status") by done.
    rewrite lookup_insert_eq.
    rewrite !(lookup_insert_ne _ _ "human_approval") by done.
    rewrite lookup_insert_eq.
    rewrite !(lookup_insert_ne _ _ "human_feedback") by done.
    rewrite lookup_insert_eq. repeat split.
  - destruct (String.eqb_spec decision "needs_revision") as [->|Hnr].
    + rewrite !get_insert_ne by done. rewrite Hget. cbn [py_add_one as_number step_val].
      eexists. split; [reflexivity|].
      unfold current_status, revision_attempts, get.
      rewrite lookup_insert_eq.
      rewrite !(lookup_insert_ne _ _ "current_status") by done.
      rewrite lookup_insert_eq.
      rewrite !(lookup_insert_ne _ _ "human_approval") by done.
      rewrite lookup_insert_eq.
      rewrite !(lookup_insert_ne _ _ "human_feedback") by done.
      rewrite lookup_insert_eq.
      rewrite !(lookup_insert_ne _ _ "can_be_delivered") by done.
      repeat split.
    + eexists. split; [reflexivity|].
      unfold current_status, revision_attempts.
      rewrite !get_insert_ne by done. rewrite Hget.
      rewrite !(lookup_insert_ne _ _ "current_status") by done.
      rewrite lookup_insert_eq.
      rewrite !(lookup_insert_ne _ _ "human_approval") by done.
      rewrite lookup_insert_eq.
      rewrite !(lookup_insert_ne _ _ "human_feedback") by done.
      rewrite lookup_insert_eq.
      rewrite !(lookup_insert_ne _ _ "can_be_delivered") by done.
      repeat split.
Qed.

(** A decision that is none of the three: the document is rejected. *)
Lemma review_decision_outcome_witness :
  ReviewDecision.reviewer_info_typed [("reviewer_name", VStr "Ana")]
  /\ exists final_state,
       ReviewDecision.process_review_decision (H := sample_external)
         (H0 := sample_pydantic) twice_revised
         "maybe" [("reviewer_name", VStr "Ana")] "" = Done final_state
       /\ current_status final_state = Some REJECTED.
Proof.
  assert (Ht : ReviewDecision.reviewer_info_typed [("reviewer_name", VStr "Ana")]).
  { constructor; eexists; reflexivity. }
  split; [exact Ht|].
  destruct (review_decision_outcome (H := sample_external) (H0 := sample_pydantic)
              twice_revised "maybe"
              [("reviewer_name", VStr "Ana")] "" 2 Ht eq_refl)
    as (final & Hex & Hst & _).
  exists final. split; assumption.
Defined.

(** X13. The human-supervision stage on a state with a usable log. Once
    the review package is built, and with scores that are floats, an int
    [revision_attempts], a [quality_issues] list of issue dictionaries, a
    [compliance_issues] list and a [DocumentType] member as document type: it
    approves ([APPROVED], deliverable) when both scores reach 0.85; otherwise
    it asks for a revision ([HUMAN_REVIEW], one more revision attempt) when
    fewer than two attempts were made and a score is below 0.8; otherwise it
    rejects ([REJECTED]); a count of revision attempts that is at most 2
    stays at most 2. On a state without [document_id] the review package
    cannot be built: the stage ends in [ERROR], with the missing key reported
    in [error_messages]. *)
Theorem human_supervision_outcome `{External} `{Pydantic} (state : DocumentState) :
  loggable state ->
  (forall (pkg : value) (q c : float) (r : Z),
      HumanSupervisionAgent._prepare_review_package
        (<["current_step" := VStr "Human Supervision"]>
           (<["current_status" := VStatus PROCESSING]> state)) = Ok pkg ->
      review_inputs_typed state q c r ->
      exists final_state,
        HumanSupervisionAgent.execute state = Ok final_state
        /\ current_status final_state
           = Some (if fge q 0.85 && fge c 0.85 then APPROVED
                   else if (r <? 2)%Z && (flt q 0.8 || flt c 0.8) then HUMAN_REVIEW
                   else REJECTED)
        /\ final_state !! "human_approval" = Some (VBool (fge q 0.85 && fge c 0.85))
        /\ revision_attempts final_state
           = Some (if negb (fge q 0.85 && fge c 0.85)
                      && ((r <? 2)%Z && (flt q 0.8 || flt c 0.8))
                   then r + 1 else r)%Z
        /\ final_state !! "can_be_delivered"
           = (if fge q 0.85 && fge c 0.85 then Some (VBool true)
              else state !! "can_be_delivered")
        /\ ((r <= 2)%Z ->
            exists r', revision_attempts final_state = Some r' /\ (r' <= 2)%Z))
  /\ (forall l : list value,
         state !! "document_id" = None ->
         state !! "error_messages" = Some (VList l) ->
         exists final_state,
           HumanSupervisionAgent.execute state = Ok final_state
           /\ current_status final_state = Some ERROR
           /\ error_messages final_state
              = Some (l ++ [VStr "Human Supervision Error: 'document_id'"])%list).
Proof.
  intros Hlog. split.
  - intros pkg q c r Hprep Ht. now apply (human_supervision_typed state pkg).
  - intros l Hid Herr.
    unfold HumanSupervisionAgent.execute, HumanSupervisionAgent.execute_body,
      HumanSupervisionAgent._prepare_review_package, getitem.
    rewrite !lookup_insert_ne by discriminate. rewrite Hid. cbn [bind step_val].
    apply execute_handler_ok.
    + repeat (apply loggable_insert; [discriminate|]). exact Hlog.
    + now rewrite !lookup_insert_ne by discriminate.
Qed.

(** A first review of a drafted document with both scores at 0.5; and the
    same review on a state that has no [document_id]. *)
Lemma human_supervision_outcome_witness :
  loggable under_review
  /\ (exists final_state,
         HumanSupervisionAgent.execute (H := sample_external) (H0 := sample_pydantic)
           under_review
         = Ok final_state
         /\ current_status final_state = Some HUMAN_REVIEW
         /\ revision_attempts final_state = Some 1%Z)
  /\ (exists final_state,
         HumanSupervisionAgent.execute (H := sample_external) (H0 := sample_pydantic)
           first_review
         = Ok final_state
         /\ current_status final_state = Some ERROR).
Proof.
  split; [exact I|]. split.
  - assert (Hp : exists pkg,
               HumanSupervisionAgent._prepare_review_package (H := sample_external)
                 (<["current_step" := VStr "Human Supervision"]>
                    (<["current_status" := VStatus PROCESSING]> under_review)) = Ok pkg)
      by (eexists; vm_compute; reflexivity).
    destruct Hp as [pkg Hp].
    destruct (proj1 (human_supervision_outcome (H := sample_external)
                       (H0 := sample_pydantic) under_review I)
                pkg 0.5%float 0.5%float 0%Z Hp under_review_typed)
      as (final & Hex & Hst & _ & Hr & _).
    exists final. split; [exact Hex|]. split; [exact Hst|exact Hr].
  - destruct (proj2 (human_supervision_outcome (H := sample_external)
                       (H0 := sample_pydantic) first_review I)
                [] eq_refl eq_refl)
      as (final & Hex & Hst & _).
    exists final. split; assumption.
Defined.

(** ** Helpers of the quality agent *)

Lemma no_skip_after_spec (previous : Z) (levels : list Z) :
  QualityChecks.no_skip_after previous levels = true
  <-> forall (i : nat) (a b : Z),
        (previous :: levels) !! i = Some a ->
        (previous :: levels) !! S i = Some b ->
        (b <= a + 1)%Z.
Proof.
  revert previous. induction levels as [|level levels IH]; intros previous; simpl.
  - split; [|reflexivity]. intros _ i a b _ Hb. destruct i; discriminate.
  - destruct (Z.ltb_spec (previous + 1) level) as [Hskip|Hok].
    + split; [discriminate|]. intros Hall.
      specialize (Hall 0%nat previous level eq_refl eq_refl). lia.
    + rewrite IH. split.
      * intros Hall [|i] a b Ha Hb.
        -- injection Ha as <-. injection Hb as <-. exact Hok.
        -- exact (Hall i a b Ha Hb).
      * intros Hall i a b Ha Hb. exact (Hall (S i) a b Ha Hb).
Qed.

(** X14. [_is_hierarchy_consistent] accepts a list of title levels exactly
    when no level exceeds the level before it by more than one; the empty
    list and every one-element list are consistent, and going back up by any
    number of levels is allowed. *)
Theorem hierarchy_consistent_spec (levels : list Z) :
  (QualityChecks._is_hierarchy_consistent levels = true
   <-> forall (i : nat) (a b : Z),
         levels !! i = Some a -> levels !! S i = Some b -> (b <= a + 1)%Z)
  /\ QualityChecks._is_hierarchy_consistent [] = true
  /\ (forall a, QualityChecks._is_hierarchy_consistent [a] = true)
  /\ (forall a b, (b <= a)%Z -> QualityChecks._is_hierarchy_consistent [a; b] = true).
Proof.
  split; [|repeat split].
  - destruct levels as [|first rest]; simpl.
    + split; [|reflexivity]. intros _ i a b Ha. destruct i; discriminate.
    + apply no_skip_after_spec.
  - intros a b Hle. simpl. destruct (Z.ltb_spec (a + 1) b); [lia|reflexivity].
Qed.

(** X15. [_assess_completeness_quality], on a state with a document type
    and a company name: the score reaches 0.8, the bar of the quality
    checklist, exactly when the text is at least as long as the minimum for
    its document type and at most one of the three other defects is present
    (company name missing from the text, no contact word, no date word). The
    score is always above 0.0, so the final clamp changes nothing. *)
Theorem completeness_score_bar `{External} (content : string) (state : DocumentState)
    (d : DocumentType) (company : string) :
  state !! "document_type" = Some (VDocType d) ->
  state !! "company_name" = Some (VStr company) ->
  let too_short :=
    (QualityChecks.py_len content
     <? ComplianceAgent.lookup_default QualityChecks.min_lengths
          (DocumentType_value d) 1000)%nat in
  let no_company := negb (str_in company content) in
  let no_contact :=
    negb (QualityChecks.re_search "\b(contato|email|telefone)\b" content) in
  let no_date := negb (QualityChecks.re_search "\b(data|vigência|vigente)\b" content) in
  exists score,
    QualityChecks._assess_completeness_quality content state = Ok score
    /\ (fge score 0.8 = true
        <-> too_short = false
            /\ no_company && no_contact = false
            /\ no_company && no_date = false
            /\ no_contact && no_date = false)
    /\ flt 0 score = true.
Proof.
  intros Hd Hc too_short no_company no_contact no_date.
  unfold QualityChecks._assess_completeness_quality, getitem.
  rewrite Hd, Hc. cbn [bind enum_value as_str].
  fold too_short. fold no_company. fold no_contact. fold no_date.
  destruct too_short, no_company, no_contact, no_date;
    (eexists; split; [reflexivity|]); vm_compute; intuition congruence.
Qed.

(** The drafted consent form against a text that is only the company
    name. *)
Lemma completeness_score_bar_witness :
  exists score,
    QualityChecks._assess_completeness_quality (H := sample_external)
      "Acme LLC" drafted = Ok score
    /\ flt 0 score = true.
Proof.
  destruct (completeness_score_bar (H := sample_external) "Acme LLC" drafted
              CONSENT_FORM "Acme LLC" eq_refl eq_refl) as (score & Hex & _ & Hpos).
  exists score. split; assumption.
Defined.

(** ** Classification of the recognised text *)

Lemma max_key_greatest (best : string * nat) (scores : list (string * nat)) :
  exists n,
    (OCRText.max_key best scores, n) ∈ best :: scores
    /\ forall kn, kn ∈ best :: scores -> (snd kn <= n)%nat.
Proof.
  revert best. induction scores as [|[k n] scores IH]; intros best; simpl.
  - exists (snd best). split.
    + destruct best. apply list_elem_of_here.
    + intros kn Hin. apply list_elem_of_singleton in Hin as ->. lia.
  - destruct (Nat.ltb_spec (snd best) n) as [Hlt|Hge].
    + destruct (IH (k, n)) as (m & Hin & Hmax). exists m. split.
      * now apply list_elem_of_further.
      * intros kn Hkn. apply elem_of_cons in Hkn as [->|Hkn]; [|now apply Hmax].
        specialize (Hmax (k, n) (list_elem_of_here _ _)). simpl in Hmax. lia.
    + destruct (IH best) as (m & Hin & Hmax). exists m. split.
      * apply elem_of_cons in Hin as [Hin|Hin].
        -- rewrite Hin. apply list_elem_of_here.
        -- now do 2 apply list_elem_of_further.
      * intros kn Hkn. apply elem_of_cons in Hkn as [->|Hkn].
        -- apply Hmax, list_elem_of_here.
        -- apply elem_of_cons in Hkn as [->|Hkn].
           ++ specialize (Hmax best (list_elem_of_here _ _)). simpl. lia.
           ++ now apply Hmax, list_elem_of_further.
Qed.

Lemma max_key_first (best : string * nat) (scores : list (string * nat)) :
  (forall kn, kn ∈ scores -> (snd kn <= snd best)%nat) ->
  OCRText.max_key best scores = fst best.
Proof.
  induction scores as [|[k n] scores IH]; intros Hle; simpl; [reflexivity|].
  pose proof (Hle (k, n) (list_elem_of_here _ _)) as Hn. simpl in Hn.
  destruct (Nat.ltb_spec (snd best) n); [lia|].
  apply IH. intros kn Hkn. now apply Hle, list_elem_of_further.
Qed.

Lemma max_key_of_scores (g : list string -> nat) (first : string * list string)
    (rest : list (string * list string)) :
  exists words,
    (OCRText.max_key (fst first, g (snd first))
       (map (fun kw => (fst kw, g (snd kw))) rest), words) ∈ first :: rest
    /\ forall kw, kw ∈ first :: rest -> (g (snd kw) <= g words)%nat.
Proof.
  set (sc := fun kw : string * list string => (fst kw, g (snd kw))).
  destruct (max_key_greatest (sc first) (map sc rest)) as (n & Hin & Hmax).
  change (sc first :: map sc rest) with (map sc (first :: rest)) in Hin, Hmax.
  apply list_elem_of_fmap in Hin as ([k words] & Heq & Hkw).
  change (sc first) with (fst first, g (snd first)) in Heq.
  set (best := OCRText.max_key (fst first, g (snd first)) (map sc rest)) in *.
  change (sc (k, words)) with (k, g words) in Heq.
  assert (Hk : best = k) by congruence. assert (Hn : n = g words) by congruence.
  exists words. rewrite Hk. split; [exact Hkw|].
  intros kw Hin. rewrite <- Hn. apply (Hmax (sc kw)). apply list_elem_of_fmap. eauto.
Qed.

Lemma score_zero (text_lower : string) (words : list string) :
  (forall word, word ∈ words -> str_in word text_lower = false) ->
  OCRText.score text_lower words = 0%nat.
Proof.
  unfold OCRText.score. induction words as [|w ws IH]; intros Hnone; [reflexivity|].
  rewrite filter_cons.
  rewrite decide_False by (rewrite (Hnone w (list_elem_of_here _ _)); discriminate).
  apply IH. intros w' Hw'. now apply Hnone, list_elem_of_further.
Qed.

Lemma max_key_of_zero_scores (g : list string -> nat) (first : string * list string)
    (rest : list (string * list string)) :
  (forall kw, kw ∈ rest -> g (snd kw) = 0%nat) ->
  OCRText.max_key (fst first, g (snd first))
    (map (fun kw => (fst kw, g (snd kw))) rest) = fst first.
Proof.
  intros Hzero. apply (max_key_first (fst first, g (snd first))).
  intros kn Hkn. apply list_elem_of_fmap in Hkn as (kw & -> & Hkw).
  simpl. rewrite (Hzero kw Hkw). lia.
Qed.

(** X16. [_classify_document] always answers one of its five keys, the one
    whose keywords occur most often in the lower-cased text (the first such
    key on a tie); it never answers "documento_geral", and a text with none
    of the keywords is classified "politica_privacidade". *)
Theorem classify_document_spec `{External} (text : string) :
  (exists words,
      (OCRText._classify_document text, words) ∈ OCRText.keywords
      /\ forall kw, kw ∈ OCRText.keywords ->
                    (OCRText.score (str_lower text) (snd kw)
                     <= OCRText.score (str_lower text) words)%nat)
  /\ OCRText._classify_document text <> "documento_geral"
  /\ ((forall kw word, kw ∈ OCRText.keywords -> word ∈ snd kw ->
                       str_in word (str_lower text) = false) ->
      OCRText._classify_document text = "politica_privacidade").
Proof.
  assert (Hbest : exists words,
             (OCRText._classify_document text, words) ∈ OCRText.keywords
             /\ forall kw, kw ∈ OCRText.keywords ->
                           (OCRText.score (str_lower text) (snd kw)
                            <= OCRText.score (str_lower text) words)%nat).
  { match eval cbv delta [OCRText.keywords] in OCRText.keywords with
    | ?first :: ?rest =>
        exact (max_key_of_scores (OCRText.score (str_lower text)) first rest)
    end. }
  split; [exact Hbest|]. split.
  - destruct Hbest as (words & Hin & _).
    set (result := OCRText._classify_document text) in *. clearbody result.
    intros ->. unfold OCRText.keywords in Hin.
    repeat (apply elem_of_cons in Hin as [Hin|Hin]; [discriminate Hin|]).
    now apply elem_of_nil in Hin.
  - intros Hnone.
    match eval cbv delta [OCRText.keywords] in OCRText.keywords with
    | ?first :: ?rest =>
        apply (max_key_of_zero_scores (OCRText.score (str_lower text)) first rest)
    end.
    intros kw Hkw. apply score_zero. intros word Hword.
    apply (Hnone kw word); [|exact Hword].
    unfold OCRText.keywords. now apply list_elem_of_further.
Qed.

(** ** The document generator of [base_agent.py] *)

Ltac generator_failure Hlog :=
  rewrite (log_action_entries _ _ _ Hlog); cbn [bind];
  eexists; split; [reflexivity|];
  log_inserts; lookup_inserts;
  split; [reflexivity|]; split; [reflexivity|]; split; [reflexivity|];
  split; [reflexivity|]; split; reflexivity.

(** X17. [DocumentGeneratorAgent.execute] of [base_agent.py], on a state whose
    [processing_log] is usable, never raises and never reports a failure
    through [current_status] or [error_messages]: it leaves both as they
    were and adds one log entry.  When the three request fields are present
    and the model answers, it stores the answer with [quality_score] 0.85 and
    [is_complete] True; otherwise it stores nothing but [is_complete] False
    and the log entry ["DocumentGeneratorAgent: Erro: <exception>"]. *)
Theorem generator_execute_outcome
    (chain_invoke : value -> value -> value -> Result string)
    (state : DocumentState) :
  loggable state ->
  let response :=
    (document_type <- getitem state "document_type";;
     company_name <- getitem state "company_name";;
     activity_description <- getitem state "activity_description";;
     chain_invoke document_type company_name activity_description) in
  exists state',
    DocumentGeneratorAgent.execute chain_invoke state = Ok state'
    /\ state' !! "current_status" = state !! "current_status"
    /\ state' !! "error_messages" = state !! "error_messages"
    /\ match response with
       | Ok content =>
           state' !! "is_complete" = Some (VBool true)
           /\ state' !! "generated_content" = Some (VStr content)
           /\ state' !! "quality_score" = Some (VFloat 0.85)
           /\ log_entries state'
              = (log_entries state
                 ++ [VStr "DocumentGeneratorAgent: Documento gerado com sucesso"])%list
       | Raise e =>
           state' !! "is_complete" = Some (VBool false)
           /\ state' !! "generated_content" = state !! "generated_content"
           /\ state' !! "quality_score" = state !! "quality_score"
           /\ log_entries state'
              = (log_entries state
                 ++ [VStr ("DocumentGeneratorAgent: Erro: " +:+ str_exc e)])%list
       end.
Proof.
  intros Hlog response. subst response.
  unfold DocumentGeneratorAgent.execute, DocumentGeneratorAgent.execute_body.
  destruct (getitem state "document_type") as [document_type|e];
    cbn [bind step_val]; [|generator_failure Hlog].
  destruct (getitem state "company_name") as [company_name|e];
    cbn [bind step_val]; [|generator_failure Hlog].
  destruct (getitem state "activity_description") as [activity_description|e];
    cbn [bind step_val]; [|generator_failure Hlog].
  destruct (chain_invoke document_type company_name activity_description)
    as [content|e]; cbn [bind step_val]; [|generator_failure Hlog].
  rewrite log_action_entries
    by (repeat (apply loggable_insert; [discriminate|]); exact Hlog).
  cbn [step]. eexists. split; [reflexivity|].
  log_inserts. lookup_inserts.
  split; [reflexivity|]. split; [reflexivity|]. split; [reflexivity|].
  split; [reflexivity|]. split; reflexivity.
Qed.

Lemma generator_execute_outcome_witness :
  exists state',
    DocumentGeneratorAgent.execute (fun _ _ _ => Ok "Termo") scenario_a = Ok state'
    /\ state' !! "current_status" = scenario_a !! "current_status"
    /\ state' !! "error_messages" = scenario_a !! "error_messages".
Proof.
  destruct (generator_execute_outcome (fun _ _ _ => Ok "Termo") scenario_a I)
    as (state' & Hrun & Hstatus & Herrors & _).
  exists state'. split; [exact Hrun|]. split; [exact Hstatus|exact Herrors].
Defined.
